(** * mongodb-s3-backup: backup, restore and retention, embedded in Rocq

    Shallow embedding of [src/index.ts] (mongodump based backup and the
    retention cleanup), of [src/restore.ts] (listing, download, decoding
    and restore) and of the driver based backup that serialises the
    snapshot with [JSON.stringify].

    The collaborators (the S3 client, the MongoDB driver, the file
    system, the clock, the URL parser) are not part of the repository:
    they are the fields of an environment record [Env], and every function
    of the program is a computation that calls them, records each call and
    each console line in a trace, and ends by returning, throwing or
    leaving the process. *)

From Stdlib Require Import ZArith List String Ascii Bool Lia Floats.
From Stdlib Require Import Permutation Sorted.
Import ListNotations.

Set Warnings "-register-all".

Local Open Scope string_scope.
Local Open Scope Z_scope.

(** ** JavaScript values and built-ins used by the program *)

Module JS.

(** Truthiness of a string: only the empty string is falsy. *)
Definition truthy (s : string) : bool :=
  match s with
  | EmptyString => false
  | String _ _ => true
  end.

(** [s.slice(1)]. *)
Definition slice1 (s : string) : string :=
  match s with
  | EmptyString => EmptyString
  | String _ rest => rest
  end.

(** [s.split("/").pop()]: the part of [s] after its last slash. *)
Fixpoint lastSegment_acc (acc s : string) : string :=
  match s with
  | EmptyString => acc
  | String c rest =>
      if Ascii.eqb c "/"%char then lastSegment_acc EmptyString rest
      else lastSegment_acc (acc ++ String c EmptyString) rest
  end.

Definition lastSegment (s : string) : string := lastSegment_acc EmptyString s.

(** [s.split("T")[0]]: the part of [s] before its first [T]. *)
Fixpoint beforeT (s : string) : string :=
  match s with
  | EmptyString => EmptyString
  | String c rest =>
      if Ascii.eqb c "T"%char then EmptyString else String c (beforeT rest)
  end.

(** [s.replace(/-/g, "")]. *)
Fixpoint removeDashes (s : string) : string :=
  match s with
  | EmptyString => EmptyString
  | String c rest =>
      if Ascii.eqb c "-"%char then removeDashes rest
      else String c (removeDashes rest)
  end.

(** *** Numbers produced by [parseInt]

    [parseInt] returns [NaN] or an integral Number.  The integral value is
    kept exact; the program only tests its sign and subtracts it from a day
    of the month, and every result that is a valid time value is below
    2^53, where Number arithmetic on integers is exact. *)
Inductive Number : Type :=
| NaN
| Int (z : Z).

Definition isNaN (n : Number) : bool :=
  match n with
  | NaN => true
  | Int _ => false
  end.

(** The white space [parseInt] skips, among the characters below 128. *)
Definition isWhiteSpace (c : ascii) : bool :=
  let n := nat_of_ascii c in
  (Nat.eqb n 9 || Nat.eqb n 10 || Nat.eqb n 11 || Nat.eqb n 12
   || Nat.eqb n 13 || Nat.eqb n 32)%bool.

Definition digitValue (c : ascii) : option Z :=
  let n := nat_of_ascii c in
  if (Nat.leb 48 n && Nat.leb n 57)%bool then Some (Z.of_nat n - 48) else None.

Fixpoint skipWhiteSpace (s : string) : string :=
  match s with
  | EmptyString => EmptyString
  | String c rest => if isWhiteSpace c then skipWhiteSpace rest else s
  end.

(** The value of the longest prefix of decimal digits; [None] when the
    prefix is empty and no digit has been read. *)
Fixpoint digitsPrefix (acc : option Z) (s : string) : option Z :=
  match s with
  | EmptyString => acc
  | String c rest =>
      match digitValue c with
      | Some d =>
          digitsPrefix (Some (10 * match acc with Some a => a | None => 0 end + d)) rest
      | None => acc
      end
  end.

(** [parseInt(s, 10)]. *)
Definition parseInt10 (s : string) : Number :=
  let t := skipWhiteSpace s in
  let '(sign, body) :=
    match t with
    | String c rest =>
        if Ascii.eqb c "-"%char then (-1, rest)
        else if Ascii.eqb c "+"%char then (1, rest)
        else (1, t)
    | EmptyString => (1, t)
    end in
  match digitsPrefix None body with
  | None => NaN
  | Some m => Int (sign * m)
  end.

(** *** Dates

    A [Date] holds a time value in milliseconds since the epoch, or NaN
    (an invalid date), here [None]. *)
Definition Date : Type := option Z.

Definition msPerDay : Z := 86400000.
Definition maxTimeValue : Z := 8640000000000000.

Definition TimeClip (t : Z) : Date :=
  if Z.abs t >? maxTimeValue then None else Some t.

(** The host's time zone: the offset of local time at a UTC instant and at
    a local instant. *)
Record TimeZone : Type := {
  LocalTZA_utc : Z -> Z;
  LocalTZA_local : Z -> Z
}.

Definition LocalTime (tz : TimeZone) (t : Z) : Z := t + LocalTZA_utc tz t.
Definition UTC (tz : TimeZone) (t : Z) : Z := t - LocalTZA_local tz t.

(** [d.setDate(d.getDate() - n)].  With [lt] the local time of [d], the
    call builds [MakeDate(MakeDay(year lt, month lt, date lt - n),
    TimeWithinDay lt)]; [MakeDay] of the day of the month shifted by [- n]
    is [Day lt - n], so the new local time is [lt - n * msPerDay], which
    is converted back to UTC and clipped. *)
Definition setDate_getDate_minus (tz : TimeZone) (d : Date) (n : Z) : Date :=
  match d with
  | None => None
  | Some t => TimeClip (UTC tz (LocalTime tz t - n * msPerDay))
  end.

(** [a < b] on a valid date and a possibly invalid one: a comparison with
    NaN is false. *)
Definition date_lt (a : Z) (b : Date) : bool :=
  match b with
  | Some t => Z.ltb a t
  | None => false
  end.

(** *** [Date.prototype.toISOString] on a valid time value *)

Definition digitChar (d : Z) : ascii := ascii_of_nat (48 + Z.to_nat d).

(** The last [width] decimal digits of [n]. *)
Fixpoint padDigits (width : nat) (n : Z) : string :=
  match width with
  | O => EmptyString
  | S w => padDigits w (n / 10) ++ String (digitChar (n mod 10)) EmptyString
  end.

(** Year, month and day of the month of a day number (days since the
    epoch) in the proleptic Gregorian calendar. *)
Definition civilFromDays (days : Z) : Z * Z * Z :=
  let z := days + 719468 in
  let era := z / 146097 in
  let doe := z - era * 146097 in
  let yoe := (doe - doe / 1460 + doe / 36524 - doe / 146096) / 365 in
  let doy := doe - (365 * yoe + yoe / 4 - yoe / 100) in
  let mp := (5 * doy + 2) / 153 in
  let d := doy - (153 * mp + 2) / 5 + 1 in
  let m := if mp <? 10 then mp + 3 else mp - 9 in
  let y := yoe + era * 400 + (if m <=? 2 then 1 else 0) in
  (y, m, d).

Definition yearString (y : Z) : string :=
  if (0 <=? y) && (y <=? 9999) then padDigits 4 y
  else if y <? 0 then "-" ++ padDigits 6 (- y)
  else "+" ++ padDigits 6 y.

Definition toISOString (t : Z) : string :=
  let '(y, m, d) := civilFromDays (t / msPerDay) in
  let ms := t mod msPerDay in
  yearString y ++ "-" ++ padDigits 2 m ++ "-" ++ padDigits 2 d ++ "T"
  ++ padDigits 2 (ms / 3600000) ++ ":" ++ padDigits 2 (ms / 60000 mod 60) ++ ":"
  ++ padDigits 2 (ms / 1000 mod 60) ++ "." ++ padDigits 3 (ms mod 1000) ++ "Z".

End JS.

(** ** Document values and the archive codec

    [createMongoDBBackup] (driver based variant) writes
    [JSON.stringify(backup, null, 2)]; [decompressBackup] reads the text
    back with [EJSON.parse].  The text itself, its indentation and its gzip
    wrapping are the platform's: the model works on the JSON tree that
    [JSON.stringify] renders and [JSON.parse] rebuilds. *)

Module Codec.

(** The values a document holds once the driver has read it. *)
Inductive value : Type :=
| VNull
| VBool (b : bool)
| VNumber (n : float)
| VString (s : string)
| VDate (d : JS.Date)
| VObjectId (hex : string)
| VBinary (base64 : string) (subType : Z)
| VDecimal128 (repr : string)
| VArray (items : list value)
| VObject (fields : list (string * value)).

Definition obj : Type := list (string * value).

Inductive json : Type :=
| JNull
| JBool (b : bool)
| JNumber (n : float)
| JString (s : string)
| JArray (items : list json)
| JObject (fields : list (string * json)).

(** *** [JSON.stringify]

    Each value is replaced by what its [toJSON] returns, when it has one:
    a [Date] gives its ISO string (null when invalid), an [ObjectId] its
    hex string, a [Binary] its base 64 string, a [Decimal128] the object
    [{ $numberDecimal: repr }].  A Number that is not finite is rendered
    as null, and the zero of either sign as 0. *)
Definition jsonNumber (n : float) : json :=
  if (PrimFloat.is_nan n || PrimFloat.is_infinity n)%bool then JNull
  else if PrimFloat.is_zero n then JNumber PrimFloat.zero
  else JNumber n.

Fixpoint JSON_stringify (v : value) : json :=
  match v with
  | VNull => JNull
  | VBool b => JBool b
  | VNumber n => jsonNumber n
  | VString s => JString s
  | VDate None => JNull
  | VDate (Some t) => JString (JS.toISOString t)
  | VObjectId hex => JString hex
  | VBinary base64 _ => JString base64
  | VDecimal128 repr => JObject [("$numberDecimal", JString repr)]
  | VArray items => JArray (map JSON_stringify items)
  | VObject fields => JObject (map (fun kv => (fst kv, JSON_stringify (snd kv))) fields)
  end.

(** *** [EJSON.parse] with its default (relaxed) options

    [JSON.parse] rebuilds the tree and calls the reviver on every value,
    children first.  The reviver throws on a key that contains the NUL
    character, keeps numbers, strings, booleans and null as they are, and
    turns an object that carries a [$]-prefixed key with a non-null value
    into the BSON value that key names.  Of those keys the model covers
    [$numberDecimal]; an object with any other one is outside the model
    ([Unmodelled]). *)
Inductive parsed (A : Type) : Type :=
| Parsed (a : A)
| ParseThrows
| Unmodelled.

Arguments Parsed {A} a.
Arguments ParseThrows {A}.
Arguments Unmodelled {A}.

Fixpoint hasNul (s : string) : bool :=
  match s with
  | EmptyString => false
  | String c rest => (Ascii.eqb c Ascii.zero || hasNul rest)%bool
  end.

Definition isDollarKey (k : string) : bool :=
  match k with
  | String c _ => Ascii.eqb c "$"%char
  | EmptyString => false
  end.

Definition isNull (v : value) : bool :=
  match v with
  | VNull => true
  | _ => false
  end.

(** The [$]-prefixed keys of an object whose value is not null. *)
Definition dollarKeys (fields : obj) : list (string * value) :=
  filter (fun kv => isDollarKey (fst kv) && negb (isNull (snd kv)))%bool fields.

(** [deserializeValue] on an object whose properties are already revived. *)
Definition reviveObject (fields : obj) : parsed value :=
  match dollarKeys fields with
  | [] => Parsed (VObject fields)
  | [(k, v)] =>
      if String.eqb k "$numberDecimal" then
        match v with
        | VString repr => Parsed (VDecimal128 repr)
        | _ => ParseThrows
        end
      else Unmodelled
  | _ => Unmodelled
  end.

Definition parsed_bind {A B : Type} (r : parsed A) (k : A -> parsed B) : parsed B :=
  match r with
  | Parsed a => k a
  | ParseThrows => ParseThrows
  | Unmodelled => Unmodelled
  end.

(** The reviver on the elements of an array and on the properties of an
    object, in order. *)
Definition parseItems (parse : json -> parsed value) : list json -> parsed (list value) :=
  fix go (l : list json) : parsed (list value) :=
    match l with
    | [] => Parsed []
    | x :: rest =>
        parsed_bind (parse x) (fun v =>
        parsed_bind (go rest) (fun vs => Parsed (v :: vs)))
    end.

Definition parseFields (parse : json -> parsed value) : list (string * json) -> parsed obj :=
  fix go (l : list (string * json)) : parsed obj :=
    match l with
    | [] => Parsed []
    | kx :: rest =>
        parsed_bind (parse (snd kx)) (fun v =>
        if hasNul (fst kx) then ParseThrows
        else parsed_bind (go rest) (fun kvs => Parsed ((fst kx, v) :: kvs)))
    end.

Fixpoint EJSON_parse (j : json) : parsed value :=
  match j with
  | JNull => Parsed VNull
  | JBool b => Parsed (VBool b)
  | JNumber n => Parsed (VNumber n)
  | JString s => Parsed (VString s)
  | JArray items =>
      parsed_bind (parseItems EJSON_parse items) (fun vs => Parsed (VArray vs))
  | JObject fields =>
      parsed_bind (parseFields EJSON_parse fields) reviveObject
  end.

(** The values that plain JSON carries without loss: null, booleans,
    strings, the numbers [JSON.stringify] renders as they are, decimals,
    and the arrays and objects made of them, with keys that neither hold
    the NUL character nor start with [$]. *)
Inductive Plain : value -> Prop :=
| Plain_null : Plain VNull
| Plain_bool (b : bool) : Plain (VBool b)
| Plain_number (n : float) : jsonNumber n = JNumber n -> Plain (VNumber n)
| Plain_string (s : string) : Plain (VString s)
| Plain_decimal (repr : string) : Plain (VDecimal128 repr)
| Plain_array (items : list value) : Forall Plain items -> Plain (VArray items)
| Plain_object (fields : obj) :
    Forall (fun kv => hasNul (fst kv) = false /\ isDollarKey (fst kv) = false) fields ->
    Forall Plain (map snd fields) ->
    Plain (VObject fields).

(** Induction on [Plain] that reaches the elements of arrays and the
    values of objects. *)
Section PlainInduction.

Variable P : value -> Prop.
Hypothesis Hnull : P VNull.
Hypothesis Hbool : forall b, P (VBool b).
Hypothesis Hnumber : forall n, jsonNumber n = JNumber n -> P (VNumber n).
Hypothesis Hstring : forall s, P (VString s).
Hypothesis Hdecimal : forall repr, P (VDecimal128 repr).
Hypothesis Harray : forall items, Forall Plain items -> Forall P items -> P (VArray items).
Hypothesis Hobject : forall fields,
    Forall (fun kv => hasNul (fst kv) = false /\ isDollarKey (fst kv) = false) fields ->
    Forall Plain (map snd fields) -> Forall P (map snd fields) -> P (VObject fields).

Fixpoint Plain_nested_ind (v : value) (H : Plain v) {struct H} : P v :=
  match H in Plain v0 return P v0 with
  | Plain_null => Hnull
  | Plain_bool b => Hbool b
  | Plain_number n Hn => Hnumber n Hn
  | Plain_string s => Hstring s
  | Plain_decimal repr => Hdecimal repr
  | Plain_array items Hall =>
      Harray items Hall
        ((fix go (l : list value) (Hl : Forall Plain l) {struct Hl} : Forall P l :=
            match Hl in Forall _ l0 return Forall P l0 with
            | Forall_nil _ => Forall_nil P
            | @Forall_cons _ _ x rest Hx Hrest =>
                @Forall_cons _ P x rest (Plain_nested_ind x Hx) (go rest Hrest)
            end) items Hall)
  | Plain_object fields Hkeys Hall =>
      Hobject fields Hkeys Hall
        ((fix go (l : list value) (Hl : Forall Plain l) {struct Hl} : Forall P l :=
            match Hl in Forall _ l0 return Forall P l0 with
            | Forall_nil _ => Forall_nil P
            | @Forall_cons _ _ x rest Hx Hrest =>
                @Forall_cons _ P x rest (Plain_nested_ind x Hx) (go rest Hrest)
            end) (map snd fields) Hall)
  end.

End PlainInduction.

End Codec.

(** ** The snapshot ([BackupData]) *)

Module Snapshot.

Import Codec.

(** [{ documents: any[]; indexes: any[] }]; the restore tests both
    properties for presence, so each may be absent. *)
Record CollData : Type := {
  documents : option (list value);
  indexes : option (list obj)
}.

Record DbData : Type := {
  collections : list (string * CollData)
}.

(** The objects used as maps are kept as their entries, in property
    order. *)
Record BackupData : Type := {
  databases : list (string * DbData);
  timestamp : string
}.

(** Property lookup and removal on an object. *)
Fixpoint lookup {A : Type} (k : string) (o : list (string * A)) : option A :=
  match o with
  | [] => None
  | (k', v) :: rest => if String.eqb k k' then Some v else lookup k rest
  end.

Definition remove {A : Type} (k : string) (o : list (string * A)) : list (string * A) :=
  filter (fun kv => negb (String.eqb k (fst kv))) o.

(** [o[k] = v]: an existing property keeps its place, a new one is added
    last.  (An engine enumerates keys that are array indices first; no
    statement below depends on the place of a key.) *)
Fixpoint assign {A : Type} (k : string) (v : A) (o : list (string * A)) : list (string * A) :=
  match o with
  | [] => [(k, v)]
  | (k', v') :: rest =>
      if String.eqb k k' then (k, v) :: rest else (k', v') :: assign k v rest
  end.

(** The object literal the backup builds, as a value. *)
Definition optField (k : string) (v : option value) : obj :=
  match v with
  | Some x => [(k, x)]
  | None => []
  end.

Definition valueOfCollData (c : CollData) : value :=
  VObject (optField "documents" (option_map VArray (documents c))
           ++ optField "indexes" (option_map (fun l => VArray (map VObject l)) (indexes c)))%list.

Definition valueOfDbData (d : DbData) : value :=
  VObject [("collections",
            VObject (map (fun kv => (fst kv, valueOfCollData (snd kv))) (collections d)))].

Definition valueOfBackupData (b : BackupData) : value :=
  VObject [("databases",
            VObject (map (fun kv => (fst kv, valueOfDbData (snd kv))) (databases b)));
           ("timestamp", VString (timestamp b))].

(** [value as BackupData]: the cast is unchecked in the source; the model
    reads a value of the expected shape and gives [None] on any other. *)
Fixpoint traverse {A B : Type} (f : A -> option B) (l : list A) : option (list B) :=
  match l with
  | [] => Some []
  | x :: rest =>
      match f x, traverse f rest with
      | Some y, Some ys => Some (y :: ys)
      | _, _ => None
      end
  end.

Definition asObject (v : value) : option obj :=
  match v with
  | VObject fields => Some fields
  | _ => None
  end.

Definition asArray (v : value) : option (list value) :=
  match v with
  | VArray items => Some items
  | _ => None
  end.

(** An optional array property: absent, or an array read by [f]. *)
Definition optArray {B : Type} (f : value -> option B) (v : option value)
  : option (option (list B)) :=
  match v with
  | None => Some None
  | Some (VArray items) => option_map Some (traverse f items)
  | Some _ => None
  end.

Definition asCollData (v : value) : option CollData :=
  match asObject v with
  | Some fields =>
      match optArray Some (lookup "documents" fields),
            optArray asObject (lookup "indexes" fields) with
      | Some docs, Some idx => Some {| documents := docs; indexes := idx |}
      | _, _ => None
      end
  | None => None
  end.

Definition asEntries {B : Type} (f : value -> option B) (v : value)
  : option (list (string * B)) :=
  match asObject v with
  | Some fields =>
      traverse (fun kv => option_map (fun y => (fst kv, y)) (f (snd kv))) fields
  | None => None
  end.

Definition asDbData (v : value) : option DbData :=
  match asObject v with
  | Some fields =>
      match lookup "collections" fields with
      | Some c => option_map (fun cs => {| collections := cs |}) (asEntries asCollData c)
      | None => None
      end
  | None => None
  end.

Definition asBackupData (v : value) : option BackupData :=
  match asObject v with
  | Some fields =>
      match lookup "databases" fields, lookup "timestamp" fields with
      | Some d, Some (VString ts) =>
          option_map (fun ds => {| databases := ds; timestamp := ts |}) (asEntries asDbData d)
      | _, _ => None
      end
  | None => None
  end.

(** The archive codec on snapshots: what the backup writes and what the
    restore reads back. *)
Definition encode (b : BackupData) : json := JSON_stringify (valueOfBackupData b).

Definition decode (j : json) : parsed BackupData :=
  match EJSON_parse j with
  | Parsed v =>
      match asBackupData v with
      | Some b => Parsed b
      | None => Unmodelled
      end
  | ParseThrows => ParseThrows
  | Unmodelled => Unmodelled
  end.

(** Snapshots that plain JSON carries without loss: plain documents and
    index definitions, under database and collection names that neither
    hold the NUL character nor start with [$]. *)
Definition plainKey (k : string) : Prop := hasNul k = false /\ isDollarKey k = false.

Definition PlainCollData (c : CollData) : Prop :=
  match documents c with
  | Some docs => Forall Plain docs
  | None => True
  end
  /\ match indexes c with
     | Some idx => Forall (fun index => Plain (VObject index)) idx
     | None => True
     end.

Definition PlainSnapshot (b : BackupData) : Prop :=
  Forall (fun db =>
            plainKey (fst db)
            /\ Forall (fun coll => plainKey (fst coll) /\ PlainCollData (snd coll))
                 (collections (snd db)))
         (databases b).

End Snapshot.

(** ** Effects: collaborators, traces and outcomes *)

Module Effects.

Import Codec.

(** One entry of the [writeErrors] of a bulk write error: the position of
    the document in the bulk and the code it failed with. *)
Record WriteError : Type := {
  we_index : Z;
  we_code : Z
}.

(** An error object, with the properties the program reads: [code] (kept
    when it is a number), [codeName], [message] and
    [result?.insertedCount]; and the [writeErrors] a bulk write error
    carries, one for each document of the bulk that failed, which the
    program does not read. *)
Record JsError : Type := {
  err_name : string;
  err_message : string;
  err_code : option Z;
  err_codeName : option string;
  err_insertedCount : option Z;
  err_writeErrors : list WriteError
}.

(** [new Error(message)] and the like. *)
Definition newError (name message : string) : JsError :=
  {| err_name := name; err_message := message; err_code := None;
     err_codeName := None; err_insertedCount := None; err_writeErrors := [] |}.

(** One object of a [ListObjectsV2] response. *)
Record S3Object : Type := {
  Key : option string;
  LastModified : option Z
}.

(** A console line is the sequence of its pieces: literal text, the
    numbers, values and errors spliced into it. *)
Inductive Frag : Type :=
| Str (s : string)
| Num (z : Z)
| Val (v : option value)
| Err (e : JsError).

Inductive Level : Type := LLog | LWarn | LError.

(** The requests sent to the collaborators. *)
Inductive Request : Type :=
| S3ListObjectsV2 (bucket prefix : string)
| S3DeleteObject (bucket key : string)
| S3PutObject (bucket key path : string)
| S3Upload (bucket key path : string)
| S3GetObject (bucket key : string)
| MongoConnect (uri : string)
| MongoClose
| MongoListDatabases
| MongoListCollections (db : string)
| MongoFind (db coll : string)
| MongoListIndexes (db coll : string)
| MongoDrop (db coll : string)
| MongoInsertManyWith (ordered : bool) (db coll : string) (docs : list value)
| MongoCreateIndex (db coll : string) (key : option value) (options : obj)
| Mongodump (uri path : string)
| FsPipeToFile (path : string)
| FsGunzipRead (path : string)
| FsWriteGzip (path : string) (content : json)
| FsUnlink (path : string).

(** [collection.insertMany(docs, { ordered: false })], the bulk insert of
    the program: every document is attempted, also after one failed. *)
Abbreviation MongoInsertMany := (MongoInsertManyWith false).

Inductive Event : Type :=
| Console (lvl : Level) (line : list Frag)
| Call (r : Request) (failure : option JsError).

(** How a computation ends: it returns, throws, leaves the process
    ([process.exit]), reaches a value the model does not cover, or is cut
    short by an [error] event of a stream that has no listener for it: the
    error is thrown out of the event loop, no [catch] or [finally] block
    sees it, and the process dies on the uncaught exception. *)
Inductive Outcome (A : Type) : Type :=
| Returned (a : A)
| Thrown (e : JsError)
| Exited (code : Z)
| Stuck
| Uncaught (e : JsError).

Arguments Returned {A} a.
Arguments Thrown {A} e.
Arguments Exited {A} code.
Arguments Stuck {A}.
Arguments Uncaught {A} e.

(** How a step that pipes streams fails: the promise the program awaits is
    rejected, or a stream the program attached no [error] listener to
    emits the error. *)
Inductive Failure : Type :=
| Rejected (e : JsError)
| Unlistened (e : JsError).

(** The process environment variables the program reads. *)
Record Config : Type := {
  S3_BUCKET : string;
  S3_KEY_PATH : option string;
  MONGODB_URI : string;
  RETENTION_DAYS : option string
}.

Section Collaborators.

Variable W : Type.

(** The collaborators, as functions of the state of the world.  A request
    that fails gives the error it rejects with; a step that pipes streams
    gives the way it fails.  [MongoClient_new] is the error
    [new MongoClient(uri)] throws on a connection string the driver cannot
    parse, if any. *)
Record Env : Type := {
  clock_now : W -> W * Z;
  timeZone : JS.TimeZone;
  tmpdir_join : string -> string;
  URL_pathname : string -> option string;
  MongoClient_new : string -> option JsError;
  s3_listObjectsV2 : string -> string -> W -> W * (JsError + option (list S3Object));
  s3_deleteObject : string -> string -> W -> W * (JsError + unit);
  s3_putObject : string -> string -> string -> W -> W * (JsError + unit);
  s3_upload : string -> string -> string -> W -> W * (JsError + unit);
  s3_getObject : string -> string -> W -> W * (JsError + bool);
  mongo_connect : string -> W -> W * (JsError + unit);
  mongo_close : W -> W * (JsError + unit);
  mongo_listDatabases : W -> W * (JsError + list string);
  mongo_listCollections : string -> W -> W * (JsError + list string);
  mongo_find : string -> string -> W -> W * (JsError + list value);
  mongo_listIndexes : string -> string -> W -> W * (JsError + list obj);
  mongo_drop : string -> string -> W -> W * (JsError + unit);
  mongo_insertMany : string -> string -> list value -> W -> W * (JsError + unit);
  mongo_createIndex : string -> string -> option value -> obj -> W -> W * (JsError + unit);
  mongodump : string -> string -> W -> W * (Failure + unit);
  fs_pipeToFile : string -> W -> W * (Failure + unit);
  fs_gunzipRead : string -> W -> W * (Failure + option json);
  fs_writeGzip : string -> json -> W -> W * (Failure + unit);
  fs_unlink : string -> W -> W * (JsError + unit)
}.

(** A computation: from a world to the new world, the trace of what it
    did, and its outcome. *)
Definition Js (A : Type) : Type := W -> W * list Event * Outcome A.

Definition ret {A : Type} (a : A) : Js A := fun w => (w, [], Returned a).

Definition bind {A B : Type} (m : Js A) (k : A -> Js B) : Js B :=
  fun w =>
    match m w with
    | (w1, t1, Returned a) =>
        match k a w1 with
        | (w2, t2, o) => (w2, (t1 ++ t2)%list, o)
        end
    | (w1, t1, Thrown e) => (w1, t1, Thrown e)
    | (w1, t1, Exited c) => (w1, t1, Exited c)
    | (w1, t1, Stuck) => (w1, t1, Stuck)
    | (w1, t1, Uncaught e) => (w1, t1, Uncaught e)
    end.

Definition throw {A : Type} (e : JsError) : Js A := fun w => (w, [], Thrown e).
Definition process_exit {A : Type} (code : Z) : Js A := fun w => (w, [], Exited code).
Definition stuck {A : Type} : Js A := fun w => (w, [], Stuck).

Definition console (lvl : Level) (line : list Frag) : Js unit :=
  fun w => (w, [Console lvl line], Returned tt).

(** [try { m } catch (error) { h error }]. *)
Definition try_catch {A : Type} (m : Js A) (h : JsError -> Js A) : Js A :=
  fun w =>
    match m w with
    | (w1, t1, Thrown e) =>
        match h e w1 with
        | (w2, t2, o) => (w2, (t1 ++ t2)%list, o)
        end
    | r => r
    end.

(** [try { m } finally { f }]: [f] runs after [m] returned or threw, and
    an abrupt end of [f] replaces the outcome of [m]; leaving the process
    runs no [finally] block, and neither does an uncaught error. *)
Definition try_finally {A : Type} (m : Js A) (f : Js unit) : Js A :=
  fun w =>
    match m w with
    | (w1, t1, Exited c) => (w1, t1, Exited c)
    | (w1, t1, Stuck) => (w1, t1, Stuck)
    | (w1, t1, Uncaught e) => (w1, t1, Uncaught e)
    | (w1, t1, o) =>
        match f w1 with
        | (w2, t2, Returned _) => (w2, (t1 ++ t2)%list, o)
        | (w2, t2, Thrown e) => (w2, (t1 ++ t2)%list, Thrown e)
        | (w2, t2, Exited c) => (w2, (t1 ++ t2)%list, Exited c)
        | (w2, t2, Stuck) => (w2, (t1 ++ t2)%list, Stuck)
        | (w2, t2, Uncaught e) => (w2, (t1 ++ t2)%list, Uncaught e)
        end
    end.

(** [for (const x of l) { body x }]. *)
Fixpoint forEach {A : Type} (l : list A) (body : A -> Js unit) : Js unit :=
  match l with
  | [] => ret tt
  | x :: rest => bind (body x) (fun _ => forEach rest body)
  end.

(** A request to a collaborator: the call is recorded with the error it
    failed with, if any, and a rejection is thrown. *)
Definition request {A : Type} (r : Request) (f : W -> W * (JsError + A)) : Js A :=
  fun w =>
    match f w with
    | (w1, inl e) => (w1, [Call r (Some e)], Thrown e)
    | (w1, inr a) => (w1, [Call r None], Returned a)
    end.

(** A step that pipes streams: the call is recorded with the error it
    failed with, if any; a rejection is thrown, and an error of a stream
    without listener ends the computation uncaught. *)
Definition stream {A : Type} (r : Request) (f : W -> W * (Failure + A)) : Js A :=
  fun w =>
    match f w with
    | (w1, inl (Rejected e)) => (w1, [Call r (Some e)], Thrown e)
    | (w1, inl (Unlistened e)) => (w1, [Call r (Some e)], Uncaught e)
    | (w1, inr a) => (w1, [Call r None], Returned a)
    end.

(** [new MongoClient(uri)]: no request is sent; the constructor throws
    when the driver cannot parse the connection string. *)
Definition newMongoClient (env : Env) (uri : string) : Js unit :=
  match MongoClient_new env uri with
  | Some e => throw e
  | None => ret tt
  end.

(** [new Date()]. *)
Definition newDate (env : Env) : Js Z :=
  fun w => let (w1, t) := clock_now env w in (w1, [], Returned t).

(** [d.toISOString()], which throws a [RangeError] on an invalid date. *)
Definition toISOString (d : JS.Date) : Js string :=
  match d with
  | Some t => ret (JS.toISOString t)
  | None => throw (newError "RangeError" "Invalid time value")
  end.

End Collaborators.

Arguments clock_now {W} e.
Arguments timeZone {W} e.
Arguments tmpdir_join {W} e.
Arguments URL_pathname {W} e.
Arguments MongoClient_new {W} e.
Arguments s3_listObjectsV2 {W} e.
Arguments s3_deleteObject {W} e.
Arguments s3_putObject {W} e.
Arguments s3_upload {W} e.
Arguments s3_getObject {W} e.
Arguments mongo_connect {W} e.
Arguments mongo_close {W} e.
Arguments mongo_listDatabases {W} e.
Arguments mongo_listCollections {W} e.
Arguments mongo_find {W} e.
Arguments mongo_listIndexes {W} e.
Arguments mongo_drop {W} e.
Arguments mongo_insertMany {W} e.
Arguments mongo_createIndex {W} e.
Arguments mongodump {W} e.
Arguments fs_pipeToFile {W} e.
Arguments fs_gunzipRead {W} e.
Arguments fs_writeGzip {W} e.
Arguments fs_unlink {W} e.
Arguments ret {W A} a.
Arguments bind {W A B} m k.
Arguments throw {W A} e.
Arguments process_exit {W A} code.
Arguments stuck {W A}.
Arguments console {W} lvl line.
Arguments try_catch {W A} m h.
Arguments try_finally {W A} m f.
Arguments forEach {W A} l body.
Arguments request {W A} r f.
Arguments stream {W A} r f.
Arguments newMongoClient {W} env uri.
Arguments newDate {W} env.
Arguments toISOString {W} d.

End Effects.

Declare Scope js_scope.
Delimit Scope js_scope with js.
Notation "x <- m ;; k" := (Effects.bind m (fun x => k))
  (at level 61, m at next level, right associativity) : js_scope.
Notation "m ;; k" := (Effects.bind m (fun _ => k))
  (at level 61, right associativity) : js_scope.

Local Open Scope js_scope.

(** ** Retention cleanup: [deleteOldBackups]

    The function is the same in [src/index.ts] and in the driver based
    backup. *)

Module Retention.

Import Codec Effects.

Section WithEnv.

Context {W : Type}.
Variable env : Env W.
Variable cfg : Config.

(** The key prefix of the archives. *)
Definition backupPrefix : string :=
  match S3_KEY_PATH cfg with
  | Some p => if JS.truthy p then (p ++ "/mongodb-backup-")%string else "mongodb-backup-"
  | None => "mongodb-backup-"
  end.

(** [cutoffDate]: today's date moved back by [retentionDays] days. *)
Definition cutoffDate (now retentionDays : Z) : JS.Date :=
  JS.setDate_getDate_minus (timeZone env) (Some now) retentionDays.

(** The filter of [objectsToDelete]. *)
Definition isOld (cutoff : JS.Date) (o : S3Object) : bool :=
  match LastModified o with
  | None => false
  | Some t => JS.date_lt t cutoff
  end.

(** The body of the deletion loop. *)
Definition deleteOne (o : S3Object) : Js W unit :=
  match Key o with
  | Some k =>
      if JS.truthy k then
        request (S3DeleteObject (S3_BUCKET cfg) k) (s3_deleteObject env (S3_BUCKET cfg) k) ;;
        console LLog [Str "Deleted old backup: "; Str k]
      else ret tt
  | None => ret tt
  end.

(** The body of the [try] block. *)
Definition listAndDelete (cutoff : JS.Date) : Js W unit :=
  response <- request (S3ListObjectsV2 (S3_BUCKET cfg) backupPrefix)
                (s3_listObjectsV2 env (S3_BUCKET cfg) backupPrefix) ;;
  match response with
  | None => console LLog [Str "No backups found"]
  | Some contents =>
      let objectsToDelete := filter (isOld cutoff) contents in
      match objectsToDelete with
      | [] => console LLog [Str "No old backups to delete"]
      | _ :: _ =>
          console LLog [Str "Found "; Num (Z.of_nat (List.length objectsToDelete));
                        Str " old backup(s) to delete"] ;;
          forEach objectsToDelete deleteOne ;;
          console LLog [Str "Cleanup completed: ";
                        Num (Z.of_nat (List.length objectsToDelete));
                        Str " old backup(s) deleted"]
      end
  end.

Definition deleteOldBackups : Js W unit :=
  match RETENTION_DAYS cfg with
  | None => console LLog [Str "No retention period set, skipping cleanup"]
  | Some days =>
      if negb (JS.truthy days) then
        console LLog [Str "No retention period set, skipping cleanup"]
      else
        match JS.parseInt10 days with
        | JS.NaN => console LLog [Str "Invalid retention period, skipping cleanup"]
        | JS.Int retentionDays =>
            if retentionDays <=? 0 then
              console LLog [Str "Invalid retention period, skipping cleanup"]
            else
              now <- newDate env ;;
              let cutoff := cutoffDate now retentionDays in
              iso <- toISOString cutoff ;;
              console LLog [Str "Cleaning up backups older than "; Num retentionDays;
                            Str " days (before "; Str iso; Str ")"] ;;
              try_catch
                (listAndDelete cutoff)
                (fun error => console LError [Str "Failed to cleanup old backups:"; Err error])
        end
  end.

End WithEnv.

End Retention.

(** ** [src/index.ts]: the mongodump based backup *)

Module IndexTs.

Import Codec Effects.

Section WithEnv.

Context {W : Type}.
Variable env : Env W.
Variable cfg : Config.

(** [`mongodb-backup-${timestamp}.gz`], with the day of [now] as
    [YYYYMMDD]. *)
Definition backupFileNameAt (now : Z) : string :=
  ("mongodb-backup-" ++ JS.removeDashes (JS.beforeT (JS.toISOString now)) ++ ".gz")%string.

Definition s3KeyOf (fileName : string) : string :=
  match S3_KEY_PATH cfg with
  | Some p => if JS.truthy p then (p ++ "/" ++ fileName)%string else fileName
  | None => fileName
  end.

(** The [catch] block of the backup. *)
Definition backupFailed {A : Type} (tempFilePath : string) (error : JsError) : Js W A :=
  console LError [Str "Backup failed:"; Err error] ;;
  try_catch
    (request (FsUnlink tempFilePath) (fs_unlink env tempFilePath))
    (fun cleanupError =>
       console LError [Str "Failed to cleanup temporary file:"; Err cleanupError]) ;;
  throw error.

(** The backup by [mongodump]: the promise of the dump settles on [error]
    or [close] of the child process; the write stream its output is piped
    into has no [error] listener. *)
Definition createMongoDBBackup : Js W unit :=
  now <- newDate env ;;
  let backupFileName := backupFileNameAt now in
  let tempFilePath := tmpdir_join env backupFileName in
  console LLog [Str "Starting MongoDB backup: "; Str backupFileName] ;;
  try_catch
    (stream (Mongodump (MONGODB_URI cfg) tempFilePath)
       (mongodump env (MONGODB_URI cfg) tempFilePath) ;;
     console LLog [Str "MongoDB dump completed, uploading to S3..."] ;;
     let s3Key := s3KeyOf backupFileName in
     request (S3PutObject (S3_BUCKET cfg) s3Key tempFilePath)
       (s3_putObject env (S3_BUCKET cfg) s3Key tempFilePath) ;;
     console LLog [Str "Backup uploaded successfully to S3: "; Str s3Key] ;;
     request (FsUnlink tempFilePath) (fs_unlink env tempFilePath) ;;
     console LLog [Str "Temporary file cleaned up"] ;;
     Retention.deleteOldBackups env cfg)
    (backupFailed tempFilePath).

End WithEnv.

End IndexTs.

(** ** [src/restore.ts]: listing, download, decoding and restore *)

Module RestoreTs.

Import Codec Snapshot Effects.

(** An element of the listing: [{ key, lastModified }]. *)
Record Backup : Type := {
  key : string;
  lastModified : Z
}.

(** [Contents.filter((obj) => obj.Key && obj.LastModified).map(...)]. *)
Definition descriptor (o : S3Object) : option Backup :=
  match Key o, LastModified o with
  | Some k, Some t => if JS.truthy k then Some {| key := k; lastModified := t |} else None
  | _, _ => None
  end.

Fixpoint descriptors (contents : list S3Object) : list Backup :=
  match contents with
  | [] => []
  | o :: rest =>
      match descriptor o with
      | Some b => b :: descriptors rest
      | None => descriptors rest
      end
  end.

(** [.sort((a, b) => b.lastModified.getTime() - a.lastModified.getTime())]:
    [Array.prototype.sort] is stable, and a stable sort has one result, the
    one of this insertion sort. *)
Fixpoint insertDesc (x : Backup) (l : list Backup) : list Backup :=
  match l with
  | [] => [x]
  | y :: rest =>
      if lastModified y <=? lastModified x then x :: y :: rest
      else y :: insertDesc x rest
  end.

Fixpoint sortDesc (l : list Backup) : list Backup :=
  match l with
  | [] => []
  | x :: rest => insertDesc x (sortDesc rest)
  end.

(** [newerFirst a b]: [a] may stand before [b] in the listing. *)
Definition newerFirst (a b : Backup) : Prop := lastModified b <= lastModified a.

(** The descriptors of a listing response. *)
Definition listedBackups (response : option (list S3Object)) : list Backup :=
  match response with
  | Some contents => descriptors contents
  | None => []
  end.

Section WithEnv.

Context {W : Type}.
Variable env : Env W.
Variable cfg : Config.

Definition listBackups : Js W (list Backup) :=
  let prefix := Retention.backupPrefix cfg in
  response <- request (S3ListObjectsV2 (S3_BUCKET cfg) prefix)
                (s3_listObjectsV2 env (S3_BUCKET cfg) prefix) ;;
  match response with
  | None => ret []
  | Some [] => ret []
  | Some contents => ret (sortDesc (descriptors contents))
  end.

(** The body of the answer is piped into the temporary file: the promise
    settles on [finish] or [error] of the write stream; the body stream
    has no [error] listener. *)
Definition downloadBackup (s3Key : string) : Js W string :=
  let fileName :=
    let last := JS.lastSegment s3Key in
    if JS.truthy last then last else "backup.gz" in
  let tempFilePath := tmpdir_join env fileName in
  console LLog [Str "Downloading backup from S3: "; Str s3Key] ;;
  hasBody <- request (S3GetObject (S3_BUCKET cfg) s3Key)
               (s3_getObject env (S3_BUCKET cfg) s3Key) ;;
  if negb hasBody then throw (newError "Error" "Empty response body from S3")
  else
    stream (FsPipeToFile tempFilePath) (fs_pipeToFile env tempFilePath) ;;
    console LLog [Str "Backup downloaded to: "; Str tempFilePath] ;;
    ret tempFilePath.

(** The file is read through gunzip; an error of the gunzip stream rejects
    with that error, an error of the read stream has no listener, and a
    failure of [EJSON.parse] (of [JSON.parse] on the text, or of the
    reviver) rejects with a new error. *)
Definition parseFailure (detail : string) : JsError :=
  newError "Error" ("Failed to parse backup JSON: " ++ detail)%string.

Definition decompressBackup (filePath : string) : Js W BackupData :=
  console LLog [Str "Decompressing backup..."] ;;
  text <- stream (FsGunzipRead filePath) (fs_gunzipRead env filePath) ;;
  match text with
  | None => throw (parseFailure "SyntaxError")
  | Some j =>
      match Snapshot.decode j with
      | Parsed backup => ret backup
      | ParseThrows => throw (parseFailure "BSONError")
      | Unmodelled => stuck
      end
  end.

(** [error.codeName !== "NamespaceNotFound"], negated. *)
Definition isNamespaceNotFound (error : JsError) : bool :=
  match err_codeName error with
  | Some n => String.eqb n "NamespaceNotFound"
  | None => false
  end.

(** [error.code === 11000]. *)
Definition isDuplicateKeyError (error : JsError) : bool :=
  match err_code error with
  | Some c => c =? 11000
  | None => false
  end.

(** [error.code === 85 || error.code === 86]. *)
Definition isIndexExistsError (error : JsError) : bool :=
  match err_code error with
  | Some c => (c =? 85) || (c =? 86)
  | None => false
  end.

(** [error.result?.insertedCount || 0]. *)
Definition insertedCountOf (error : JsError) : Z :=
  match err_insertedCount error with
  | Some n => n
  | None => 0
  end.

(** [index.name === "_id_"]. *)
Definition isIdIndex (index : obj) : bool :=
  match lookup "name" index with
  | Some (VString s) => String.eqb s "_id_"
  | _ => false
  end.

(** [{ ...index }] without [v] and [ns]. *)
Definition indexSpecOf (index : obj) : obj := remove "ns" (remove "v" index).

(** The body of the index loop. *)
Definition restoreIndex (dbName collName : string) (index : obj) : Js W unit :=
  if isIdIndex index then ret tt
  else
    try_catch
      (let indexSpec := indexSpecOf index in
       let key := lookup "key" indexSpec in
       let options := remove "key" indexSpec in
       request (MongoCreateIndex dbName collName key options)
         (mongo_createIndex env dbName collName key options) ;;
       console LLog [Str "    Created index: "; Val (lookup "name" index)])
      (fun error =>
         if isIndexExistsError error
         then console LLog [Str "    Index already exists: "; Val (lookup "name" index)]
         else console LWarn [Str "    Warning creating index "; Val (lookup "name" index);
                             Str ": "; Str (err_message error)]).

(** The document step of a collection:
    [insertMany(collData.documents, { ordered: false })], and the [catch]
    that looks at the code of the error of the bulk. *)
Definition restoreDocuments (dbName collName : string) (collData : CollData) : Js W unit :=
  match documents collData with
  | Some ((_ :: _) as docs) =>
      try_catch
        (request (MongoInsertManyWith false dbName collName docs)
           (mongo_insertMany env dbName collName docs) ;;
         console LLog [Str "    Inserted "; Num (Z.of_nat (List.length docs)); Str " documents"])
        (fun error =>
           if isDuplicateKeyError error then
             let insertedCount := insertedCountOf error in
             console LLog [Str "    Inserted "; Num insertedCount; Str " documents (";
                           Num (Z.of_nat (List.length docs) - insertedCount);
                           Str " duplicates skipped)"]
           else throw error)
  | _ => ret tt
  end.

(** The body of the collection loop. *)
Definition restoreCollection (dropExisting : bool) (dbName : string)
    (entry : string * CollData) : Js W unit :=
  let collName := fst entry in
  let collData := snd entry in
  console LLog [Str "  Restoring collection: "; Str collName] ;;
  (if dropExisting then
     try_catch
       (request (MongoDrop dbName collName) (mongo_drop env dbName collName) ;;
        console LLog [Str "    Dropped existing collection: "; Str collName])
       (fun error =>
          if isNamespaceNotFound error then ret tt
          else console LWarn [Str "    Warning dropping collection: ";
                              Str (err_message error)])
   else ret tt) ;;
  restoreDocuments dbName collName collData ;;
  match indexes collData with
  | Some ((_ :: _) as idx) => forEach idx (restoreIndex dbName collName)
  | _ => ret tt
  end.

(** The scope test of the database loop: the database is skipped when the
    URI names another one. *)
Definition skipsDatabase (specificDatabase dbName : string) : bool :=
  JS.truthy specificDatabase && negb (String.eqb specificDatabase EmptyString)
  && negb (String.eqb dbName specificDatabase).

(** The body of the database loop. *)
Definition restoreDatabase (dropExisting : bool) (specificDatabase : string)
    (entry : string * DbData) : Js W unit :=
  let dbName := fst entry in
  if skipsDatabase specificDatabase dbName then
    console LLog [Str "Skipping database "; Str dbName; Str " (URI specifies ";
                  Str specificDatabase; Str ")"]
  else
    console LLog [Str "Restoring database: "; Str dbName] ;;
    forEach (collections (snd entry)) (restoreCollection dropExisting dbName).

(** [new URL(MONGODB_URI).pathname.slice(1)]; the constructor throws a
    [TypeError] on a string that is not a URL. *)
Definition specificDatabaseOf : Js W string :=
  match URL_pathname env (MONGODB_URI cfg) with
  | Some pathname => ret (JS.slice1 pathname)
  | None => throw (newError "TypeError" "Invalid URL")
  end.

(** The restore of a snapshot.  The client is constructed before the
    [try] block whose [finally] closes it. *)
Definition restoreToMongoDB (backup : BackupData) (dropExisting : bool) : Js W unit :=
  newMongoClient env (MONGODB_URI cfg) ;;
  try_finally
    (request (MongoConnect (MONGODB_URI cfg)) (mongo_connect env (MONGODB_URI cfg)) ;;
     console LLog [Str "Connected to MongoDB"] ;;
     specificDatabase <- specificDatabaseOf ;;
     forEach (databases backup) (restoreDatabase dropExisting specificDatabase) ;;
     console LLog [Str "Restore completed successfully"])
    (request MongoClose (mongo_close env) ;;
     console LLog [Str "MongoDB connection closed"]).

(** [Object.keys(o).join(", ")]. *)
Fixpoint joinNames (names : list string) : string :=
  match names with
  | [] => EmptyString
  | [n] => n
  | n :: rest => (n ++ ", " ++ joinNames rest)%string
  end.

(** The [else] branch of the choice of the archive: the latest backup. *)
Definition latestBackupKey : Js W string :=
  console LLog [Str "Finding latest backup..."] ;;
  backups <- listBackups ;;
  match backups with
  | [] =>
      console LError [Str "No backups found in S3"] ;;
      process_exit 1
  | backup :: _ =>
      console LLog [Str "Latest backup: "; Str (key backup); Str " (";
                    Str (JS.toISOString (lastModified backup)); Str ")"] ;;
      ret (key backup)
  end.

(** The choice of the archive: [if (backupFileName)] fails on [undefined]
    and on the empty string. *)
Definition chooseBackup (backupFileName : option string) : Js W string :=
  match backupFileName with
  | Some fileName =>
      if JS.truthy fileName then
        let s3Key := IndexTs.s3KeyOf cfg fileName in
        console LLog [Str "Using specified backup: "; Str s3Key] ;;
        ret s3Key
      else latestBackupKey
  | None => latestBackupKey
  end.

(** [restore]: [tempFilePath] stays [null] until the download returned, so
    the [finally] block only acts after it. *)
Definition restore (backupFileName : option string) (dropExisting : bool) : Js W unit :=
  s3Key <- chooseBackup backupFileName ;;
  tempFilePath <- downloadBackup s3Key ;;
  try_finally
    (backup <- decompressBackup tempFilePath ;;
     console LLog [Str "Backup timestamp: "; Str (timestamp backup)] ;;
     console LLog [Str "Databases in backup: ";
                   Str (joinNames (map fst (databases backup)))] ;;
     restoreToMongoDB backup dropExisting)
    (try_catch
       (request (FsUnlink tempFilePath) (fs_unlink env tempFilePath) ;;
        console LLog [Str "Temporary file cleaned up"])
       (fun error => console LError [Str "Failed to cleanup temporary file:"; Err error])).

End WithEnv.

End RestoreTs.

(** ** The driver based backup (second [createMongoDBBackup]) *)

Module BackupTs.

Import Codec Snapshot Effects.

(** [!["admin", "local", "config"].includes(name)]. *)
Definition isSystemDatabase (name : string) : bool :=
  String.eqb name "admin" || String.eqb name "local" || String.eqb name "config".

Section WithEnv.

Context {W : Type}.
Variable env : Env W.
Variable cfg : Config.

(** [databasesToBackup]. *)
Definition databasesToBackup (specificDatabase : string) : Js W (list string) :=
  if JS.truthy specificDatabase && negb (String.eqb specificDatabase EmptyString) then
    console LLog [Str "URI specifies database: "; Str specificDatabase] ;;
    ret [specificDatabase]
  else
    names <- request MongoListDatabases (mongo_listDatabases env) ;;
    ret (filter (fun name => negb (isSystemDatabase name)) names).

(** The collection loop: it fills [backup.databases[dbName].collections]. *)
Fixpoint backupCollections (dbName : string) (names : list string)
    (acc : list (string * CollData)) : Js W (list (string * CollData)) :=
  match names with
  | [] => ret acc
  | collName :: rest =>
      console LLog [Str "  Backing up collection: "; Str collName] ;;
      docs <- request (MongoFind dbName collName) (mongo_find env dbName collName) ;;
      idx <- request (MongoListIndexes dbName collName)
               (mongo_listIndexes env dbName collName) ;;
      backupCollections dbName rest
        (assign collName {| documents := Some docs; indexes := Some idx |} acc)
  end.

(** The database loop: it fills [backup.databases]. *)
Fixpoint backupDatabases (names : list string) (acc : list (string * DbData))
    : Js W (list (string * DbData)) :=
  match names with
  | [] => ret acc
  | dbName :: rest =>
      console LLog [Str "Backing up database: "; Str dbName] ;;
      colls <- request (MongoListCollections dbName) (mongo_listCollections env dbName) ;;
      collData <- backupCollections dbName colls [] ;;
      backupDatabases rest (assign dbName {| collections := collData |} acc)
  end.

(** The snapshot the backup assembles. *)
Definition produce : Js W BackupData :=
  now <- newDate env ;;
  specificDatabase <- RestoreTs.specificDatabaseOf env cfg ;;
  names <- databasesToBackup specificDatabase ;;
  dbs <- backupDatabases names [] ;;
  ret {| databases := dbs; timestamp := JS.toISOString now |}.

(** The backup through the driver.  The client is constructed before the
    [try] block.  The snapshot is piped through gzip into the temporary
    file: the promise settles on [finish] or [error] of the write stream;
    the gzip stream has no [error] listener. *)
Definition createMongoDBBackup : Js W unit :=
  now <- newDate env ;;
  let backupFileName := IndexTs.backupFileNameAt now in
  let tempFilePath := tmpdir_join env backupFileName in
  console LLog [Str "Starting MongoDB backup: "; Str backupFileName] ;;
  newMongoClient env (MONGODB_URI cfg) ;;
  try_finally
    (try_catch
       (request (MongoConnect (MONGODB_URI cfg)) (mongo_connect env (MONGODB_URI cfg)) ;;
        console LLog [Str "Connected to MongoDB"] ;;
        backup <- produce ;;
        stream (FsWriteGzip tempFilePath (Snapshot.encode backup))
          (fs_writeGzip env tempFilePath (Snapshot.encode backup)) ;;
        console LLog [Str "MongoDB backup completed, uploading to S3..."] ;;
        let s3Key := IndexTs.s3KeyOf cfg backupFileName in
        request (S3Upload (S3_BUCKET cfg) s3Key tempFilePath)
          (s3_upload env (S3_BUCKET cfg) s3Key tempFilePath) ;;
        console LLog [Str "Backup uploaded successfully to S3: "; Str s3Key] ;;
        request (FsUnlink tempFilePath) (fs_unlink env tempFilePath) ;;
        console LLog [Str "Temporary file cleaned up"] ;;
        Retention.deleteOldBackups env cfg)
       (IndexTs.backupFailed env tempFilePath))
    (request MongoClose (mongo_close env) ;;
     console LLog [Str "MongoDB connection closed"]).

End WithEnv.

End BackupTs.

(** ** [src/restore.ts]: the command line *)

Module Cli.

Import Codec Snapshot Effects RestoreTs.

(** The text of [printUsage]. *)
Definition usageText : string := "
  MongoDB S3 Restore Tool
  
  Usage:
    bun run restore.ts [options]
  
  Options:
    --file, -f <filename>    Restore from a specific backup file (e.g., mongodb-backup-20241227.gz)
    --latest, -l             Restore from the latest backup (default)
    --drop, -d               Drop existing collections before restoring
    --list                   List all available backups
    --help, -h               Show this help message
  
  Examples:
    bun run restore.ts                                    # Restore latest backup
    bun run restore.ts --latest                           # Restore latest backup
    bun run restore.ts --file mongodb-backup-20241227.gz  # Restore specific backup
    bun run restore.ts --drop                             # Drop collections before restore
    bun run restore.ts --list                             # List available backups
  
  Environment Variables (required):
    S3_REGION, S3_ACCESS_KEY_ID, S3_SECRET_ACCESS_KEY, S3_BUCKET, MONGODB_URI
  
  Optional Environment Variables:
    S3_ENDPOINT, S3_KEY_PATH
  ".

(** [args.includes(x)]. *)
Definition includes (x : string) (args : list string) : bool :=
  existsb (String.eqb x) args.

(** [arg.startsWith("-")]. *)
Definition startsWithDash (arg : string) : bool :=
  match arg with
  | String c _ => Ascii.eqb c "-"%char
  | EmptyString => false
  end.

Definition isFileFlag (arg : string) : bool := String.eqb arg "--file" || String.eqb arg "-f".
Definition isDropFlag (arg : string) : bool := String.eqb arg "--drop" || String.eqb arg "-d".
Definition isLatestFlag (arg : string) : bool :=
  String.eqb arg "--latest" || String.eqb arg "-l".

(** The loop over the arguments, from the values of [backupFileName] and
    [dropExisting] so far; [None] when the loop leaves the process because
    [--file] has no file name after it. *)
Fixpoint parseArgs (args : list string) (backupFileName : option string)
    (dropExisting : bool) : option (option string * bool) :=
  match args with
  | [] => Some (backupFileName, dropExisting)
  | arg :: rest =>
      if isFileFlag arg then
        match rest with
        | next :: rest' =>
            if JS.truthy next then parseArgs rest' (Some next) dropExisting else None
        | [] => None
        end
      else if isDropFlag arg then parseArgs rest backupFileName true
      else if isLatestFlag arg then parseArgs rest backupFileName dropExisting
      else if JS.truthy arg && negb (startsWithDash arg) then
        parseArgs rest (Some arg) dropExisting
      else parseArgs rest backupFileName dropExisting
  end.

Section WithEnv.

Context {W : Type}.
Variable env : Env W.
Variable cfg : Config.

(** [await new Promise((resolve) => setTimeout(resolve, ms))]: the timer
    is the platform's. *)
Variable delay : Z -> Js W unit.

Definition printUsage : Js W unit := console LLog [Str usageText].

(** The [--list] branch. *)
Definition listCommand : Js W unit :=
  console LLog [Str ("Available backups:" ++ String (ascii_of_nat 10) EmptyString)] ;;
  backups <- listBackups env cfg ;;
  match backups with
  | [] => console LLog [Str "No backups found"]
  | _ :: _ =>
      forEach backups (fun backup =>
        console LLog [Str "  "; Str (JS.lastSegment (key backup)); Str "  (";
                      Str (JS.toISOString (lastModified backup)); Str ")"])
  end ;;
  process_exit 0.

(** [main], on [process.argv.slice(2)]. *)
Definition main (args : list string) : Js W unit :=
  if includes "--help" args || includes "-h" args then
    printUsage ;;
    process_exit 0
  else if includes "--list" args then listCommand
  else
    match parseArgs args None false with
    | None =>
        console LError [Str "Error: --file requires a filename argument"] ;;
        process_exit 1
    | Some (backupFileName, dropExisting) =>
        (if dropExisting then
           console LLog [Str "WARNING: --drop flag is set. Existing collections will be dropped!"] ;;
           console LLog [Str ("Starting restore in 3 seconds... (Ctrl+C to cancel)"
                              ++ String (ascii_of_nat 10) EmptyString)] ;;
           delay 3000
         else ret tt) ;;
        try_catch
          (restore env cfg backupFileName dropExisting)
          (fun error =>
             console LError [Str "Restore failed:"; Err error] ;;
             process_exit 1)
    end.

End WithEnv.

End Cli.

(** ** The first version of the backup (no retention) *)

Module LegacyIndex.

Import Codec Effects.

Section WithEnv.

Context {W : Type}.
Variable env : Env W.
Variable cfg : Config.

(** [createMongoDBBackup] as it was before the retention cleanup: the same
    dump, upload and removal of the temporary file. *)
Definition createMongoDBBackup : Js W unit :=
  now <- newDate env ;;
  let backupFileName := IndexTs.backupFileNameAt now in
  let tempFilePath := tmpdir_join env backupFileName in
  console LLog [Str "Starting MongoDB backup: "; Str backupFileName] ;;
  try_catch
    (stream (Mongodump (MONGODB_URI cfg) tempFilePath)
       (mongodump env (MONGODB_URI cfg) tempFilePath) ;;
     console LLog [Str "MongoDB dump completed, uploading to S3..."] ;;
     let s3Key := IndexTs.s3KeyOf cfg backupFileName in
     request (S3PutObject (S3_BUCKET cfg) s3Key tempFilePath)
       (s3_putObject env (S3_BUCKET cfg) s3Key tempFilePath) ;;
     console LLog [Str "Backup uploaded successfully to S3: "; Str s3Key] ;;
     request (FsUnlink tempFilePath) (fs_unlink env tempFilePath) ;;
     console LLog [Str "Temporary file cleaned up"])
    (IndexTs.backupFailed env tempFilePath).

End WithEnv.

End LegacyIndex.

(** ** The start of the three programs *)

Module Startup.

Import Codec Effects.







Section WithEnv.

Context {W : Type}.
Variable env : Env W.

(** [new CronJob(expression, createMongoDBBackup, null, true)]: the
    scheduler is the platform's. *)
Variable schedule : string -> Js W unit -> Js W unit.







End WithEnv.

End Startup.

(** ** Observations on traces *)

Module Trace.

Import Codec Effects.

(** The keys of the delete requests of a trace, in order. *)
Fixpoint deleteAttempts (t : list Event) : list string :=
  match t with
  | [] => []
  | Call (S3DeleteObject _ k) _ :: rest => k :: deleteAttempts rest
  | _ :: rest => deleteAttempts rest
  end.

(** The keys of the delete requests that failed. *)
Fixpoint deleteFailures (t : list Event) : list string :=
  match t with
  | [] => []
  | Call (S3DeleteObject _ k) (Some _) :: rest => k :: deleteFailures rest
  | _ :: rest => deleteFailures rest
  end.

(** The key specification and options of the index creations of a trace. *)
Fixpoint createIndexCalls (t : list Event) : list (option value * obj) :=
  match t with
  | [] => []
  | Call (MongoCreateIndex _ _ key options) _ :: rest => (key, options) :: createIndexCalls rest
  | _ :: rest => createIndexCalls rest
  end.

(** Requests that change the database. *)
Definition isMutation (ev : Event) : bool :=
  match ev with
  | Call (MongoDrop _ _) _ => true
  | Call (MongoInsertManyWith _ _ _ _) _ => true
  | Call (MongoCreateIndex _ _ _ _) _ => true
  | _ => false
  end.

Definition isInsertMany (ev : Event) : bool :=
  match ev with
  | Call (MongoInsertManyWith _ _ _ _) _ => true
  | _ => false
  end.

(** The keys of the objects fetched from the store. *)
Fixpoint getObjectKeys (t : list Event) : list string :=
  match t with
  | [] => []
  | Call (S3GetObject _ k) _ :: rest => k :: getObjectKeys rest
  | _ :: rest => getObjectKeys rest
  end.

(** The error of a bulk lists a failure of one of its documents that is
    not a duplicate key conflict. *)
Definition hasOtherFailure (e : JsError) : bool :=
  existsb (fun we => negb (we_code we =? 11000)) (err_writeErrors e).

(** A failed bulk insert whose error is not a duplicate key error. *)
Definition isFatalInsert (ev : Event) : bool :=
  match ev with
  | Call (MongoInsertManyWith _ _ _ _) (Some e) => negb (RestoreTs.isDuplicateKeyError e)
  | _ => false
  end.

Definition isCreateIndex (ev : Event) : bool :=
  match ev with
  | Call (MongoCreateIndex _ _ _ _) _ => true
  | _ => false
  end.

(** The arguments [createIndex(key, options)] receives for a captured
    index. *)
Definition createIndexArgs (index : obj) : option value * obj :=
  (Snapshot.lookup "key" (RestoreTs.indexSpecOf index),
   Snapshot.remove "key" (RestoreTs.indexSpecOf index)).

(** The index creations due for a captured index list: one for each index
    other than the primary key index, in order. *)
Definition expectedIndexCalls (idx : list obj) : list (option value * obj) :=
  map createIndexArgs (filter (fun index => negb (RestoreTs.isIdIndex index)) idx).

(** The captured index list of a collection, empty when absent. *)
Definition capturedIndexes (cd : Snapshot.CollData) : list obj :=
  match Snapshot.indexes cd with
  | Some idx => idx
  | None => []
  end.







(** An event that is not the creation of the primary key index. *)
Definition notIdIndexCreation (ev : Event) : Prop :=
  match ev with
  | Call (MongoCreateIndex _ _ _ options) _ => RestoreTs.isIdIndex options = false
  | _ => True
  end.

(** The keys the deletion loop sends a request for, given the objects it
    walks: the keys that are present and not empty. *)
Fixpoint deletableKeys (objects : list S3Object) : list string :=
  match objects with
  | [] => []
  | o :: rest =>
      match Key o with
      | Some k => if JS.truthy k then k :: deletableKeys rest else deletableKeys rest
      | None => deletableKeys rest
      end
  end.

(** The line the cleanup logs before the listing. *)
Definition cleaningLine (n c : Z) : Event :=
  Console LLog [Str "Cleaning up backups older than "; Num n; Str " days (before ";
                Str (JS.toISOString c); Str ")"].



Definition isGetObject (ev : Event) : bool :=
  match ev with
  | Call (S3GetObject _ _) _ => true
  | _ => false
  end.

(** The trace and the outcome of a run. *)
Definition traceOf {W A : Type} (run : W * list Event * Outcome A) : list Event :=
  snd (fst run).

Definition outcomeOf {W A : Type} (run : W * list Event * Outcome A) : Outcome A :=
  snd run.

(** An outcome that is not a return, seen at another result type. *)
Definition recast {A B : Type} (o : Outcome A) : option (Outcome B) :=
  match o with
  | Returned _ => None
  | Thrown e => Some (Thrown e)
  | Exited c => Some (Exited c)
  | Stuck => Some Stuck
  | Uncaught e => Some (Uncaught e)
  end.

(** [always P m]: every event of every trace of [m] satisfies [P]. *)
Definition always {W A : Type} (P : Event -> Prop) (m : Js W A) : Prop :=
  forall w w' t o, m w = (w', t, o) -> Forall P t.

(** A trace and outcome in which no bulk insert failed fatally, or which
    end at the first such failure, with its error thrown. *)
Definition insertAborts {A : Type} (t : list Event) (o : Outcome A) : Prop :=
  Forall (fun ev => isFatalInsert ev = false) t
  \/ exists t0 db coll docs e,
       t = (t0 ++ [Call (MongoInsertMany db coll docs) (Some e)])%list
       /\ RestoreTs.isDuplicateKeyError e = false
       /\ Forall (fun ev => isFatalInsert ev = false) t0
       /\ o = Thrown e.

Definition aborting {W A : Type} (m : Js W A) : Prop :=
  forall w w' t o, m w = (w', t, o) -> insertAborts t o.

End Trace.

(** ** Further observations *)

Module Observe.

Import Codec Effects.

(** [ends stuckOk exitOk uncaughtOk uncaughtOk m]: [m] returns or throws; it leaves
    the process only when [exitOk], stops on a value outside the model
    only when [stuckOk], and is cut short by an error of a stream without
    listener only when [uncaughtOk]. *)
Definition ends {W A : Type} (stuckOk exitOk uncaughtOk : bool) (m : Js W A) : Prop :=
  forall w w' t o,
    m w = (w', t, o) ->
    match o with
    | Returned _ => True
    | Thrown _ => True
    | Exited _ => exitOk = true
    | Stuck => stuckOk = true
    | Uncaught _ => uncaughtOk = true
    end.

(** A request that failed. *)
Definition failed (ev : Event) : bool :=
  match ev with
  | Call _ (Some _) => true
  | _ => false
  end.

Definition isCall (ev : Event) : bool :=
  match ev with
  | Call _ _ => true
  | Console _ _ => false
  end.

(** A request to the MongoDB driver. *)
Definition isDriverRequest (ev : Event) : bool :=
  match ev with
  | Call (MongoConnect _) _ => true
  | Call MongoClose _ => true
  | Call MongoListDatabases _ => true
  | Call (MongoListCollections _) _ => true
  | Call (MongoFind _ _) _ => true
  | Call (MongoListIndexes _ _) _ => true
  | Call (MongoDrop _ _) _ => true
  | Call (MongoInsertManyWith _ _ _ _) _ => true
  | Call (MongoCreateIndex _ _ _ _) _ => true
  | _ => false
  end.

Definition isClose (ev : Event) : bool :=
  match ev with
  | Call MongoClose _ => true
  | _ => false
  end.

Definition isDrop (ev : Event) : bool :=
  match ev with
  | Call (MongoDrop _ _) _ => true
  | _ => false
  end.

(** A request to the object store. *)
Definition isStoreRequest (ev : Event) : bool :=
  match ev with
  | Call (S3ListObjectsV2 _ _) _ => true
  | Call (S3DeleteObject _ _) _ => true
  | Call (S3PutObject _ _ _) _ => true
  | Call (S3Upload _ _ _) _ => true
  | Call (S3GetObject _ _) _ => true
  | _ => false
  end.

Definition isListObjects (ev : Event) : bool :=
  match ev with
  | Call (S3ListObjectsV2 _ _) _ => true
  | _ => false
  end.

(** A request of the retention cleanup. *)
Definition isCleanupRequest (ev : Event) : bool :=
  match ev with
  | Call (S3ListObjectsV2 _ _) _ => true
  | Call (S3DeleteObject _ _) _ => true
  | _ => false
  end.

(** The archive is written or sent. *)
Definition isArchiveOutput (ev : Event) : bool :=
  match ev with
  | Call (FsWriteGzip _ _) _ => true
  | Call (S3Upload _ _ _) _ => true
  | _ => false
  end.

(** A string without a slash. *)
Fixpoint noSlash (s : string) : bool :=
  match s with
  | EmptyString => true
  | String c rest => negb (Ascii.eqb c "/"%char) && noSlash rest
  end.

(** The last argument that is taken as a file name when no [--file] flag
    is given: the last one that is neither empty nor starts with a dash. *)
Fixpoint lastPositional (args : list string) : option string :=
  match args with
  | [] => None
  | arg :: rest =>
      match lastPositional rest with
      | Some p => Some p
      | None => if JS.truthy arg && negb (Cli.startsWithDash arg) then Some arg else None
      end
  end.

(** The name of the temporary file of a download. *)
Definition tempNameOf (s3Key : string) : string :=
  if JS.truthy (JS.lastSegment s3Key) then JS.lastSegment s3Key else "backup.gz".

(** The two blocks of [restore] after the download: the body of the [try]
    and the [finally] block that removes the temporary file. *)
Definition restoreDownloaded {W : Type} (env : Env W) (cfg : Config) (dropExisting : bool)
    (tempFilePath : string) : Js W unit :=
  backup <- RestoreTs.decompressBackup env tempFilePath ;;
  console LLog [Str "Backup timestamp: "; Str (Snapshot.timestamp backup)] ;;
  console LLog [Str "Databases in backup: ";
                Str (RestoreTs.joinNames (map fst (Snapshot.databases backup)))] ;;
  RestoreTs.restoreToMongoDB env cfg backup dropExisting.

Definition removeTemp {W : Type} (env : Env W) (tempFilePath : string) : Js W unit :=
  try_catch
    (request (FsUnlink tempFilePath) (fs_unlink env tempFilePath) ;;
     console LLog [Str "Temporary file cleaned up"])
    (fun error => console LError [Str "Failed to cleanup temporary file:"; Err error]).

(** A request that writes or removes a file. *)
Definition isFileChange (ev : Event) : bool :=
  match ev with
  | Call (FsPipeToFile _) _ => true
  | Call (FsUnlink _) _ => true
  | _ => false
  end.

(** What the drop step logs after its request, by the answer of the
    driver: the drop, nothing when the collection did not exist, a warning
    otherwise. *)
Definition dropNote (collName : string) (failure : option JsError) : list Event :=
  match failure with
  | None => [Console LLog [Str "    Dropped existing collection: "; Str collName]]
  | Some error =>
      if RestoreTs.isNamespaceNotFound error then []
      else [Console LWarn [Str "    Warning dropping collection: "; Str (err_message error)]]
  end.

Definition failureOf {A : Type} (answer : JsError + A) : option JsError :=
  match answer with
  | inl e => Some e
  | inr _ => None
  end.

(** A computation that returns only when none of its requests failed. *)
Definition unfailing {W A : Type} (m : Js W A) : Prop :=
  forall w w' t a, m w = (w', t, Returned a) -> Forall (fun ev => failed ev = false) t.

(** A decimal digit, and a string of decimal digits. *)
Definition isDigitChar (c : ascii) : bool :=
  (48 <=? nat_of_ascii c)%nat && (nat_of_ascii c <=? 57)%nat.

Fixpoint isDigits (s : string) : bool :=
  match s with
  | EmptyString => true
  | String c rest => isDigitChar c && isDigits rest
  end.

End Observe.

(** ** A scripted environment

    A world that answers every request from a fixed script and remembers
    the requests it served; used to run the program on concrete inputs. *)

Module Scenario.

Import Codec Effects.

Record Script : Type := {
  now : Z;
  pathname : option string;
  listing : JsError + option (list S3Object);
  deleteFailure : string -> option JsError;
  insertFailure : string -> string -> option JsError;
  createIndexFailure : obj -> option JsError;
  dropFailure : string -> string -> option JsError;
  archive : option json;
  databaseNames : list string;
  collectionNames : string -> list string;
  documentsOf : string -> string -> list value;
  indexesOf : string -> string -> list obj
}.

Definition World : Type := list Request.

Definition answer {X : Type} (r : Request) (x : X) : World -> World * X :=
  fun w => (r :: w, x).

Definition answerOf (failure : option JsError) : JsError + unit :=
  match failure with
  | Some e => inl e
  | None => inr tt
  end.

(** A file that was unlinked cannot be unlinked again. *)
Definition isUnlinkOf (path : string) (r : Request) : bool :=
  match r with
  | FsUnlink p => String.eqb p path
  | _ => false
  end.

Definition noSuchFile (path : string) : JsError :=
  newError "Error" ("ENOENT: no such file or directory, unlink '" ++ path ++ "'")%string.

Definition utc : JS.TimeZone :=
  {| JS.LocalTZA_utc := fun _ => 0; JS.LocalTZA_local := fun _ => 0 |}.

Definition env (s : Script) : Env World := {|
  clock_now := fun w => (w, now s);
  timeZone := utc;
  tmpdir_join := fun name => ("/tmp/" ++ name)%string;
  URL_pathname := fun _ => pathname s;
  MongoClient_new := fun _ => None;
  s3_listObjectsV2 := fun b p => answer (S3ListObjectsV2 b p) (listing s);
  s3_deleteObject := fun b k => answer (S3DeleteObject b k) (answerOf (deleteFailure s k));
  s3_putObject := fun b k p => answer (S3PutObject b k p) (inr tt);
  s3_upload := fun b k p => answer (S3Upload b k p) (inr tt);
  s3_getObject := fun b k => answer (S3GetObject b k) (inr true);
  mongo_connect := fun u => answer (MongoConnect u) (inr tt);
  mongo_close := answer MongoClose (inr tt);
  mongo_listDatabases := answer MongoListDatabases (inr (databaseNames s));
  mongo_listCollections := fun d => answer (MongoListCollections d) (inr (collectionNames s d));
  mongo_find := fun d c => answer (MongoFind d c) (inr (documentsOf s d c));
  mongo_listIndexes := fun d c => answer (MongoListIndexes d c) (inr (indexesOf s d c));
  mongo_drop := fun d c => answer (MongoDrop d c) (answerOf (dropFailure s d c));
  mongo_insertMany := fun d c docs =>
    answer (MongoInsertMany d c docs) (answerOf (insertFailure s d c));
  mongo_createIndex := fun d c k o =>
    answer (MongoCreateIndex d c k o) (answerOf (createIndexFailure s o));
  mongodump := fun u p => answer (Mongodump u p) (inr tt);
  fs_pipeToFile := fun p => answer (FsPipeToFile p) (inr tt);
  fs_gunzipRead := fun p => answer (FsGunzipRead p) (inr (archive s));
  fs_writeGzip := fun p j => answer (FsWriteGzip p j) (inr tt);
  fs_unlink := fun p w =>
    answer (FsUnlink p) (if existsb (isUnlinkOf p) w then inl (noSuchFile p) else inr tt) w
|}.

(** A script in which every request succeeds on an empty store. *)
Definition quiet : Script := {|
  now := 1793491200000;
  pathname := Some "/";
  listing := inr None;
  deleteFailure := fun _ => None;
  insertFailure := fun _ _ => None;
  createIndexFailure := fun _ => None;
  dropFailure := fun _ _ => None;
  archive := None;
  databaseNames := [];
  collectionNames := fun _ => [];
  documentsOf := fun _ _ => [];
  indexesOf := fun _ _ => []
|}.

(** Scripts that differ from another in one answer. *)
Definition withListing (s : Script) (l : JsError + option (list S3Object)) : Script := {|
  now := now s; pathname := pathname s; listing := l;
  deleteFailure := deleteFailure s; insertFailure := insertFailure s;
  createIndexFailure := createIndexFailure s; dropFailure := dropFailure s;
  archive := archive s; databaseNames := databaseNames s;
  collectionNames := collectionNames s; documentsOf := documentsOf s;
  indexesOf := indexesOf s
|}.

Definition withDeleteFailure (s : Script) (f : string -> option JsError) : Script := {|
  now := now s; pathname := pathname s; listing := listing s;
  deleteFailure := f; insertFailure := insertFailure s;
  createIndexFailure := createIndexFailure s; dropFailure := dropFailure s;
  archive := archive s; databaseNames := databaseNames s;
  collectionNames := collectionNames s; documentsOf := documentsOf s;
  indexesOf := indexesOf s
|}.

Definition withInsertFailure (s : Script) (e : JsError) : Script := {|
  now := now s; pathname := pathname s; listing := listing s;
  deleteFailure := deleteFailure s; insertFailure := fun _ _ => Some e;
  createIndexFailure := createIndexFailure s; dropFailure := dropFailure s;
  archive := archive s; databaseNames := databaseNames s;
  collectionNames := collectionNames s; documentsOf := documentsOf s;
  indexesOf := indexesOf s
|}.

Definition withCreateIndexFailure (s : Script) (e : JsError) : Script := {|
  now := now s; pathname := pathname s; listing := listing s;
  deleteFailure := deleteFailure s; insertFailure := insertFailure s;
  createIndexFailure := fun _ => Some e; dropFailure := dropFailure s;
  archive := archive s; databaseNames := databaseNames s;
  collectionNames := collectionNames s; documentsOf := documentsOf s;
  indexesOf := indexesOf s
|}.

Definition withDatabase (s : Script) (path : string) (names : list string)
    (colls : string -> list string) : Script := {|
  now := now s; pathname := Some path; listing := listing s;
  deleteFailure := deleteFailure s; insertFailure := insertFailure s;
  createIndexFailure := createIndexFailure s; dropFailure := dropFailure s;
  archive := archive s; databaseNames := names;
  collectionNames := colls; documentsOf := documentsOf s;
  indexesOf := indexesOf s
|}.

Definition withArchive (s : Script) (a : option json) : Script := {|
  now := now s; pathname := pathname s; listing := listing s;
  deleteFailure := deleteFailure s; insertFailure := insertFailure s;
  createIndexFailure := createIndexFailure s; dropFailure := dropFailure s;
  archive := a; databaseNames := databaseNames s;
  collectionNames := collectionNames s; documentsOf := documentsOf s;
  indexesOf := indexesOf s
|}.

Definition config (retention : option string) : Config := {|
  S3_BUCKET := "bucket";
  S3_KEY_PATH := None;
  MONGODB_URI := "mongodb://db.example/";
  RETENTION_DAYS := retention
|}.

Definition day : Z := JS.msPerDay.

(** An object of the listing, [age] days old at the time of [quiet]. *)
Definition stored (k : string) (age : Z) : S3Object :=
  {| Key := Some k; LastModified := Some (now quiet - age * day) |}.

Definition serverError (code : Z) (message : string) : JsError :=
  {| err_name := "MongoServerError"; err_message := message; err_code := Some code;
     err_codeName := None; err_insertedCount := None; err_writeErrors := [] |}.

End Scenario.

(** ** Concrete inputs *)

Module Inputs.

Import Codec Snapshot Effects Scenario.

(** A snapshot with one document that holds a date. *)
Definition snapshotOf (doc : value) : BackupData := {|
  databases :=
    [("app", {| collections :=
                  [("events", {| documents := Some [doc]; indexes := Some [] |})] |})];
  timestamp := "2026-11-01T00:00:00.000Z"
|}.

Definition snapshotWithDate : BackupData := snapshotOf (VObject [("at", VDate (Some 0))]).

Definition snapshotWithDateText : BackupData :=
  snapshotOf (VObject [("at", VString "1970-01-01T00:00:00.000Z")]).

(** A store with two archives older than thirty days, the first of which
    cannot be deleted. *)
Definition accessDenied : JsError :=
  {| err_name := "AccessDenied"; err_message := "Access Denied"; err_code := None;
     err_codeName := None; err_insertedCount := None; err_writeErrors := [] |}.

Definition archiveOfSeptember : S3Object := stored "mongodb-backup-20260901.gz" 61.
Definition archiveOfAugust : S3Object := stored "mongodb-backup-20260801.gz" 92.

Definition firstDeleteFails : Script :=
  withDeleteFailure
    (withListing quiet (inr (Some [archiveOfSeptember; archiveOfAugust])))
    (fun k => if String.eqb k "mongodb-backup-20260901.gz" then Some accessDenied else None).

(** A store with archives one, ten and forty days old. *)
Definition threeArchives : Script :=
  withListing quiet
    (inr (Some [stored "mongodb-backup-20261022.gz" 10;
                stored "mongodb-backup-20261031.gz" 1;
                stored "mongodb-backup-20260922.gz" 40])).

(** A snapshot of two databases; the collection [users] has two documents,
    the primary key index and a unique index on [email]; the collection
    [log] is empty. *)
Definition twoDocs : list value :=
  [VObject [("_id", VNumber 1%float)]; VObject [("_id", VNumber 2%float)]].

Definition idIndex : obj :=
  [("v", VNumber 2%float); ("key", VObject [("_id", VNumber 1%float)]);
   ("name", VString "_id_")].

Definition emailIndex : obj :=
  [("v", VNumber 2%float); ("key", VObject [("email", VNumber 1%float)]);
   ("name", VString "email_1"); ("unique", VBool true)].

Definition usersCollection : CollData :=
  {| documents := Some twoDocs; indexes := Some [idIndex; emailIndex] |}.

Definition logCollection : CollData := {| documents := Some []; indexes := None |}.

Definition usersSnapshot : BackupData := {|
  databases := [("app", {| collections := [("users", usersCollection)] |});
                ("audit", {| collections := [("log", logCollection)] |})];
  timestamp := "2026-11-01T00:00:00.000Z"
|}.

(** A bulk insert that finds one of the two documents already there. *)
Definition duplicateKey : JsError :=
  {| err_name := "MongoBulkWriteError";
     err_message := "E11000 duplicate key error collection: app.users";
     err_code := Some 11000; err_codeName := None; err_insertedCount := Some 1;
     err_writeErrors := [{| we_index := 0; we_code := 11000 |}] |}.

Definition validationFailed : JsError := serverError 121 "Document failed validation".

(** An unordered bulk insert of two documents of which the first is
    already in the target and the second fails the validation of the
    collection.  The driver builds the error of the bulk from its first
    write error, the duplicate key, and lists both; nothing was
    inserted. *)
Definition mixedFailure : JsError :=
  {| err_name := "MongoBulkWriteError";
     err_message := "E11000 duplicate key error collection: app.users";
     err_code := Some 11000; err_codeName := None; err_insertedCount := Some 0;
     err_writeErrors := [{| we_index := 0; we_code := 11000 |};
                         {| we_index := 1; we_code := 121 |}] |}.

Definition indexOptionsConflict : JsError :=
  serverError 85 "Index already exists with a different name".

(** A connection whose URI names the database [app]. *)
Definition scopedToApp : Script :=
  withDatabase quiet "/app" ["admin"; "app"; "audit"; "local"]
    (fun db => if String.eqb db "app" then ["users"] else []).

(** A connection whose URI names no database. *)
Definition unscoped : Script :=
  withDatabase quiet "/" ["admin"; "app"; "audit"; "local"]
    (fun db => if String.eqb db "app" then ["users"] else []).

(** A store with three archives, each of which holds the snapshot of two
    databases. *)
Definition restorable : Script :=
  withArchive threeArchives (Some (Snapshot.encode usersSnapshot)).

(** The same store when the archive read back is not JSON. *)
Definition unreadable : Script := withArchive threeArchives None.

End Inputs.

(** ** Further environments: collaborators that fail, a timer, a scheduler
    and a process environment *)

Module Fixtures.

Import Codec Effects Scenario.

(** The environment of a script, except for the failures given: the error
    [new MongoClient] throws, the error the store refuses every upload
    with, and the way the dump, the pipe of a download, the read of an
    archive and the write of one fail. *)
Definition broken (s : Script) (client upload : option JsError)
    (dump pipe read write : option Failure) : Env World :=
  let base := Scenario.env s in
  let orElse {X A : Type} (failure : option X) (r : Request)
        (f : World -> World * (X + A)) : World -> World * (X + A) :=
    match failure with
    | Some x => answer r (inl x)
    | None => f
    end in
  {| clock_now := clock_now base;
     timeZone := timeZone base;
     tmpdir_join := tmpdir_join base;
     URL_pathname := URL_pathname base;
     MongoClient_new := fun _ => client;
     s3_listObjectsV2 := s3_listObjectsV2 base;
     s3_deleteObject := s3_deleteObject base;
     s3_putObject := fun b k p => orElse upload (S3PutObject b k p) (s3_putObject base b k p);
     s3_upload := fun b k p => orElse upload (S3Upload b k p) (s3_upload base b k p);
     s3_getObject := s3_getObject base;
     mongo_connect := mongo_connect base;
     mongo_close := mongo_close base;
     mongo_listDatabases := mongo_listDatabases base;
     mongo_listCollections := mongo_listCollections base;
     mongo_find := mongo_find base;
     mongo_listIndexes := mongo_listIndexes base;
     mongo_drop := mongo_drop base;
     mongo_insertMany := mongo_insertMany base;
     mongo_createIndex := mongo_createIndex base;
     mongodump := fun u p => orElse dump (Mongodump u p) (mongodump base u p);
     fs_pipeToFile := fun p => orElse pipe (FsPipeToFile p) (fs_pipeToFile base p);
     fs_gunzipRead := fun p => orElse read (FsGunzipRead p) (fs_gunzipRead base p);
     fs_writeGzip := fun p j => orElse write (FsWriteGzip p j) (fs_writeGzip base p j);
     fs_unlink := fs_unlink base |}.

(** A store that refuses every upload. *)
Definition uploadRefused (s : Script) (e : JsError) : Env World :=
  broken s None (Some e) None None None None.

(** A connection string the driver cannot parse. *)
Definition clientRefused (s : Script) (e : JsError) : Env World :=
  broken s (Some e) None None None None None.

(** Streams without listener that fail: the write stream of the dump, the
    body stream of a download, the stream that reads an archive, the gzip
    stream of the driver based backup. *)
Definition dumpStreamFails (s : Script) (e : JsError) : Env World :=
  broken s None None (Some (Unlistened e)) None None None.

Definition bodyStreamFails (s : Script) (e : JsError) : Env World :=
  broken s None None None (Some (Unlistened e)) None None.

Definition readStreamFails (s : Script) (e : JsError) : Env World :=
  broken s None None None None (Some (Unlistened e)) None.

Definition gzipStreamFails (s : Script) (e : JsError) : Env World :=
  broken s None None None None None (Some (Unlistened e)).

Definition connectionReset : JsError := newError "Error" "read ECONNRESET".
Definition noSpaceLeft : JsError := newError "Error" "ENOSPC: no space left on device, write".
Definition invalidScheme : JsError :=
  newError "MongoParseError"
    "Invalid scheme, expected connection string to start with mongodb:// or mongodb+srv://".

(** A timer that resolves. *)
Definition resolves (ms : Z) : Js World unit := ret tt.



End Fixtures.

(** * Properties *)

Import Codec Snapshot Effects Trace.

(** ** The archive codec *)

(** A date is written as its ISO string (or null) and read back as that
    string: it never comes back as a date. *)
Lemma date_read_back_as_text (d : JS.Date) :
  EJSON_parse (JSON_stringify (VDate d))
  = Parsed (match d with Some t => VString (JS.toISOString t) | None => VNull end).
Proof. destruct d; reflexivity. Qed.

(** An identifier and a binary payload are read back as strings. *)
Lemma objectId_read_back_as_text (hex : string) :
  EJSON_parse (JSON_stringify (VObjectId hex)) = Parsed (VString hex).
Proof. reflexivity. Qed.

Lemma binary_read_back_as_text (base64 : string) (subType : Z) :
  EJSON_parse (JSON_stringify (VBinary base64 subType)) = Parsed (VString base64).
Proof. reflexivity. Qed.

(** A decimal keeps its type. *)
Lemma decimal_read_back (repr : string) :
  EJSON_parse (JSON_stringify (VDecimal128 repr)) = Parsed (VDecimal128 repr).
Proof. reflexivity. Qed.

(** A value that plain JSON carries without loss is read back as it was
    written. *)
Lemma parseItems_written (items : list value) :
  Forall (fun v => EJSON_parse (JSON_stringify v) = Parsed v) items ->
  parseItems EJSON_parse (map JSON_stringify items) = Parsed items.
Proof.
  induction 1 as [| v rest Hv _ IH]; simpl; [reflexivity |].
  rewrite Hv. simpl. rewrite IH. reflexivity.
Qed.

Lemma parseFields_written (fields : obj) :
  Forall (fun kv => hasNul (fst kv) = false /\ isDollarKey (fst kv) = false) fields ->
  Forall (fun v => EJSON_parse (JSON_stringify v) = Parsed v) (map snd fields) ->
  parseFields EJSON_parse (map (fun kv => (fst kv, JSON_stringify (snd kv))) fields)
  = Parsed fields.
Proof.
  induction 1 as [| [k v] rest [Hnul _] _ IH]; simpl; intros Hall; [reflexivity |].
  inversion Hall as [| ? ? Hv Hrest]; subst. simpl in Hnul.
  rewrite Hv. simpl. rewrite Hnul, (IH Hrest). reflexivity.
Qed.

Lemma dollarKeys_plain (fields : obj) :
  Forall (fun kv => hasNul (fst kv) = false /\ isDollarKey (fst kv) = false) fields ->
  dollarKeys fields = [].
Proof.
  induction 1 as [| kv rest [_ Hkey] _ IH]; simpl; [reflexivity |].
  rewrite Hkey. exact IH.
Qed.

Lemma plain_roundtrip (v : value) :
  Plain v -> EJSON_parse (JSON_stringify v) = Parsed v.
Proof.
  intros H. induction H using Plain_nested_ind; try reflexivity.
  - simpl. rewrite H. reflexivity.
  - simpl. rewrite parseItems_written by assumption. reflexivity.
  - simpl. rewrite parseFields_written by assumption. simpl.
    unfold reviveObject. rewrite dollarKeys_plain by assumption. reflexivity.
Qed.

(** The cast reads back the object literal of the backup. *)
Lemma traverse_map {A B : Type} (f : B -> option A) (g : A -> B) (l : list A) :
  (forall x, f (g x) = Some x) -> traverse f (map g l) = Some l.
Proof.
  intros Hfg. induction l as [| x rest IH]; simpl; [reflexivity |].
  rewrite Hfg, IH. reflexivity.
Qed.

Lemma asEntries_written {A : Type} (f : value -> option A) (g : A -> value)
    (l : list (string * A)) :
  (forall x, f (g x) = Some x) ->
  asEntries f (VObject (map (fun kv => (fst kv, g (snd kv))) l)) = Some l.
Proof.
  intros Hfg. unfold asEntries. simpl.
  induction l as [| [k x] rest IH]; simpl; [reflexivity |].
  rewrite Hfg. simpl. rewrite IH. reflexivity.
Qed.

Lemma traverse_Some {A : Type} (l : list A) : traverse Some l = Some l.
Proof. induction l as [| x rest IH]; simpl; [| rewrite IH]; reflexivity. Qed.

Lemma asCollData_written (c : CollData) : asCollData (valueOfCollData c) = Some c.
Proof.
  destruct c as [[docs |] [idx |]]; unfold asCollData, valueOfCollData; simpl;
    rewrite ?traverse_Some, ?(traverse_map asObject VObject) by reflexivity;
    reflexivity.
Qed.

Lemma asDbData_written (d : DbData) : asDbData (valueOfDbData d) = Some d.
Proof.
  destruct d as [colls]. unfold asDbData, valueOfDbData. simpl.
  rewrite (asEntries_written asCollData valueOfCollData colls asCollData_written).
  reflexivity.
Qed.

Lemma asBackupData_written (b : BackupData) : asBackupData (valueOfBackupData b) = Some b.
Proof.
  destruct b as [dbs ts]. unfold asBackupData, valueOfBackupData. simpl.
  rewrite (asEntries_written asDbData valueOfDbData dbs asDbData_written).
  reflexivity.
Qed.

Lemma plain_indexes (idx : list obj) :
  Forall (fun index => Plain (VObject index)) idx -> Forall Plain (map VObject idx).
Proof. induction 1; simpl; constructor; assumption. Qed.

Lemma plain_collData (c : CollData) : PlainCollData c -> Plain (valueOfCollData c).
Proof.
  destruct c as [[docs |] [idx |]]; intros [Hdocs Hidx]; simpl in *;
    unfold valueOfCollData; simpl;
    (apply Plain_object; simpl;
     [repeat constructor
     | repeat constructor; try assumption; apply plain_indexes; assumption]).
Qed.

Lemma plain_entries {A : Type} (g : A -> value) (Q : A -> Prop) (l : list (string * A)) :
  (forall x, Q x -> Plain (g x)) ->
  Forall (fun kv => plainKey (fst kv) /\ Q (snd kv)) l ->
  Plain (VObject (map (fun kv => (fst kv, g (snd kv))) l)).
Proof.
  intros Hg Hall. apply Plain_object.
  - induction Hall as [| kv rest [Hk _] _ IH]; simpl; constructor; [exact Hk | exact IH].
  - induction Hall as [| kv rest [_ Hq] _ IH]; simpl; constructor; [apply Hg; exact Hq | exact IH].
Qed.

Lemma plain_snapshot (b : BackupData) : PlainSnapshot b -> Plain (valueOfBackupData b).
Proof.
  intros Hb. unfold valueOfBackupData. apply Plain_object; simpl.
  - repeat constructor.
  - constructor; [| repeat constructor].
    apply (plain_entries valueOfDbData
             (fun d => Forall (fun coll => plainKey (fst coll) /\ PlainCollData (snd coll))
                         (collections d))); [| exact Hb].
    intros d Hd. unfold valueOfDbData. apply Plain_object; simpl; [repeat constructor |].
    constructor; [| constructor].
    apply (plain_entries valueOfCollData PlainCollData); [apply plain_collData | exact Hd].
Qed.

(** What does hold of the archive codec: a snapshot that plain JSON carries
    without loss is decoded as it was encoded. *)
Theorem plain_snapshot_roundtrip (b : BackupData) :
  PlainSnapshot b -> Snapshot.decode (Snapshot.encode b) = Parsed b.
Proof.
  intros Hb. unfold Snapshot.decode, Snapshot.encode.
  rewrite (plain_roundtrip _ (plain_snapshot b Hb)), asBackupData_written. reflexivity.
Qed.

(** The snapshot of two databases used below is such a snapshot. *)
Example usersSnapshot_roundtrip :
  PlainSnapshot Inputs.usersSnapshot
  /\ Snapshot.decode (Snapshot.encode Inputs.usersSnapshot) = Parsed Inputs.usersSnapshot.
Proof.
  assert (H : PlainSnapshot Inputs.usersSnapshot).
  { repeat constructor. }
  split; [exact H | apply plain_snapshot_roundtrip; exact H].
Qed.

(** C1: decoding the encoding of a snapshot should give the snapshot back
    with every extended type preserved.  On the snapshot whose only
    document is [{ at: new Date(0) }] the archive written with
    [JSON.stringify] is read back by [EJSON.parse] with the date turned
    into the string ["1970-01-01T00:00:00.000Z"]: the result differs from
    the snapshot. *)
Theorem C1_roundtrip_turns_date_into_text :
  Snapshot.decode (Snapshot.encode Inputs.snapshotWithDate)
  = Parsed Inputs.snapshotWithDateText
  /\ Inputs.snapshotWithDateText <> Inputs.snapshotWithDate.
Proof.
  split.
  - vm_compute. reflexivity.
  - intro H. discriminate H.
Qed.

(** ** Reasoning about computations *)

Section Computations.

Context {W : Type}.

Lemma bind_inv {A B : Type} (m : Js W A) (k : A -> Js W B) w w' t o :
  bind m k w = (w', t, o) ->
  (exists a w1 t1 t2,
      m w = (w1, t1, Returned a) /\ k a w1 = (w', t2, o) /\ t = (t1 ++ t2)%list)
  \/ (exists o1, m w = (w', t, o1) /\ recast o1 = Some o).
Proof.
  unfold bind. destruct (m w) as [[w1 t1] o1] eqn:Hm. destruct o1 as [a | e | c | | e].
  - destruct (k a w1) as [[w2 t2] o2] eqn:Hk. intros H. inversion H; subst.
    left. exists a, w1, t1, t2. auto.
  - intros H. inversion H; subst. right. exists (Thrown e). auto.
  - intros H. inversion H; subst. right. exists (Exited c). auto.
  - intros H. inversion H; subst. right. exists Stuck. auto.
  - intros H. inversion H; subst. right. exists (Uncaught e). auto.
Qed.

Lemma try_catch_inv {A : Type} (m : Js W A) (h : JsError -> Js W A) w w' t o :
  try_catch m h w = (w', t, o) ->
  (exists e w1 t1 t2,
      m w = (w1, t1, Thrown e) /\ h e w1 = (w', t2, o) /\ t = (t1 ++ t2)%list)
  \/ (m w = (w', t, o) /\ forall e, o <> Thrown e).
Proof.
  unfold try_catch. destruct (m w) as [[w1 t1] o1] eqn:Hm. destruct o1 as [a | e | c | | e].
  - intros H. inversion H; subst. right. split; [reflexivity | discriminate].
  - destruct (h e w1) as [[w2 t2] o2] eqn:Hh. intros H. inversion H; subst.
    left. exists e, w1, t1, t2. auto.
  - intros H. inversion H; subst. right. split; [reflexivity | discriminate].
  - intros H. inversion H; subst. right. split; [reflexivity | discriminate].
  - intros H. inversion H; subst. right. split; [reflexivity | discriminate].
Qed.

Lemma request_inv {A : Type} (r : Request) (f : W -> W * (JsError + A)) w w' t o :
  request r f w = (w', t, o) ->
  (exists e, f w = (w', inl e) /\ t = [Call r (Some e)] /\ o = Thrown e)
  \/ (exists a, f w = (w', inr a) /\ t = [Call r None] /\ o = Returned a).
Proof.
  unfold request. destruct (f w) as [w1 [e | a]]; intros H; inversion H; subst.
  - left. exists e. auto.
  - right. exists a. auto.
Qed.

Lemma stream_inv {A : Type} (r : Request) (f : W -> W * (Failure + A)) w w' t o :
  stream r f w = (w', t, o) ->
  (exists e, f w = (w', inl (Rejected e)) /\ t = [Call r (Some e)] /\ o = Thrown e)
  \/ (exists e, f w = (w', inl (Unlistened e)) /\ t = [Call r (Some e)] /\ o = Uncaught e)
  \/ (exists a, f w = (w', inr a) /\ t = [Call r None] /\ o = Returned a).
Proof.
  unfold stream. destruct (f w) as [w1 [[e | e] | a]]; intros H; inversion H; subst.
  - left. exists e. auto.
  - right. left. exists e. auto.
  - right. right. exists a. auto.
Qed.

Lemma console_run (lvl : Level) (line : list Frag) (w : W) :
  console lvl line w = (w, [Console lvl line], Returned tt).
Proof. reflexivity. Qed.

(** *** Properties of every trace of a computation *)

Lemma always_ret {A : Type} P (a : A) : always (W:=W) P (ret a).
Proof. intros w w' t o H. inversion H. constructor. Qed.

Lemma always_throw {A : Type} P e : always P (@throw W A e).
Proof. intros w w' t o H. inversion H. constructor. Qed.

Lemma always_exit {A : Type} P c : always P (@process_exit W A c).
Proof. intros w w' t o H. inversion H. constructor. Qed.

Lemma always_stuck {A : Type} P : always P (@stuck W A).
Proof. intros w w' t o H. inversion H. constructor. Qed.

Lemma always_console (P : Event -> Prop) lvl line :
  P (Console lvl line) -> always P (@console W lvl line).
Proof. intros HP w w' t o H. inversion H. repeat constructor. exact HP. Qed.

Lemma always_request {A : Type} (P : Event -> Prop) r (f : W -> W * (JsError + A)) :
  (forall x, P (Call r x)) -> always P (request r f).
Proof.
  intros HP w w' t o H.
  destruct (request_inv _ _ _ _ _ _ H) as [(e & _ & -> & _) | (a & _ & -> & _)];
    repeat constructor; apply HP.
Qed.

Lemma always_stream {A : Type} (P : Event -> Prop) r (f : W -> W * (Failure + A)) :
  (forall x, P (Call r x)) -> always P (stream r f).
Proof.
  intros HP w w' t o H.
  destruct (stream_inv _ _ _ _ _ _ H)
    as [(e & _ & -> & _) | [(e & _ & -> & _) | (a & _ & -> & _)]];
    repeat constructor; apply HP.
Qed.

Lemma always_newMongoClient P (env : Env W) uri : always P (newMongoClient env uri).
Proof.
  unfold newMongoClient. destruct (MongoClient_new env uri); [apply always_throw | apply always_ret].
Qed.

(** What follows [new MongoClient(uri)] runs only when the constructor
    returned; when it throws, nothing was requested. *)
Lemma newMongoClient_inv {A : Type} (env : Env W) uri (m : Js W A) w w' t o :
  (newMongoClient env uri ;; m) w = (w', t, o) ->
  (exists e, MongoClient_new env uri = Some e /\ w' = w /\ t = [] /\ o = Thrown e)
  \/ (MongoClient_new env uri = None /\ m w = (w', t, o)).
Proof.
  unfold newMongoClient, bind. destruct (MongoClient_new env uri) as [e |].
  - intros H. inversion H; subst. left. exists e. auto.
  - cbn [ret]. destruct (m w) as [[w1 t1] o1]. intros H. inversion H; subst.
    right. auto.
Qed.

Lemma always_bind {A B : Type} P (m : Js W A) (k : A -> Js W B) :
  always P m -> (forall a, always P (k a)) -> always P (bind m k).
Proof.
  intros Hm Hk w w' t o H.
  destruct (bind_inv _ _ _ _ _ _ H) as [(a & w1 & t1 & t2 & H1 & H2 & ->) | (o1 & H1 & _)].
  - apply Forall_app. split; [eapply Hm | eapply Hk]; eassumption.
  - eapply Hm; eassumption.
Qed.

Lemma always_try_catch {A : Type} P (m : Js W A) (h : JsError -> Js W A) :
  always P m -> (forall e, always P (h e)) -> always P (try_catch m h).
Proof.
  intros Hm Hh w w' t o H.
  destruct (try_catch_inv _ _ _ _ _ _ H) as [(e & w1 & t1 & t2 & H1 & H2 & ->) | (H1 & _)].
  - apply Forall_app. split; [eapply Hm | eapply Hh]; eassumption.
  - eapply Hm; eassumption.
Qed.

Lemma always_forEach {A : Type} P (l : list A) (body : A -> Js W unit) :
  (forall x, In x l -> always P (body x)) -> always P (forEach l body).
Proof.
  induction l as [| x rest IH]; intros Hb; simpl.
  - apply always_ret.
  - apply always_bind.
    + apply Hb. left. reflexivity.
    + intros _. apply IH. intros y Hy. apply Hb. right. exact Hy.
Qed.

End Computations.

(** Closes goals [always P m] on computations made of the combinators. *)
Ltac always_step :=
  match goal with
  | |- always _ (bind _ _) => apply always_bind; [| intros ?]
  | |- always _ (try_catch _ _) => apply always_try_catch; [| intros ?]
  | |- always _ (forEach _ _) => apply always_forEach; intros ? ?
  | |- always _ (console _ _) => apply always_console
  | |- always _ (request _ _) => apply always_request; intros ?
  | |- always _ (stream _ _) => apply always_stream; intros ?
  | |- always _ (newMongoClient _ _) => apply always_newMongoClient
  | |- always _ (ret _) => apply always_ret
  | |- always _ (throw _) => apply always_throw
  | |- always _ (process_exit _) => apply always_exit
  | |- always _ stuck => apply always_stuck
  | |- always _ (if ?b then _ else _) => destruct b
  | |- always _ (match ?x with _ => _ end) => destruct x
  end.

Ltac always_auto := repeat always_step; try reflexivity; auto.

(** ** Restore: the document step *)

Section RestoreDocuments.

Context {W : Type}.
Variable env : Env W.

(** The index loop issues no bulk insert. *)
Lemma restoreIndex_no_insert db coll index :
  always (fun ev => isInsertMany ev = false) (RestoreTs.restoreIndex env db coll index).
Proof. unfold RestoreTs.restoreIndex. always_auto. Qed.

(** C9: for a collection snapshot whose document list is absent or empty
    the document step does nothing, it returns without any request and
    without changing the world, and the whole restore of that collection
    issues no bulk insert. *)
Theorem C9_empty_collection_issues_no_insert drop db coll cd :
  documents cd = None \/ documents cd = Some [] ->
  (forall w, RestoreTs.restoreDocuments env db coll cd w = (w, [], Returned tt))
  /\ always (fun ev => isInsertMany ev = false)
       (RestoreTs.restoreCollection env drop db (coll, cd)).
Proof.
  intros Hdocs.
  assert (Hstep : RestoreTs.restoreDocuments env db coll cd = ret tt).
  { unfold RestoreTs.restoreDocuments. destruct Hdocs as [-> | ->]; reflexivity. }
  split.
  - intros w. rewrite Hstep. reflexivity.
  - unfold RestoreTs.restoreCollection. cbn [fst snd]. rewrite Hstep.
    always_auto; apply restoreIndex_no_insert.
Qed.

(** C2, on one collection: with [n] documents to insert, a bulk insert
    that succeeds reports [n] inserted; one that fails with a duplicate key
    error (code 11000) is not fatal, the step returns and reports the
    count [k] the error carries (0 when it carries none) apart from the
    [n - k] skipped; one that fails with any other error throws that
    error. *)
Lemma restoreDocuments_cases db coll cd docs w :
  documents cd = Some docs -> docs <> [] ->
  let n := Z.of_nat (List.length docs) in
  let call := Call (MongoInsertMany db coll docs) in
  RestoreTs.restoreDocuments env db coll cd w =
  match mongo_insertMany env db coll docs w with
  | (w1, inr _) =>
      (w1, [call None; Console LLog [Str "    Inserted "; Num n; Str " documents"]],
       Returned tt)
  | (w1, inl e) =>
      if RestoreTs.isDuplicateKeyError e then
        (w1, [call (Some e);
              Console LLog [Str "    Inserted "; Num (RestoreTs.insertedCountOf e);
                            Str " documents ("; Num (n - RestoreTs.insertedCountOf e);
                            Str " duplicates skipped)"]],
         Returned tt)
      else (w1, [call (Some e)], Thrown e)
  end.
Proof.
  intros Hdocs Hne n call. unfold RestoreTs.restoreDocuments. rewrite Hdocs.
  destruct docs as [| d rest]; [contradiction |].
  unfold try_catch, bind, request, console, throw.
  destruct (mongo_insertMany env db coll (d :: rest) w) as [w1 [e | []]]; [| reflexivity].
  destruct (RestoreTs.isDuplicateKeyError e); reflexivity.
Qed.

End RestoreDocuments.

(** ** Restore: a fatal insert failure ends the restore *)

Section Aborting.

Context {W : Type}.

Lemma try_finally_inv {A : Type} (m : Js W A) (f : Js W unit) w w' t o :
  try_finally m f w = (w', t, o) ->
  (exists w1 t1 o1 t2 o2,
      m w = (w1, t1, o1) /\ f w1 = (w', t2, o2) /\ t = (t1 ++ t2)%list
      /\ ((exists a, o1 = Returned a) \/ (exists e, o1 = Thrown e))
      /\ ((exists u, o2 = Returned u /\ o = o1) \/ recast o2 = Some o))
  \/ (m w = (w', t, o)
      /\ (o = Stuck \/ (exists c, o = Exited c) \/ exists e, o = Uncaught e)).
Proof.
  unfold try_finally. destruct (m w) as [[w1 t1] o1] eqn:Hm.
  destruct o1 as [a | e | c | | e].
  - destruct (f w1) as [[w2 t2] o2] eqn:Hf. intros H. left.
    exists w1, t1, (Returned a), t2, o2.
    destruct o2; inversion H; subst; repeat split; eauto.
  - destruct (f w1) as [[w2 t2] o2] eqn:Hf. intros H. left.
    exists w1, t1, (Thrown e), t2, o2.
    destruct o2; inversion H; subst; repeat split; eauto.
  - intros H. inversion H; subst. right. eauto.
  - intros H. inversion H; subst. right. eauto.
  - intros H. inversion H; subst. right. eauto 6.
Qed.

Lemma always_aborting {A : Type} (m : Js W A) :
  always (fun ev => isFatalInsert ev = false) m -> aborting m.
Proof. intros H w w' t o Hrun. left. eapply H. eassumption. Qed.

Lemma aborting_bind {A B : Type} (m : Js W A) (k : A -> Js W B) :
  aborting m -> (forall a, aborting (k a)) -> aborting (bind m k).
Proof.
  intros Hm Hk w w' t o H.
  destruct (bind_inv _ _ _ _ _ _ H) as [(a & w1 & t1 & t2 & H1 & H2 & ->) | (o1 & H1 & Ho)].
  - destruct (Hm _ _ _ _ H1) as [Hq | (t0 & db & coll & docs & e & _ & _ & _ & Habs)];
      [| discriminate Habs].
    destruct (Hk _ _ _ _ _ H2) as [Hq2 | (t0 & db & coll & docs & e & -> & He & Hq2 & ->)].
    + left. apply Forall_app. split; assumption.
    + right. exists (t1 ++ t0)%list, db, coll, docs, e.
      rewrite app_assoc. repeat split; auto. apply Forall_app. split; assumption.
  - destruct (Hm _ _ _ _ H1) as [Hq | (t0 & db & coll & docs & e & -> & He & Hq & ->)].
    + left. exact Hq.
    + right. exists t0, db, coll, docs, e. simpl in Ho. inversion Ho. auto.
Qed.

Lemma aborting_forEach {A : Type} (l : list A) (body : A -> Js W unit) :
  (forall x, aborting (body x)) -> aborting (forEach l body).
Proof.
  intros Hb. induction l as [| x rest IH]; simpl.
  - apply always_aborting, always_ret.
  - apply aborting_bind; [apply Hb | intros _; exact IH].
Qed.

Variable env : Env W.
Variable cfg : Config.

Lemma restoreDocuments_aborting db coll cd :
  aborting (RestoreTs.restoreDocuments env db coll cd).
Proof.
  intros w w' t o H.
  destruct (documents cd) as [[| d rest] |] eqn:Hdocs.
  - unfold RestoreTs.restoreDocuments in H. rewrite Hdocs in H. inversion H. left. constructor.
  - rewrite (restoreDocuments_cases env db coll cd (d :: rest) w Hdocs) in H by discriminate.
    destruct (mongo_insertMany env db coll (d :: rest) w) as [w1 [e | u]].
    + destruct (RestoreTs.isDuplicateKeyError e) eqn:He; inversion H; subst.
      * left. repeat constructor. simpl. rewrite He. reflexivity.
      * right. exists [], db, coll, (d :: rest), e. repeat split; auto.
    + inversion H; subst. left. repeat constructor.
  - unfold RestoreTs.restoreDocuments in H. rewrite Hdocs in H. inversion H. left. constructor.
Qed.

Lemma restoreCollection_aborting drop db entry :
  aborting (RestoreTs.restoreCollection env drop db entry).
Proof.
  unfold RestoreTs.restoreCollection.
  apply aborting_bind; [apply always_aborting; always_auto | intros _].
  apply aborting_bind; [apply always_aborting; always_auto | intros _].
  apply aborting_bind; [apply restoreDocuments_aborting | intros _].
  apply always_aborting. always_auto.
  all: unfold RestoreTs.restoreIndex; always_auto.
Qed.

Lemma restoreDatabase_aborting drop specific entry :
  aborting (RestoreTs.restoreDatabase env drop specific entry).
Proof.
  unfold RestoreTs.restoreDatabase.
  destruct (RestoreTs.skipsDatabase specific (fst entry)).
  - apply always_aborting. always_auto.
  - apply aborting_bind; [apply always_aborting; always_auto | intros _].
    apply aborting_forEach. intros x. apply restoreCollection_aborting.
Qed.

(** The [finally] block of the restore: it closes the connection. *)
Lemma close_block_inv w w' t o :
  (request MongoClose (mongo_close env) ;; console LLog [Str "MongoDB connection closed"]) w
  = (w', t, o) ->
  (t = [Call MongoClose None; Console LLog [Str "MongoDB connection closed"]]
   /\ o = Returned tt)
  \/ (exists e, t = [Call MongoClose (Some e)] /\ o = Thrown e).
Proof.
  unfold bind, request, console. destruct (mongo_close env w) as [w1 [e | u]];
    intros H; inversion H; subst; eauto.
Qed.

End Aborting.

Section RestoreWhole.

Context {W : Type}.
Variable env : Env W.
Variable cfg : Config.

(** The body of the [try] block of [restoreToMongoDB]. *)
Lemma restore_block_aborting backup drop :
  aborting
    (request (MongoConnect (MONGODB_URI cfg)) (mongo_connect env (MONGODB_URI cfg)) ;;
     console LLog [Str "Connected to MongoDB"] ;;
     specificDatabase <- RestoreTs.specificDatabaseOf env cfg ;;
     forEach (databases backup) (RestoreTs.restoreDatabase env drop specificDatabase) ;;
     console LLog [Str "Restore completed successfully"]).
Proof.
  apply aborting_bind; [apply always_aborting; always_auto | intros _].
  apply aborting_bind; [apply always_aborting; always_auto | intros _].
  apply aborting_bind.
  { apply always_aborting. unfold RestoreTs.specificDatabaseOf. always_auto. }
  intros specific.
  apply aborting_bind; [| intros _; apply always_aborting; always_auto].
  apply aborting_forEach. intros x. apply restoreDatabase_aborting.
Qed.

(** A bulk insert that fails with an error of another code than 11000 is
    fatal for the whole restore: the failed insert is the last request
    that changes the database, and the restore throws that error (or the
    error of closing the connection, if closing fails too). *)
Lemma fatal_insert_ends_the_restore backup drop w w' t o db coll docs e :
  RestoreTs.restoreToMongoDB env cfg backup drop w = (w', t, o) ->
  In (Call (MongoInsertMany db coll docs) (Some e)) t ->
  RestoreTs.isDuplicateKeyError e = false ->
  exists t0 t1,
    t = (t0 ++ Call (MongoInsertMany db coll docs) (Some e) :: t1)%list
    /\ Forall (fun ev => isMutation ev = false) t1
    /\ (o = Thrown e
        \/ exists e', In (Call MongoClose (Some e')) t1 /\ o = Thrown e').
Proof.
  intros Hrun Hin He.
  assert (Hfatal : isFatalInsert (Call (MongoInsertMany db coll docs) (Some e)) = true).
  { simpl. rewrite He. reflexivity. }
  unfold RestoreTs.restoreToMongoDB in Hrun.
  apply newMongoClient_inv in Hrun.
  destruct Hrun as [(e0 & _ & _ & -> & _) | [_ Hrun]]; [destruct Hin |].
  destruct (try_finally_inv _ _ _ _ _ _ Hrun)
    as [(w1 & t1 & o1 & t2 & o2 & Hm & Hf & -> & _ & Ho) | (Hm & Hstop)].
  - pose proof (restore_block_aborting backup drop _ _ _ _ Hm) as Hab.
    pose proof (close_block_inv env _ _ _ _ Hf) as Hclose.
    assert (Hquiet : Forall (fun ev => isMutation ev = false) t2).
    { destruct Hclose as [[-> _] | (e' & -> & _)]; repeat constructor. }
    assert (Hin1 : In (Call (MongoInsertMany db coll docs) (Some e)) t1).
    { apply in_app_or in Hin. destruct Hin as [Hin | Hin]; [exact Hin |].
      rewrite Forall_forall in Hquiet. apply Hquiet in Hin. discriminate Hin. }
    destruct Hab as [Hq | (t0 & db' & coll' & docs' & e0 & -> & He0 & Hq & ->)].
    + rewrite Forall_forall in Hq. apply Hq in Hin1. congruence.
    + apply in_app_or in Hin1. destruct Hin1 as [Hin1 | [Heq | []]].
      { rewrite Forall_forall in Hq. apply Hq in Hin1. congruence. }
      inversion Heq; subst. exists t0, t2. split; [| split].
      * rewrite <- app_assoc. reflexivity.
      * exact Hquiet.
      * destruct Ho as [(u & -> & ->) | Ho]; [left; reflexivity |].
         destruct Hclose as [[_ ->] | (e' & -> & ->)]; [discriminate Ho |].
         simpl in Ho. inversion Ho. right. exists e'. split; [left | ]; reflexivity.
  - pose proof (restore_block_aborting backup drop _ _ _ _ Hm) as Hab.
    destruct Hab as [Hq | (t0 & db' & coll' & docs' & e0 & _ & _ & _ & ->)].
    + rewrite Forall_forall in Hq. apply Hq in Hin. congruence.
    + destruct Hstop as [Hs | [[c Hs] | [e1 Hs]]]; discriminate Hs.
Qed.

End RestoreWhole.

(** ** Restore: the index step *)

Section RestoreIndexes.

Context {W : Type}.
Variable env : Env W.
Variable cfg : Config.

Lemma lookup_remove_other {A : Type} (k k' : string) (o : list (string * A)) :
  k <> k' -> lookup k (remove k' o) = lookup k o.
Proof.
  intros Hne. induction o as [| [k0 v] rest IH]; simpl; [reflexivity |].
  destruct (String.eqb k' k0) eqn:E1; simpl.
  - apply String.eqb_eq in E1. subst k0.
    destruct (String.eqb k k') eqn:E2; [apply String.eqb_eq in E2; contradiction | exact IH].
  - destruct (String.eqb k k0); [reflexivity | exact IH].
Qed.

(** The options keep the name of the index. *)
Lemma options_keep_name (index : obj) :
  RestoreTs.isIdIndex (snd (createIndexArgs index)) = RestoreTs.isIdIndex index.
Proof.
  unfold RestoreTs.isIdIndex, createIndexArgs, RestoreTs.indexSpecOf. simpl snd.
  rewrite !lookup_remove_other by discriminate. reflexivity.
Qed.

Lemma createIndexCalls_app (t1 t2 : list Event) :
  createIndexCalls (t1 ++ t2) = (createIndexCalls t1 ++ createIndexCalls t2)%list.
Proof.
  induction t1 as [| ev rest IH]; simpl; [reflexivity |].
  destruct ev as [lvl line | r f]; [exact IH |].
  destruct r; simpl; rewrite ?IH; reflexivity.
Qed.

Lemma createIndexCalls_none (t : list Event) :
  Forall (fun ev => isCreateIndex ev = false) t -> createIndexCalls t = [].
Proof.
  induction 1 as [| ev rest Hev _ IH]; simpl; [reflexivity |].
  destruct ev as [lvl line | r f]; [exact IH |].
  destruct r; simpl in *; try exact IH. discriminate Hev.
Qed.

(** What the body of the index loop does, by the answer of the driver. *)
Lemma restoreIndex_cases db coll index w :
  RestoreTs.restoreIndex env db coll index w =
  if RestoreTs.isIdIndex index then (w, [], Returned tt)
  else
    let key := fst (createIndexArgs index) in
    let options := snd (createIndexArgs index) in
    let name := Val (lookup "name" index) in
    match mongo_createIndex env db coll key options w with
    | (w1, inr _) =>
        (w1, [Call (MongoCreateIndex db coll key options) None;
              Console LLog [Str "    Created index: "; name]],
         Returned tt)
    | (w1, inl e) =>
        (w1, [Call (MongoCreateIndex db coll key options) (Some e);
              if RestoreTs.isIndexExistsError e
              then Console LLog [Str "    Index already exists: "; name]
              else Console LWarn [Str "    Warning creating index "; name; Str ": ";
                                  Str (err_message e)]],
         Returned tt)
    end.
Proof.
  unfold RestoreTs.restoreIndex. destruct (RestoreTs.isIdIndex index); [reflexivity |].
  unfold try_catch, bind, request, console, createIndexArgs. cbn [fst snd].
  destruct (mongo_createIndex env db coll _ _ w) as [w1 [e | []]]; [| reflexivity].
  destruct (RestoreTs.isIndexExistsError e); reflexivity.
Qed.

Lemma expectedIndexCalls_cons (index : obj) (rest : list obj) :
  expectedIndexCalls (index :: rest) =
  if RestoreTs.isIdIndex index then expectedIndexCalls rest
  else createIndexArgs index :: expectedIndexCalls rest.
Proof.
  unfold expectedIndexCalls. simpl. destruct (RestoreTs.isIdIndex index); reflexivity.
Qed.

(** The index loop always returns, after one creation request for every
    captured index other than the primary key index. *)
Lemma restoreIndexes_run db coll (idx : list obj) w :
  exists w' t,
    forEach idx (RestoreTs.restoreIndex env db coll) w = (w', t, Returned tt)
    /\ createIndexCalls t = expectedIndexCalls idx
    /\ Forall (fun ev => isFatalInsert ev = false) t.
Proof.
  revert w. induction idx as [| index rest IH]; intros w.
  - exists w, []. repeat split. constructor.
  - simpl forEach. unfold bind at 1. rewrite restoreIndex_cases, expectedIndexCalls_cons.
    destruct (RestoreTs.isIdIndex index) eqn:Hid.
    + destruct (IH w) as (w' & t & -> & Ht & Hq). exists w', t. auto.
    + cbv zeta.
      destruct (mongo_createIndex env db coll _ _ w) as [w1 [e | u]];
        destruct (IH w1) as (w' & t & -> & Ht & Hq);
        try destruct (RestoreTs.isIndexExistsError e);
        eexists; eexists; (split; [reflexivity |]);
        (split; [rewrite createIndexCalls_app, Ht; reflexivity |]);
        repeat constructor; exact Hq.
Qed.

End RestoreIndexes.

Section RestoreCollection.

Context {W : Type}.
Variable env : Env W.

(** The drop step always returns: a failure to drop is ignored or
    reported as a warning. *)
Lemma dropStep_run (drop : bool) db coll w :
  exists w1 t1,
    (if drop then
       try_catch
         (request (MongoDrop db coll) (mongo_drop env db coll) ;;
          console LLog [Str "    Dropped existing collection: "; Str coll])
         (fun error =>
            if RestoreTs.isNamespaceNotFound error then ret tt
            else console LWarn [Str "    Warning dropping collection: ";
                                Str (err_message error)])
     else ret tt) w = (w1, t1, Returned tt)
    /\ createIndexCalls t1 = []
    /\ Forall (fun ev => isFatalInsert ev = false) t1.
Proof.
  destruct drop.
  - unfold try_catch, bind, request, console, ret.
    destruct (mongo_drop env db coll w) as [w1 [e | []]].
    + destruct (RestoreTs.isNamespaceNotFound e);
        eexists; eexists; (split; [reflexivity |]); split; try reflexivity;
        repeat constructor.
    + eexists; eexists; (split; [reflexivity |]); split; try reflexivity;
        repeat constructor.
  - exists w, []. repeat split. constructor.
Qed.

(** The document step returns, or throws the error of a bulk insert that
    is not a duplicate key error. *)
Lemma restoreDocuments_outcome db coll cd w w' t o :
  RestoreTs.restoreDocuments env db coll cd w = (w', t, o) ->
  createIndexCalls t = []
  /\ ((o = Returned tt /\ Forall (fun ev => isFatalInsert ev = false) t)
      \/ exists docs e,
           t = [Call (MongoInsertMany db coll docs) (Some e)]
           /\ RestoreTs.isDuplicateKeyError e = false /\ o = Thrown e).
Proof.
  intros H. destruct (documents cd) as [[| d rest] |] eqn:Hdocs.
  - unfold RestoreTs.restoreDocuments in H. rewrite Hdocs in H. inversion H.
    split; [reflexivity | left; split; [reflexivity | constructor]].
  - rewrite (restoreDocuments_cases env db coll cd (d :: rest) w Hdocs) in H by discriminate.
    destruct (mongo_insertMany env db coll (d :: rest) w) as [w1 [e | u]].
    + destruct (RestoreTs.isDuplicateKeyError e) eqn:He; inversion H; subst.
      * split; [reflexivity | left; split; [reflexivity |]].
        repeat constructor. simpl. rewrite He. reflexivity.
      * split; [reflexivity | right]. exists (d :: rest), e. auto.
    + inversion H; subst. split; [reflexivity | left; split; [reflexivity |]].
      repeat constructor.
  - unfold RestoreTs.restoreDocuments in H. rewrite Hdocs in H. inversion H.
    split; [reflexivity | left; split; [reflexivity | constructor]].
Qed.

(** The restore of a collection returns after every index creation due, or
    throws the error of a fatal bulk insert before any index creation. *)
Lemma restoreCollection_outcome drop db coll cd w w' t o :
  RestoreTs.restoreCollection env drop db (coll, cd) w = (w', t, o) ->
  (o = Returned tt
   /\ createIndexCalls t = expectedIndexCalls (capturedIndexes cd)
   /\ Forall (fun ev => isFatalInsert ev = false) t)
  \/ (exists t0 docs e,
        t = (t0 ++ [Call (MongoInsertMany db coll docs) (Some e)])%list
        /\ RestoreTs.isDuplicateKeyError e = false
        /\ o = Thrown e
        /\ createIndexCalls t = []).
Proof.
  unfold RestoreTs.restoreCollection. cbn [fst snd]. intros H.
  destruct (bind_inv _ _ _ _ _ _ H) as [(u0 & w0 & t0 & tr & Hlog & H0 & ->) | (o0 & Hlog & Ho0)];
    rewrite console_run in Hlog; inversion Hlog; subst; [| discriminate Ho0].
  clear H Hlog.
  destruct (dropStep_run drop db coll w0) as (w1 & t1 & Hdrop & Hc1 & Hq1).
  destruct (bind_inv _ _ _ _ _ _ H0) as [(u1 & w1' & t1' & t2 & Hd & Hrest & ->) | (o1 & Hd & Ho1)];
    rewrite Hdrop in Hd; inversion Hd; subst; [| discriminate Ho1].
  clear H0 Hd. rename w' into w2, o into o2, t1' into t1, w1' into w1.
  destruct (bind_inv _ _ _ _ _ _ Hrest)
    as [(u & w3 & t3 & t4 & Hdoc & Hidx & ->) | (o1 & Hdoc & Ho1)].
  - destruct (restoreDocuments_outcome _ _ _ _ _ _ _ Hdoc)
      as [Hc3 [[_ Hq3] | (docs & e & _ & _ & Habs)]];
      [| discriminate Habs].
    assert (Hloop : exists w' t,
               forEach (capturedIndexes cd) (RestoreTs.restoreIndex env db coll) w3
               = (w', t, Returned tt)
               /\ createIndexCalls t = expectedIndexCalls (capturedIndexes cd)
               /\ Forall (fun ev => isFatalInsert ev = false) t)
      by apply restoreIndexes_run.
    assert (Hidx' : forEach (capturedIndexes cd) (RestoreTs.restoreIndex env db coll) w3
                    = (w2, t4, o2)).
    { unfold capturedIndexes. destruct (indexes cd) as [[| i rest] |]; exact Hidx. }
    destruct Hloop as (w4 & t5 & Hrun & Hc5 & Hq5). rewrite Hrun in Hidx'.
    inversion Hidx'; subst. left. split; [reflexivity | split].
    + rewrite !createIndexCalls_app, Hc1, Hc3, Hc5. reflexivity.
    + repeat (apply Forall_app; split); try assumption. repeat constructor.
  - destruct (restoreDocuments_outcome _ _ _ _ _ _ _ Hdoc)
      as [Hc3 [[-> _] | (docs & e & -> & He & ->)]]; [discriminate Ho1 |].
    simpl in Ho1. inversion Ho1; subst o2. right.
    exists ([Console LLog [Str "  Restoring collection: "; Str coll]] ++ t1)%list, docs, e.
    split; [| split; [exact He | split; [reflexivity |]]].
    + rewrite <- app_assoc. reflexivity.
    + rewrite !createIndexCalls_app, Hc1. reflexivity.
Qed.

End RestoreCollection.

Section RestoreIndexClaims.

Context {W : Type}.
Variable env : Env W.
Variable cfg : Config.

Lemma always_try_finally {A : Type} P (m : Js W A) (f : Js W unit) :
  always P m -> always P f -> always P (try_finally m f).
Proof.
  intros Hm Hf w w' t o H.
  destruct (try_finally_inv _ _ _ _ _ _ H)
    as [(w1 & t1 & o1 & t2 & o2 & H1 & H2 & -> & _) | (H1 & _)].
  - apply Forall_app. split; [eapply Hm | eapply Hf]; eassumption.
  - eapply Hm; eassumption.
Qed.

Lemma restoreIndex_not_id db coll index :
  always notIdIndexCreation (RestoreTs.restoreIndex env db coll index).
Proof.
  unfold RestoreTs.restoreIndex. destruct (RestoreTs.isIdIndex index) eqn:Hid.
  - apply always_ret.
  - apply always_try_catch.
    + apply always_bind; [| intros _; apply always_console; exact I].
      apply always_request. intros x.
      change (RestoreTs.isIdIndex (snd (createIndexArgs index)) = false).
      rewrite options_keep_name. exact Hid.
    + intros e. destruct (RestoreTs.isIndexExistsError e); apply always_console; exact I.
Qed.

(** C7: the restore never asks the driver to create the primary key index
    (the index named [_id_]), in no collection of no database; and the
    restore of a collection that returns has asked for the creation of
    every other captured index, each once and in the captured order, with
    the key specification and the options left after [v], [ns] and [key]
    are taken out. *)
Theorem C7_primary_key_index_not_recreated :
  (forall backup drop,
      always notIdIndexCreation (RestoreTs.restoreToMongoDB env cfg backup drop))
  /\ (forall drop db coll cd w w' t,
         RestoreTs.restoreCollection env drop db (coll, cd) w = (w', t, Returned tt) ->
         createIndexCalls t = expectedIndexCalls (capturedIndexes cd)
         /\ Forall (fun call => RestoreTs.isIdIndex (snd call) = false) (createIndexCalls t)).
Proof.
  split.
  - intros backup drop. unfold RestoreTs.restoreToMongoDB.
    apply always_bind; [apply always_newMongoClient | intros _].
    apply always_try_finally; [| repeat always_step; exact I].
    apply always_bind; [apply always_request; intros x; exact I | intros _].
    apply always_bind; [apply always_console; exact I | intros _].
    apply always_bind; [unfold RestoreTs.specificDatabaseOf; repeat always_step | intros specific].
    apply always_bind; [| intros _; apply always_console; exact I].
    apply always_forEach. intros entry _. unfold RestoreTs.restoreDatabase.
    destruct (RestoreTs.skipsDatabase specific (fst entry)); [apply always_console; exact I |].
    apply always_bind; [apply always_console; exact I | intros _].
    apply always_forEach. intros centry _. unfold RestoreTs.restoreCollection.
    apply always_bind; [apply always_console; exact I | intros _].
    apply always_bind; [repeat always_step; exact I | intros _].
    apply always_bind; [unfold RestoreTs.restoreDocuments; repeat always_step; exact I | intros _].
    destruct (indexes (snd centry)) as [[| i rest] |]; try apply always_ret.
    apply always_forEach. intros index _. apply restoreIndex_not_id.
  - intros drop db coll cd w w' t Hrun.
    destruct (restoreCollection_outcome env _ _ _ _ _ _ _ _ Hrun)
      as [(_ & Hcalls & _) | (t0 & docs & e & _ & _ & Habs & _)]; [| discriminate Habs].
    split; [exact Hcalls |]. rewrite Hcalls. unfold expectedIndexCalls.
    apply Forall_forall. intros call Hin. apply in_map_iff in Hin.
    destruct Hin as (index & <- & Hin). apply filter_In in Hin. destruct Hin as [_ Hid].
    rewrite options_keep_name.
    destruct (RestoreTs.isIdIndex index); [discriminate Hid | reflexivity].
Qed.

(** C8: a failure to create an index never ends the restore.  For an index
    other than the primary key index the body of the index loop returns
    whatever the driver answers: on success it logs the creation, on an
    error of code 85 or 86 (an index of that name or of that specification
    exists) it logs that the index exists, on any other error it logs a
    warning.  The index loop therefore returns after a request for every
    index due, and the restore of a collection returns unless a bulk insert
    failed with an error that is not a duplicate key error. *)
Theorem C8_index_failures_are_not_fatal :
  (forall db coll index w,
      RestoreTs.isIdIndex index = false ->
      let key := fst (createIndexArgs index) in
      let options := snd (createIndexArgs index) in
      let name := Val (lookup "name" index) in
      RestoreTs.restoreIndex env db coll index w =
      match mongo_createIndex env db coll key options w with
      | (w1, inr _) =>
          (w1, [Call (MongoCreateIndex db coll key options) None;
                Console LLog [Str "    Created index: "; name]],
           Returned tt)
      | (w1, inl e) =>
          (w1, [Call (MongoCreateIndex db coll key options) (Some e);
                if RestoreTs.isIndexExistsError e
                then Console LLog [Str "    Index already exists: "; name]
                else Console LWarn [Str "    Warning creating index "; name; Str ": ";
                                    Str (err_message e)]],
           Returned tt)
      end)
  /\ (forall db coll idx w,
         exists w' t,
           forEach idx (RestoreTs.restoreIndex env db coll) w = (w', t, Returned tt)
           /\ createIndexCalls t = expectedIndexCalls idx)
  /\ (forall drop db coll cd w w' t o,
         RestoreTs.restoreCollection env drop db (coll, cd) w = (w', t, o) ->
         o = Returned tt
         \/ exists t0 docs e,
              t = (t0 ++ [Call (MongoInsertMany db coll docs) (Some e)])%list
              /\ RestoreTs.isDuplicateKeyError e = false /\ o = Thrown e).
Proof.
  split; [| split].
  - intros db coll index w Hid. rewrite restoreIndex_cases, Hid. reflexivity.
  - intros db coll idx w.
    destruct (restoreIndexes_run env db coll idx w) as (w' & t & Hrun & Hcalls & _).
    exists w', t. auto.
  - intros drop db coll cd w w' t o Hrun.
    destruct (restoreCollection_outcome env _ _ _ _ _ _ _ _ Hrun)
      as [(Ho & _) | (t0 & docs & e & Ht & He & Ho & _)]; [left; exact Ho | right].
    exists t0, docs, e. auto.
Qed.

End RestoreIndexClaims.

(** ** Retention cleanup *)

Section Cleanup.

Context {W : Type}.
Variable env : Env W.
Variable cfg : Config.

Lemma deleteAttempts_app (t1 t2 : list Event) :
  deleteAttempts (t1 ++ t2) = (deleteAttempts t1 ++ deleteAttempts t2)%list.
Proof.
  induction t1 as [| ev rest IH]; simpl; [reflexivity |].
  destruct ev as [lvl line | r f]; [exact IH |].
  destruct r; simpl; rewrite ?IH; reflexivity.
Qed.

Lemma deleteFailures_app (t1 t2 : list Event) :
  deleteFailures (t1 ++ t2) = (deleteFailures t1 ++ deleteFailures t2)%list.
Proof.
  induction t1 as [| ev rest IH]; simpl; [reflexivity |].
  destruct ev as [lvl line | r f]; [exact IH |].
  destruct r; simpl; try exact IH. destruct f; simpl; rewrite ?IH; reflexivity.
Qed.

(** The body of the deletion loop, by the answer of the store. *)
Lemma deleteOne_cases (o : S3Object) w :
  Retention.deleteOne env cfg o w =
  match Key o with
  | Some k =>
      if JS.truthy k then
        match s3_deleteObject env (S3_BUCKET cfg) k w with
        | (w1, inr _) =>
            (w1, [Call (S3DeleteObject (S3_BUCKET cfg) k) None;
                  Console LLog [Str "Deleted old backup: "; Str k]],
             Returned tt)
        | (w1, inl e) => (w1, [Call (S3DeleteObject (S3_BUCKET cfg) k) (Some e)], Thrown e)
        end
      else (w, [], Returned tt)
  | None => (w, [], Returned tt)
  end.
Proof.
  unfold Retention.deleteOne. destruct (Key o) as [k |]; [| reflexivity].
  destruct (JS.truthy k); [| reflexivity].
  unfold bind, request, console.
  destruct (s3_deleteObject env (S3_BUCKET cfg) k w) as [w1 [e | []]]; reflexivity.
Qed.

(** The deletion loop walks the objects in order and stops at the first
    deletion that fails: it returns after a request for every key, none of
    which failed, or it throws the error of the one request that failed,
    and the keys after that one get no request. *)
Lemma deleteLoop_run (objects : list S3Object) w :
  exists w' t o,
    forEach objects (Retention.deleteOne env cfg) w = (w', t, o)
    /\ ((o = Returned tt
         /\ deleteAttempts t = deletableKeys objects
         /\ deleteFailures t = [])
        \/ (exists e done k rest,
               o = Thrown e
               /\ deletableKeys objects = (done ++ k :: rest)%list
               /\ deleteAttempts t = (done ++ [k])%list
               /\ deleteFailures t = [k])).
Proof.
  revert w. induction objects as [| ob rest IH]; intros w.
  - exists w, [], (Returned tt). split; [reflexivity | left; auto].
  - simpl forEach. unfold bind at 1. rewrite deleteOne_cases. simpl deletableKeys.
    destruct (Key ob) as [k |].
    + destruct (JS.truthy k).
      * destruct (s3_deleteObject env (S3_BUCKET cfg) k w) as [w1 [e | u]].
        -- exists w1, [Call (S3DeleteObject (S3_BUCKET cfg) k) (Some e)], (Thrown e).
           split; [reflexivity | right]. exists e, [], k, (deletableKeys rest). auto.
        -- destruct (IH w1) as (w' & t & o & -> & Hcase).
           eexists; eexists; eexists. split; [reflexivity |].
           destruct Hcase as [(-> & Ha & Hf) | (e & done & k' & rest' & -> & Hk & Ha & Hf)].
           ++ left. rewrite deleteAttempts_app, deleteFailures_app, Ha, Hf. auto.
           ++ right. exists e, (k :: done), k', rest'.
              rewrite deleteAttempts_app, deleteFailures_app, Ha, Hf, Hk. auto.
      * destruct (IH w) as (w' & t & o & -> & Hcase). exists w', t, o. auto.
    + destruct (IH w) as (w' & t & o & -> & Hcase). exists w', t, o. auto.
Qed.

End Cleanup.

Section CleanupRun.

Context {W : Type}.
Variable env : Env W.
Variable cfg : Config.

(** The cleanup with a horizon of [n > 0] days, at time [now]: an invalid
    cutoff date makes the first log line throw; otherwise the [try] block
    runs and what it throws is caught and logged. *)
Lemma cleanup_enabled days n w w0 now :
  RETENTION_DAYS cfg = Some days ->
  JS.parseInt10 days = JS.Int n ->
  0 < n ->
  clock_now env w = (w0, now) ->
  Retention.deleteOldBackups env cfg w =
  match Retention.cutoffDate env now n with
  | None => (w0, [], Thrown (newError "RangeError" "Invalid time value"))
  | Some c =>
      match Retention.listAndDelete env cfg (Some c) w0 with
      | (w1, t, Thrown e) =>
          (w1, (cleaningLine n c :: t
                ++ [Console LError [Str "Failed to cleanup old backups:"; Err e]])%list,
           Returned tt)
      | (w1, t, o) => (w1, cleaningLine n c :: t, o)
      end
  end.
Proof.
  intros Hdays Hparse Hpos Hclock. unfold Retention.deleteOldBackups.
  rewrite Hdays. destruct days as [| ch rest]; [discriminate Hparse |].
  cbn [JS.truthy negb]. rewrite Hparse.
  destruct (n <=? 0) eqn:Hle; [apply Z.leb_le in Hle; lia |].
  unfold bind at 1. unfold newDate. rewrite Hclock.
  destruct (Retention.cutoffDate env now n) as [c |]; [| reflexivity].
  cbn [toISOString]. unfold bind, ret, console, try_catch, cleaningLine. simpl.
  destruct (Retention.listAndDelete env cfg (Some c) w0) as [[w1 t] o].
  destruct o; reflexivity.
Qed.

(** The [try] block when the listing answers with [contents]. *)
Lemma listAndDelete_listed cutoff w0 w1 contents :
  s3_listObjectsV2 env (S3_BUCKET cfg) (Retention.backupPrefix cfg) w0
  = (w1, inr (Some contents)) ->
  let eligible := deletableKeys (filter (Retention.isOld cutoff) contents) in
  exists w' t o,
    Retention.listAndDelete env cfg cutoff w0 = (w', t, o)
    /\ ((o = Returned tt /\ deleteAttempts t = eligible /\ deleteFailures t = [])
        \/ (exists e done k rest,
               o = Thrown e
               /\ eligible = (done ++ k :: rest)%list
               /\ deleteAttempts t = (done ++ [k])%list
               /\ deleteFailures t = [k])).
Proof.
  intros Hlist eligible. unfold Retention.listAndDelete.
  unfold bind at 1. unfold request at 1. rewrite Hlist. subst eligible.
  destruct (filter (Retention.isOld cutoff) contents) as [| ob rest] eqn:Hold.
  - eexists; eexists; eexists. split; [reflexivity | left]. auto.
  - destruct (deleteLoop_run env cfg (ob :: rest) w1) as (w' & t & o & Hloop & Hcase).
    unfold bind at 1. rewrite console_run. unfold bind at 1. rewrite Hloop.
    destruct Hcase as [(-> & Ha & Hf) | (e & done & k & rest' & -> & Hk & Ha & Hf)].
    + rewrite console_run. eexists; eexists; eexists. split; [reflexivity | left].
      split; [reflexivity |]. simpl.
      rewrite !deleteAttempts_app, !deleteFailures_app, Ha, Hf. simpl.
      rewrite !app_nil_r. auto.
    + eexists; eexists; eexists. split; [reflexivity | right].
      exists e, done, k, rest'. auto.
Qed.

End CleanupRun.

Section CleanupClaims.

Context {W : Type}.
Variable env : Env W.
Variable cfg : Config.

Lemma truthy_iff (k : string) : JS.truthy k = true <-> k <> EmptyString.
Proof. destruct k; simpl; split; intros H; try discriminate; try reflexivity; congruence. Qed.

Lemma in_deletableKeys (k : string) (objects : list S3Object) :
  In k (deletableKeys objects)
  <-> exists ob, In ob objects /\ Key ob = Some k /\ k <> EmptyString.
Proof.
  induction objects as [| ob rest IH]; simpl.
  - split; [intros [] | intros (ob & [] & _)].
  - destruct (Key ob) as [k0 |] eqn:Hkey.
    + destruct (JS.truthy k0) eqn:Htr.
      * simpl. rewrite IH. split.
        -- intros [-> | (ob' & Hin & Hk)].
           ++ exists ob. split; [left; reflexivity | split; [exact Hkey |]].
              apply truthy_iff. exact Htr.
           ++ exists ob'. split; [right; exact Hin | exact Hk].
        -- intros (ob' & [<- | Hin] & Hk & Hne).
           ++ left. congruence.
           ++ right. exists ob'. auto.
      * rewrite IH. split.
        -- intros (ob' & Hin & Hk). exists ob'. split; [right; exact Hin | exact Hk].
        -- intros (ob' & [<- | Hin] & Hk & Hne).
           ++ rewrite Hkey in Hk. inversion Hk; subst k0.
              apply truthy_iff in Hne. congruence.
           ++ exists ob'. auto.
    + rewrite IH. split.
      * intros (ob' & Hin & Hk). exists ob'. split; [right; exact Hin | exact Hk].
      * intros (ob' & [<- | Hin] & Hk & Hne); [congruence | exists ob'; auto].
Qed.

(** An object passes the filter of [objectsToDelete] exactly when it has a
    last-modified time strictly before a valid cutoff. *)
Lemma isOld_iff (cutoff : JS.Date) (ob : S3Object) :
  Retention.isOld cutoff ob = true
  <-> exists modified c, LastModified ob = Some modified /\ cutoff = Some c /\ modified < c.
Proof.
  unfold Retention.isOld, JS.date_lt. destruct (LastModified ob) as [m |].
  - destruct cutoff as [c |].
    + rewrite Z.ltb_lt. split.
      * intros H. exists m, c. auto.
      * intros (m' & c' & Hm & Hc & Hlt). inversion Hm; inversion Hc; subst. exact Hlt.
    + split; [discriminate | intros (m' & c' & _ & Hc & _); discriminate Hc].
  - split; [discriminate | intros (m' & c' & Hm & _); discriminate Hm].
Qed.

(** C3 (as the code has it): the deletions are attempted in the order of
    the listing and stop at the first one that fails.  With a horizon of
    [n > 0] days, a valid cutoff and a listing that answers, the cleanup
    returns; either every eligible key got a delete request and none
    failed, or the requests went up to the first key whose deletion
    failed, that failure was caught and logged, and the eligible keys
    after it got no request. *)
Theorem C3_cleanup_stops_at_first_failed_deletion days n w w0 now c w1 contents :
  RETENTION_DAYS cfg = Some days ->
  JS.parseInt10 days = JS.Int n ->
  0 < n ->
  clock_now env w = (w0, now) ->
  Retention.cutoffDate env now n = Some c ->
  s3_listObjectsV2 env (S3_BUCKET cfg) (Retention.backupPrefix cfg) w0
  = (w1, inr (Some contents)) ->
  let eligible := deletableKeys (filter (Retention.isOld (Some c)) contents) in
  exists w' t,
    Retention.deleteOldBackups env cfg w = (w', t, Returned tt)
    /\ ((deleteAttempts t = eligible /\ deleteFailures t = [])
        \/ exists done k rest e,
             eligible = (done ++ k :: rest)%list
             /\ deleteAttempts t = (done ++ [k])%list
             /\ deleteFailures t = [k]
             /\ In (Console LError [Str "Failed to cleanup old backups:"; Err e]) t).
Proof.
  intros Hdays Hparse Hpos Hclock Hcut Hlist eligible.
  rewrite (cleanup_enabled env cfg days n w w0 now Hdays Hparse Hpos Hclock), Hcut.
  destruct (listAndDelete_listed env cfg (Some c) w0 w1 contents Hlist)
    as (w' & t & o & -> & Hcase).
  destruct Hcase as [(-> & Ha & Hf) | (e & done & k & rest & -> & Hk & Ha & Hf)].
  - eexists; eexists. split; [reflexivity | left]. simpl. auto.
  - eexists; eexists. split; [reflexivity | right].
    exists done, k, rest, e. split; [exact Hk |].
    set (caught := Console LError [Str "Failed to cleanup old backups:"; Err e]).
    change (cleaningLine n c :: t ++ [caught])%list
      with ([cleaningLine n c] ++ t ++ [caught])%list.
    rewrite !deleteAttempts_app, !deleteFailures_app, Ha, Hf. simpl.
    rewrite !app_nil_r. repeat split. right. apply in_or_app. right. left. reflexivity.
Qed.

(** C6: the retention cleanup.  Without a usable horizon (the variable is
    absent or empty, does not start with a number, or gives a number that
    is zero or negative) the cleanup logs one line and does nothing else:
    no request, no error.  The cutoff is the present time moved back by the
    horizon in calendar days, which on a host whose zone offset is constant
    is [now - n * msPerDay].  With a horizon of [n > 0] days and a listing
    under the backup prefix that answers with [contents], every delete
    request is for a listed key whose last-modified time is strictly
    before the cutoff, and when no deletion fails every such key gets its
    request. *)
Theorem C6_cleanup_deletes_what_is_older_than_cutoff :
  (forall w,
      (RETENTION_DAYS cfg = None
       \/ exists days,
            RETENTION_DAYS cfg = Some days
            /\ (days = EmptyString
                \/ JS.parseInt10 days = JS.NaN
                \/ exists n, JS.parseInt10 days = JS.Int n /\ n <= 0)) ->
      exists line, Retention.deleteOldBackups env cfg w = (w, [Console LLog line], Returned tt))
  /\ (forall now n offset,
         (forall t, JS.LocalTZA_utc (timeZone env) t = offset) ->
         (forall t, JS.LocalTZA_local (timeZone env) t = offset) ->
         Retention.cutoffDate env now n = JS.TimeClip (now - n * JS.msPerDay))
  /\ (forall days n w w0 now w1 contents w' t o,
         RETENTION_DAYS cfg = Some days ->
         JS.parseInt10 days = JS.Int n ->
         0 < n ->
         clock_now env w = (w0, now) ->
         s3_listObjectsV2 env (S3_BUCKET cfg) (Retention.backupPrefix cfg) w0
         = (w1, inr (Some contents)) ->
         Retention.deleteOldBackups env cfg w = (w', t, o) ->
         let expired k :=
           exists ob modified cutoff,
             In ob contents /\ Key ob = Some k /\ k <> EmptyString
             /\ LastModified ob = Some modified
             /\ Retention.cutoffDate env now n = Some cutoff
             /\ modified < cutoff in
         (forall k, In k (deleteAttempts t) -> expired k)
         /\ (deleteFailures t = [] -> forall k, expired k -> In k (deleteAttempts t))).
Proof.
  split; [| split].
  - intros w H. unfold Retention.deleteOldBackups.
    destruct H as [-> | (days & -> & H)]; [eexists; reflexivity |].
    destruct H as [-> | [Hnan | (n & Hn & Hle)]]; [eexists; reflexivity | |].
    + destruct (negb (JS.truthy days)); [eexists; reflexivity |].
      rewrite Hnan. eexists; reflexivity.
    + destruct (negb (JS.truthy days)); [eexists; reflexivity |].
      rewrite Hn. apply Z.leb_le in Hle. rewrite Hle. eexists; reflexivity.
  - intros now n offset Hu Hl. unfold Retention.cutoffDate, JS.setDate_getDate_minus.
    unfold JS.UTC, JS.LocalTime. rewrite Hu, Hl. f_equal. lia.
  - intros days n w w0 now w1 contents w' t o Hdays Hparse Hpos Hclock Hlist Hrun expired.
    rewrite (cleanup_enabled env cfg days n w w0 now Hdays Hparse Hpos Hclock) in Hrun.
    destruct (Retention.cutoffDate env now n) as [c |] eqn:Hcut.
    + assert (Hiff : forall k,
                 In k (deletableKeys (filter (Retention.isOld (Some c)) contents))
                 <-> expired k).
      { intros k. rewrite in_deletableKeys. subst expired. split.
        - intros (ob & Hin & Hk & Hne). apply filter_In in Hin. destruct Hin as [Hin Hold].
          apply isOld_iff in Hold. destruct Hold as (m & c' & Hm & Hc & Hlt).
          inversion Hc; subst c'. exists ob, m, c. auto 10.
        - intros (ob & m & c' & Hin & Hk & Hne & Hm & Hc & Hlt). inversion Hc; subst c'.
          exists ob. split; [| auto]. apply filter_In. split; [exact Hin |].
          apply isOld_iff. exists m, c. auto. }
      destruct (listAndDelete_listed env cfg (Some c) w0 w1 contents Hlist)
        as (w2 & t1 & o1 & Hrun1 & Hcase).
      rewrite Hrun1 in Hrun.
      assert (Ht : deleteAttempts t = deleteAttempts t1 /\ deleteFailures t = deleteFailures t1).
      { destruct o1; inversion Hrun; subst; simpl; try (split; reflexivity).
        rewrite deleteAttempts_app, deleteFailures_app. simpl. rewrite !app_nil_r. auto. }
      destruct Ht as [-> ->].
      destruct Hcase as [(_ & Ha & Hf) | (e & done & k0 & rest & _ & Hk & Ha & Hf)].
      * rewrite Ha. split; [intros k Hin; apply Hiff; exact Hin |].
        intros _ k Hexp. apply Hiff. exact Hexp.
      * rewrite Ha, Hf. split; [| discriminate].
        intros k Hin. apply Hiff. rewrite Hk. apply in_app_or in Hin.
        apply in_or_app.
        destruct Hin as [Hin | [<- | []]]; [left; exact Hin | right; left; reflexivity].
    + inversion Hrun; subst. split; [intros k [] |].
      intros _ k (ob & m & c' & _ & _ & _ & _ & Hc & _). discriminate Hc.
Qed.

End CleanupClaims.

(** ** Retention cleanup on concrete stores *)

(** The listing has two archives older than thirty days and the deletion
    of the first fails: the second one, although eligible, gets no delete
    request. *)
Lemma C3_later_deletion_never_attempted :
  let env := Scenario.env Inputs.firstDeleteFails in
  let run := Retention.deleteOldBackups env (Scenario.config (Some "30")) [] in
  Retention.isOld (Retention.cutoffDate env (Scenario.now Inputs.firstDeleteFails) 30)
    Inputs.archiveOfAugust = true
  /\ deleteFailures (traceOf run) = ["mongodb-backup-20260901.gz"]
  /\ ~ In "mongodb-backup-20260801.gz" (deleteAttempts (traceOf run)).
Proof.
  cbv zeta. split; [vm_compute; reflexivity | split; [vm_compute; reflexivity |]].
  vm_compute. intros [H | []]. discriminate H.
Qed.

Lemma C3_cleanup_stops_at_first_failed_deletion_witness :
  exists w' t,
    Retention.deleteOldBackups (Scenario.env Inputs.firstDeleteFails)
      (Scenario.config (Some "30")) [] = (w', t, Returned tt)
    /\ ((deleteAttempts t = ["mongodb-backup-20260901.gz"; "mongodb-backup-20260801.gz"]
         /\ deleteFailures t = [])
        \/ exists done k rest e,
             ["mongodb-backup-20260901.gz"; "mongodb-backup-20260801.gz"]
             = (done ++ k :: rest)%list
             /\ deleteAttempts t = (done ++ [k])%list
             /\ deleteFailures t = [k]
             /\ In (Console LError [Str "Failed to cleanup old backups:"; Err e]) t).
Proof.
  apply (C3_cleanup_stops_at_first_failed_deletion
           (Scenario.env Inputs.firstDeleteFails) (Scenario.config (Some "30"))
           "30" 30 [] [] (Scenario.now Inputs.firstDeleteFails) 1790899200000
           [S3ListObjectsV2 "bucket" "mongodb-backup-"]
           [Inputs.archiveOfSeptember; Inputs.archiveOfAugust]).
  - reflexivity.
  - vm_compute. reflexivity.
  - lia.
  - reflexivity.
  - vm_compute. reflexivity.
  - reflexivity.
Defined.

(** With archives one, ten and forty days old and a horizon of thirty
    days, the cleanup deletes the one that is forty days old and no
    other. *)
Example retention_of_thirty_days :
  let run := Retention.deleteOldBackups (Scenario.env Inputs.threeArchives)
               (Scenario.config (Some "30")) [] in
  deleteAttempts (traceOf run) = ["mongodb-backup-20260922.gz"]
  /\ deleteFailures (traceOf run) = []
  /\ outcomeOf run = Returned tt.
Proof. vm_compute. repeat split. Qed.

Lemma C6_cleanup_deletes_what_is_older_than_cutoff_witness :
  let env := Scenario.env Inputs.threeArchives in
  (exists line,
      Retention.deleteOldBackups env (Scenario.config (Some "0")) []
      = ([], [Console LLog line], Returned tt))
  /\ Retention.cutoffDate env (Scenario.now Inputs.threeArchives) 30
     = JS.TimeClip (Scenario.now Inputs.threeArchives - 30 * JS.msPerDay)
  /\ (let t := traceOf (Retention.deleteOldBackups env (Scenario.config (Some "30")) []) in
      let expired k :=
        exists ob modified cutoff,
          In ob [Scenario.stored "mongodb-backup-20261022.gz" 10;
                 Scenario.stored "mongodb-backup-20261031.gz" 1;
                 Scenario.stored "mongodb-backup-20260922.gz" 40]
          /\ Key ob = Some k /\ k <> EmptyString
          /\ LastModified ob = Some modified
          /\ Retention.cutoffDate env (Scenario.now Inputs.threeArchives) 30 = Some cutoff
          /\ modified < cutoff in
      (forall k, In k (deleteAttempts t) -> expired k)
      /\ (deleteFailures t = [] -> forall k, expired k -> In k (deleteAttempts t))).
Proof.
  intros env. split; [| split].
  - apply (proj1 (C6_cleanup_deletes_what_is_older_than_cutoff env
                    (Scenario.config (Some "0")))).
    right. exists "0"%string. split; [reflexivity |]. right. right.
    exists 0. split; [vm_compute; reflexivity | lia].
  - apply (proj1 (proj2 (C6_cleanup_deletes_what_is_older_than_cutoff env
                           (Scenario.config (Some "30"))))
             (Scenario.now Inputs.threeArchives) 30 0); reflexivity.
  - apply (proj2 (proj2 (C6_cleanup_deletes_what_is_older_than_cutoff env
                           (Scenario.config (Some "30"))))
             "30"%string 30 [] [] (Scenario.now Inputs.threeArchives)
             [S3ListObjectsV2 "bucket" "mongodb-backup-"]
             [Scenario.stored "mongodb-backup-20261022.gz" 10;
              Scenario.stored "mongodb-backup-20261031.gz" 1;
              Scenario.stored "mongodb-backup-20260922.gz" 40]
             (fst (fst (Retention.deleteOldBackups env (Scenario.config (Some "30")) [])))
             (traceOf (Retention.deleteOldBackups env (Scenario.config (Some "30")) []))
             (outcomeOf (Retention.deleteOldBackups env (Scenario.config (Some "30")) []))).
    + reflexivity.
    + vm_compute. reflexivity.
    + lia.
    + reflexivity.
    + reflexivity.
    + vm_compute. reflexivity.
Defined.

(** ** Cleanup inside the backup run *)

Section CleanupOutcome.

Context {W : Type}.
Variable env : Env W.
Variable cfg : Config.

(** The [try] block returns or throws; it never leaves the process. *)
Lemma listAndDelete_settles cutoff w w' t o :
  Retention.listAndDelete env cfg cutoff w = (w', t, o) ->
  o = Returned tt \/ exists e, o = Thrown e.
Proof.
  intros H.
  destruct (s3_listObjectsV2 env (S3_BUCKET cfg) (Retention.backupPrefix cfg) w)
    as [w1 [e | [contents |]]] eqn:Hlist.
  - unfold Retention.listAndDelete, bind, request in H. rewrite Hlist in H.
    inversion H. right. exists e. reflexivity.
  - destruct (listAndDelete_listed env cfg cutoff w w1 contents Hlist)
      as (w2 & t2 & o2 & Hrun & Hcase).
    rewrite Hrun in H. inversion H; subst.
    destruct Hcase as [(-> & _) | (e & done & k & rest & -> & _)]; [left | right; exists e];
      reflexivity.
  - unfold Retention.listAndDelete, bind, request, console in H. rewrite Hlist in H.
    inversion H. left. reflexivity.
Qed.

(** Every failure of the listing or of a deletion is caught: the cleanup
    returns, unless the horizon is so large that the cutoff is not a valid
    date, in which case the line logged before the [try] block throws a
    [RangeError] before any request. *)
Lemma deleteOldBackups_outcome w w' t o :
  Retention.deleteOldBackups env cfg w = (w', t, o) ->
  o = Returned tt
  \/ (o = Thrown (newError "RangeError" "Invalid time value") /\ t = []
      /\ exists days n,
           RETENTION_DAYS cfg = Some days /\ JS.parseInt10 days = JS.Int n /\ 0 < n
           /\ Retention.cutoffDate env (snd (clock_now env w)) n = None).
Proof.
  intros H.
  destruct (RETENTION_DAYS cfg) as [days |] eqn:Hdays;
    [| unfold Retention.deleteOldBackups in H; rewrite Hdays in H; inversion H; left; reflexivity].
  destruct (JS.parseInt10 days) as [| n] eqn:Hparse.
  - unfold Retention.deleteOldBackups in H. rewrite Hdays, Hparse in H.
    destruct (negb (JS.truthy days)); inversion H; left; reflexivity.
  - destruct (Z_lt_le_dec 0 n) as [Hpos | Hle].
    + destruct (clock_now env w) as [w0 now] eqn:Hclock.
      rewrite (cleanup_enabled env cfg days n w w0 now Hdays Hparse Hpos Hclock) in H.
      destruct (Retention.cutoffDate env now n) as [c |] eqn:Hcut.
      * destruct (Retention.listAndDelete env cfg (Some c) w0) as [[w1 t1] o1] eqn:Hrun.
        destruct (listAndDelete_settles _ _ _ _ _ Hrun) as [-> | [e ->]];
          inversion H; left; reflexivity.
      * inversion H; subst. right. repeat split. exists days, n. auto.
    + unfold Retention.deleteOldBackups in H. rewrite Hdays, Hparse in H.
      apply Z.leb_le in Hle. rewrite Hle in H.
      destruct (negb (JS.truthy days)); inversion H; left; reflexivity.
Qed.

End CleanupOutcome.

(** C10: the cleanup should never make the backup run fail.  With
    [RETENTION_DAYS=200000000] the cutoff date is out of the range of
    dates, the log line that formats it (before the [try] block of the
    cleanup) throws a [RangeError], and the backup run, whose dump and
    upload succeeded, logs "Backup failed:" and throws that error. *)
Theorem C10_cleanup_error_fails_the_backup_run :
  let env := Scenario.env Scenario.quiet in
  let cfg := Scenario.config (Some "200000000") in
  let rangeError := newError "RangeError" "Invalid time value" in
  Retention.cutoffDate env (Scenario.now Scenario.quiet) 200000000 = None
  /\ Retention.deleteOldBackups env cfg [] = ([], [], Thrown rangeError)
  /\ traceOf (IndexTs.createMongoDBBackup env cfg [])
     = [Console LLog [Str "Starting MongoDB backup: "; Str "mongodb-backup-20261101.gz"];
        Call (Mongodump "mongodb://db.example/" "/tmp/mongodb-backup-20261101.gz") None;
        Console LLog [Str "MongoDB dump completed, uploading to S3..."];
        Call (S3PutObject "bucket" "mongodb-backup-20261101.gz"
                "/tmp/mongodb-backup-20261101.gz") None;
        Console LLog [Str "Backup uploaded successfully to S3: ";
                      Str "mongodb-backup-20261101.gz"];
        Call (FsUnlink "/tmp/mongodb-backup-20261101.gz") None;
        Console LLog [Str "Temporary file cleaned up"];
        Console LError [Str "Backup failed:"; Err rangeError];
        Call (FsUnlink "/tmp/mongodb-backup-20261101.gz")
          (Some (Scenario.noSuchFile "/tmp/mongodb-backup-20261101.gz"));
        Console LError [Str "Failed to cleanup temporary file:";
                        Err (Scenario.noSuchFile "/tmp/mongodb-backup-20261101.gz")]]
  /\ outcomeOf (IndexTs.createMongoDBBackup env cfg []) = Thrown rangeError.
Proof. vm_compute. repeat split. Qed.

(** ** The listing and the choice of the latest archive *)

Section Listing.

Import RestoreTs.

Lemma insertDesc_perm (x : Backup) (l : list Backup) :
  Permutation (x :: l) (insertDesc x l).
Proof.
  induction l as [| y rest IH]; simpl; [apply Permutation_refl |].
  destruct (lastModified y <=? lastModified x); [apply Permutation_refl |].
  eapply Permutation_trans; [apply perm_swap | apply perm_skip; exact IH].
Qed.

Lemma sortDesc_perm (l : list Backup) : Permutation l (sortDesc l).
Proof.
  induction l as [| x rest IH]; simpl; [apply perm_nil |].
  eapply Permutation_trans; [apply perm_skip; exact IH | apply insertDesc_perm].
Qed.

Lemma insertDesc_sorted (x : Backup) (l : list Backup) :
  StronglySorted newerFirst l -> StronglySorted newerFirst (insertDesc x l).
Proof.
  induction 1 as [| y rest Hs IH Hall]; simpl.
  - constructor; constructor.
  - destruct (lastModified y <=? lastModified x) eqn:Hle.
    + apply Z.leb_le in Hle. constructor; [constructor; assumption |].
      constructor; [exact Hle |].
      eapply Forall_impl; [| exact Hall]. intros b Hb. unfold newerFirst in *. lia.
    + apply Z.leb_gt in Hle. constructor; [exact IH |].
      eapply Permutation_Forall; [apply insertDesc_perm |].
      constructor; [unfold newerFirst; lia | exact Hall].
Qed.

Lemma sortDesc_sorted (l : list Backup) : StronglySorted newerFirst (sortDesc l).
Proof.
  induction l as [| x rest IH]; simpl; [constructor | apply insertDesc_sorted; exact IH].
Qed.


Lemma getObjectKeys_app (t1 t2 : list Event) :
  getObjectKeys (t1 ++ t2) = (getObjectKeys t1 ++ getObjectKeys t2)%list.
Proof.
  induction t1 as [| ev rest IH]; simpl; [reflexivity |].
  destruct ev as [lvl line | r f]; [exact IH |].
  destruct r; simpl; rewrite ?IH; reflexivity.
Qed.

Lemma getObjectKeys_none (t : list Event) :
  Forall (fun ev => isGetObject ev = false) t -> getObjectKeys t = [].
Proof.
  induction 1 as [| ev rest Hev _ IH]; simpl; [reflexivity |].
  destruct ev as [lvl line | r f]; [exact IH |].
  destruct r; simpl in *; try exact IH. discriminate Hev.
Qed.

End Listing.

Section RestoreLatest.

Import RestoreTs.

Context {W : Type}.
Variable env : Env W.
Variable cfg : Config.

Lemma listBackups_run w w1 response :
  s3_listObjectsV2 env (S3_BUCKET cfg) (Retention.backupPrefix cfg) w = (w1, inr response) ->
  listBackups env cfg w
  = (w1, [Call (S3ListObjectsV2 (S3_BUCKET cfg) (Retention.backupPrefix cfg)) None],
     Returned (sortDesc (listedBackups response))).
Proof.
  intros Hlist. unfold listBackups, bind, request. rewrite Hlist.
  destruct response as [[| ob rest] |]; reflexivity.
Qed.

(** Everything [restore] does after the download fetches no object. *)
Lemma after_download_no_fetch drop path :
  always (fun ev => isGetObject ev = false)
    (try_finally
       (backup <- decompressBackup env path ;;
        console LLog [Str "Backup timestamp: "; Str (timestamp backup)] ;;
        console LLog [Str "Databases in backup: ";
                      Str (joinNames (map fst (databases backup)))] ;;
        restoreToMongoDB env cfg backup drop)
       (try_catch
          (request (FsUnlink path) (fs_unlink env path) ;;
           console LLog [Str "Temporary file cleaned up"])
          (fun error => console LError [Str "Failed to cleanup temporary file:"; Err error]))).
Proof.
  apply always_try_finally; [| always_auto].
  unfold decompressBackup, restoreToMongoDB.
  repeat (apply always_bind; [always_auto | intros ?]).
  apply always_try_finally; [| always_auto].
  unfold specificDatabaseOf, restoreDatabase, restoreCollection, restoreDocuments, restoreIndex.
  always_auto.
Qed.

(** The download asks the store for the key it is given, once. *)
Lemma download_fetches_key {A : Type} (s3Key : string) (k : string -> Js W A) w :
  (forall path, always (fun ev => isGetObject ev = false) (k path)) ->
  getObjectKeys (traceOf (bind (downloadBackup env cfg s3Key) k w)) = [s3Key].
Proof.
  intros Hk. unfold downloadBackup, bind at 1, bind at 1. rewrite console_run.
  unfold bind at 1, request at 1.
  destruct (s3_getObject env (S3_BUCKET cfg) s3Key w) as [w1 [e | hasBody]]; [reflexivity |].
  destruct hasBody; [| reflexivity]. cbn [negb].
  unfold bind at 1, stream at 1.
  destruct (fs_pipeToFile env _ w1) as [w2 [[e | e] | u]]; [reflexivity | reflexivity |].
  unfold bind at 1. rewrite console_run. unfold ret.
  match goal with
  | |- context [k ?p w2] => destruct (k p w2) as [[w3 t3] o3] eqn:Hrun
  end.
  unfold traceOf. cbn [fst snd].
  apply Hk in Hrun. apply getObjectKeys_none in Hrun.
  rewrite !getObjectKeys_app, Hrun. reflexivity.
Qed.


End RestoreLatest.

(** ** The scope of the backup and of the restore *)

Section Scope.

Import RestoreTs BackupTs.

Context {W : Type}.
Variable env : Env W.
Variable cfg : Config.


Lemma always_newDate P : always P (newDate env).
Proof.
  intros w w' t o H. unfold newDate in H. destruct (clock_now env w) as [w1 now].
  inversion H. constructor.
Qed.







End Scope.

Section ScopeClaim.

Import RestoreTs BackupTs.

Context {W : Type}.
Variable env : Env W.
Variable cfg : Config.



















End ScopeClaim.

(** ** The claims on concrete runs *)

Section ConcreteRuns.

Import Scenario Inputs RestoreTs BackupTs.

(** C2: the restore of a collection decides on the code of the error of
    the whole bulk, not on the failures of its documents.  The bulk is
    sent unordered; when it fails with an error of code 11000 the step
    returns and reports every document that was not inserted as a
    duplicate skipped, also when the error lists a failure of a document
    that is not a duplicate key conflict.  So it is on the restore of two
    documents of which the first is already in the target and the second
    fails the validation of the collection: the validation failure does
    not propagate, the restore goes on to the indexes, reports its
    success and returns. *)
Theorem C2_duplicate_code_hides_other_failures :
  (forall (W : Type) (env : Env W) db coll cd docs w w1 e,
      documents cd = Some docs -> docs <> [] ->
      mongo_insertMany env db coll docs w = (w1, inl e) ->
      err_code e = Some 11000 ->
      hasOtherFailure e = true ->
      restoreDocuments env db coll cd w
      = (w1,
         [Call (MongoInsertManyWith false db coll docs) (Some e);
          Console LLog [Str "    Inserted "; Num (insertedCountOf e); Str " documents (";
                        Num (Z.of_nat (List.length docs) - insertedCountOf e);
                        Str " duplicates skipped)"]],
         Returned tt))
  /\ (let env := Scenario.env (withInsertFailure quiet mixedFailure) in
      let run := restoreToMongoDB env (Scenario.config None) usersSnapshot false [] in
      hasOtherFailure mixedFailure = true
      /\ traceOf run
         = [Call (MongoConnect "mongodb://db.example/") None;
            Console LLog [Str "Connected to MongoDB"];
            Console LLog [Str "Restoring database: "; Str "app"];
            Console LLog [Str "  Restoring collection: "; Str "users"];
            Call (MongoInsertManyWith false "app" "users" twoDocs) (Some mixedFailure);
            Console LLog [Str "    Inserted "; Num 0; Str " documents ("; Num 2;
                          Str " duplicates skipped)"];
            Call (MongoCreateIndex "app" "users"
                    (Some (VObject [("email", VNumber 1%float)]))
                    [("name", VString "email_1"); ("unique", VBool true)]) None;
            Console LLog [Str "    Created index: "; Val (Some (VString "email_1"))];
            Console LLog [Str "Restoring database: "; Str "audit"];
            Console LLog [Str "  Restoring collection: "; Str "log"];
            Console LLog [Str "Restore completed successfully"];
            Call MongoClose None;
            Console LLog [Str "MongoDB connection closed"]]
      /\ outcomeOf run = Returned tt).
Proof.
  split.
  - intros W env db coll cd docs w w1 e Hdocs Hne Hinsert Hcode _.
    unfold restoreDocuments. rewrite Hdocs.
    destruct docs as [| d rest]; [contradiction |].
    unfold try_catch, bind, request, console, isDuplicateKeyError.
    rewrite Hinsert, Hcode. reflexivity.
  - cbv zeta. split; [reflexivity | split; reflexivity].
Qed.

(** The document step on the collection [users] when the bulk fails on
    both of its documents, the first a duplicate, the second invalid. *)
Lemma C2_duplicate_code_hides_other_failures_witness :
  restoreDocuments (Scenario.env (withInsertFailure quiet mixedFailure))
    "app" "users" usersCollection []
  = ([MongoInsertMany "app" "users" twoDocs],
     [Call (MongoInsertMany "app" "users" twoDocs) (Some mixedFailure);
      Console LLog [Str "    Inserted "; Num 0; Str " documents ("; Num 2;
                    Str " duplicates skipped)"]],
     Returned tt).
Proof.
  apply (proj1 C2_duplicate_code_hides_other_failures World
           (Scenario.env (withInsertFailure quiet mixedFailure))
           "app"%string "users"%string usersCollection twoDocs []
           [MongoInsertMany "app" "users" twoDocs] mixedFailure).
  - reflexivity.
  - discriminate.
  - reflexivity.
  - reflexivity.
  - reflexivity.
Defined.


(** On an empty store the restore stops before any download or database
    request. *)
Example restore_from_empty_store :
  restore (Scenario.env quiet) (Scenario.config None) None true []
  = ([S3ListObjectsV2 "bucket" "mongodb-backup-"],
     [Console LLog [Str "Finding latest backup..."];
      Call (S3ListObjectsV2 "bucket" "mongodb-backup-") None;
      Console LError [Str "No backups found in S3"]],
     Exited 1).
Proof. vm_compute. reflexivity. Qed.


(** A connection whose URI names no database: of the four databases the
    server lists, the backup captures [app] and [audit]. *)
Example backup_of_all_databases :
  match outcomeOf (produce (Scenario.env unscoped) (Scenario.config None) []) with
  | Returned b => map fst (databases b) = ["app"%string; "audit"%string]
  | _ => False
  end.
Proof. vm_compute. reflexivity. Qed.

(** The index list of [users] holds the primary key index and the index on
    [email]: the restore creates the second one alone. *)
Lemma C7_primary_key_index_not_recreated_witness :
  let env := Scenario.env quiet in
  let run := restoreCollection env false "app" ("users"%string, usersCollection) [] in
  always notIdIndexCreation (restoreToMongoDB env (Scenario.config None) usersSnapshot false)
  /\ createIndexCalls (traceOf run) = expectedIndexCalls [idIndex; emailIndex]
  /\ Forall (fun call => isIdIndex (snd call) = false) (createIndexCalls (traceOf run)).
Proof.
  intros env run. split.
  - apply (proj1 (C7_primary_key_index_not_recreated env (Scenario.config None))).
  - apply (proj2 (C7_primary_key_index_not_recreated env (Scenario.config None))
             false "app"%string "users"%string usersCollection [] (fst (fst run))).
    vm_compute. reflexivity.
Defined.

(** The index on [email] exists under another name: the loop logs it and
    goes on, and the restore of the collection returns. *)
Lemma C8_index_failures_are_not_fatal_witness :
  let env := Scenario.env (withCreateIndexFailure quiet indexOptionsConflict) in
  let run := restoreCollection env false "app" ("users"%string, usersCollection) [] in
  restoreIndex env "app" "users" emailIndex []
  = ([MongoCreateIndex "app" "users" (Some (VObject [("email", VNumber 1%float)]))
        [("name", VString "email_1"); ("unique", VBool true)]],
     [Call (MongoCreateIndex "app" "users" (Some (VObject [("email", VNumber 1%float)]))
              [("name", VString "email_1"); ("unique", VBool true)])
        (Some indexOptionsConflict);
      Console LLog [Str "    Index already exists: "; Val (Some (VString "email_1"))]],
     Returned tt)
  /\ (outcomeOf run = Returned tt
      \/ exists t0 docs e,
           traceOf run = (t0 ++ [Call (MongoInsertMany "app" "users" docs) (Some e)])%list
           /\ isDuplicateKeyError e = false /\ outcomeOf run = Thrown e).
Proof.
  intros env run. split.
  - apply (proj1 (C8_index_failures_are_not_fatal env)
             "app"%string "users"%string emailIndex []).
    reflexivity.
  - apply (proj2 (proj2 (C8_index_failures_are_not_fatal env))
             false "app"%string "users"%string usersCollection []
             (fst (fst run)) (traceOf run) (outcomeOf run)).
    vm_compute. reflexivity.
Defined.

(** The collection [log] has no document: no bulk insert. *)
Lemma C9_empty_collection_issues_no_insert_witness :
  let env := Scenario.env (withInsertFailure quiet validationFailed) in
  (forall w, restoreDocuments env "audit" "log" logCollection w = (w, [], Returned tt))
  /\ always (fun ev => isInsertMany ev = false)
       (restoreCollection env true "audit" ("log"%string, logCollection)).
Proof.
  intros env.
  apply (C9_empty_collection_issues_no_insert env true "audit"%string "log"%string logCollection).
  right. reflexivity.
Defined.

End ConcreteRuns.

(** * Further properties of the programs *)

Import Observe.

(** ** How computations end *)

Section Ends.

Context {W : Type}.
Variables stuckOk exitOk uncaughtOk : bool.

Lemma ends_ret {A : Type} (a : A) : ends (W:=W) stuckOk exitOk uncaughtOk (ret a).
Proof. intros w w' t o H. inversion H. exact I. Qed.

Lemma ends_throw {A : Type} e : ends stuckOk exitOk uncaughtOk (@throw W A e).
Proof. intros w w' t o H. inversion H. exact I. Qed.

Lemma ends_console lvl line : ends stuckOk exitOk uncaughtOk (@console W lvl line).
Proof. intros w w' t o H. inversion H. exact I. Qed.

Lemma ends_request {A : Type} r (f : W -> W * (JsError + A)) :
  ends stuckOk exitOk uncaughtOk (request r f).
Proof.
  intros w w' t o H.
  destruct (request_inv _ _ _ _ _ _ H) as [(e & _ & _ & ->) | (a & _ & _ & ->)]; exact I.
Qed.

Lemma ends_newDate (env : Env W) : ends stuckOk exitOk uncaughtOk (newDate env).
Proof.
  intros w w' t o H. unfold newDate in H. destruct (clock_now env w). inversion H. exact I.
Qed.

Lemma ends_newMongoClient (env : Env W) uri :
  ends stuckOk exitOk uncaughtOk (newMongoClient env uri).
Proof.
  intros w w' t o H. unfold newMongoClient in H.
  destruct (MongoClient_new env uri); inversion H; exact I.
Qed.

Lemma ends_toISOString d : ends stuckOk exitOk uncaughtOk (@toISOString W d).
Proof. destruct d; [apply ends_ret | apply ends_throw]. Qed.

Lemma ends_bind {A B : Type} (m : Js W A) (k : A -> Js W B) :
  ends stuckOk exitOk uncaughtOk m -> (forall a, ends stuckOk exitOk uncaughtOk (k a)) ->
  ends stuckOk exitOk uncaughtOk (bind m k).
Proof.
  intros Hm Hk w w' t o H.
  destruct (bind_inv _ _ _ _ _ _ H) as [(a & w1 & t1 & t2 & _ & H2 & _) | (o1 & H1 & Ho)].
  - exact (Hk a _ _ _ _ H2).
  - pose proof (Hm _ _ _ _ H1) as Hend.
    destruct o1; simpl in Ho; try discriminate Ho; injection Ho as <-; exact Hend.
Qed.

Lemma ends_try_catch {A : Type} (m : Js W A) (h : JsError -> Js W A) :
  ends stuckOk exitOk uncaughtOk m -> (forall e, ends stuckOk exitOk uncaughtOk (h e)) ->
  ends stuckOk exitOk uncaughtOk (try_catch m h).
Proof.
  intros Hm Hh w w' t o H.
  destruct (try_catch_inv _ _ _ _ _ _ H) as [(e & w1 & t1 & t2 & _ & H2 & _) | (H1 & _)].
  - exact (Hh e _ _ _ _ H2).
  - exact (Hm _ _ _ _ H1).
Qed.

Lemma ends_try_finally {A : Type} (m : Js W A) (f : Js W unit) :
  ends stuckOk exitOk uncaughtOk m -> ends stuckOk exitOk uncaughtOk f ->
  ends stuckOk exitOk uncaughtOk (try_finally m f).
Proof.
  intros Hm Hf w w' t o H.
  destruct (try_finally_inv _ _ _ _ _ _ H)
    as [(w1 & t1 & o1 & t2 & o2 & H1 & H2 & _ & _ & Ho) | (H1 & _)].
  - destruct Ho as [(u & _ & ->) | Ho]; [exact (Hm _ _ _ _ H1) |].
    pose proof (Hf _ _ _ _ H2) as Hend.
    destruct o2; simpl in Ho; try discriminate Ho; injection Ho as <-; exact Hend.
  - exact (Hm _ _ _ _ H1).
Qed.

Lemma ends_forEach {A : Type} (l : list A) (body : A -> Js W unit) :
  (forall x, ends stuckOk exitOk uncaughtOk (body x)) -> ends stuckOk exitOk uncaughtOk (forEach l body).
Proof.
  intros Hb. induction l as [| x rest IH]; simpl.
  - apply ends_ret.
  - apply ends_bind; [apply Hb | intros _; exact IH].
Qed.

End Ends.

Lemma ends_stuck {W A : Type} exitOk uncaughtOk : ends true exitOk uncaughtOk (@stuck W A).
Proof. intros w w' t o H. inversion H. reflexivity. Qed.

Lemma ends_exit {W A : Type} stuckOk uncaughtOk c :
  ends stuckOk true uncaughtOk (@process_exit W A c).
Proof. intros w w' t o H. inversion H. reflexivity. Qed.

Lemma ends_stream {W A : Type} stuckOk exitOk r (f : W -> W * (Failure + A)) :
  ends stuckOk exitOk true (stream r f).
Proof.
  intros w w' t o H.
  destruct (stream_inv _ _ _ _ _ _ H)
    as [(e & _ & _ & ->) | [(e & _ & _ & ->) | (a & _ & _ & ->)]]; reflexivity || exact I.
Qed.

(** A computation that neither leaves the process nor stops returns or
    throws. *)
Lemma ends_settled {W A : Type} (m : Js W A) w w' t o :
  ends false false false m -> m w = (w', t, o) ->
  (exists a, o = Returned a) \/ (exists e, o = Thrown e).
Proof.
  intros Hm H. pose proof (Hm _ _ _ _ H) as Hend.
  destruct o; eauto; discriminate Hend.
Qed.

Ltac ends_step :=
  match goal with
  | |- ends _ _ _ (bind _ _) => apply ends_bind; [| intros ?]
  | |- ends _ _ _ (try_catch _ _) => apply ends_try_catch; [| intros ?]
  | |- ends _ _ _ (try_finally _ _) => apply ends_try_finally
  | |- ends _ _ _ (forEach _ _) => apply ends_forEach; intros ?
  | |- ends _ _ _ (console _ _) => apply ends_console
  | |- ends _ _ _ (request _ _) => apply ends_request
  | |- ends _ _ true (stream _ _) => apply ends_stream
  | |- ends _ _ _ (newMongoClient _ _) => apply ends_newMongoClient
  | |- ends _ _ _ (newDate _) => apply ends_newDate
  | |- ends _ _ _ (toISOString _) => apply ends_toISOString
  | |- ends _ _ _ (ret _) => apply ends_ret
  | |- ends _ _ _ (throw _) => apply ends_throw
  | |- ends _ true _ (process_exit _) => apply ends_exit
  | |- ends true _ _ stuck => apply ends_stuck
  | |- ends _ _ _ (if ?b then _ else _) => destruct b
  | |- ends _ _ _ (match ?x with _ => _ end) => destruct x
  end.

Section EndsOfThePrograms.

Context {W : Type}.
Variable env : Env W.
Variable cfg : Config.

Lemma restoreToMongoDB_ends stuckOk exitOk uncaughtOk backup drop :
  ends stuckOk exitOk uncaughtOk (RestoreTs.restoreToMongoDB env cfg backup drop).
Proof.
  unfold RestoreTs.restoreToMongoDB, RestoreTs.specificDatabaseOf, RestoreTs.restoreDatabase,
    RestoreTs.restoreCollection, RestoreTs.restoreDocuments, RestoreTs.restoreIndex.
  repeat ends_step.
Qed.

Lemma deleteOldBackups_ends stuckOk exitOk uncaughtOk :
  ends stuckOk exitOk uncaughtOk (Retention.deleteOldBackups env cfg).
Proof.
  unfold Retention.deleteOldBackups, Retention.listAndDelete, Retention.deleteOne.
  repeat ends_step.
Qed.

Lemma backupFailed_ends {A : Type} stuckOk exitOk uncaughtOk path e :
  ends stuckOk exitOk uncaughtOk (@IndexTs.backupFailed W env A path e).
Proof. unfold IndexTs.backupFailed. repeat ends_step. Qed.



End EndsOfThePrograms.

(** ** The listing of the archives *)

Section ListingOfArchives.

Import RestoreTs.

Context {W : Type}.
Variable env : Env W.
Variable cfg : Config.

Lemma in_descriptors (b : Backup) (contents : list S3Object) :
  In b (descriptors contents)
  <-> exists o,
        In o contents /\ Key o = Some (key b) /\ key b <> EmptyString
        /\ LastModified o = Some (lastModified b).
Proof.
  induction contents as [| o rest IH]; simpl.
  - split; [intros [] | intros (o & [] & _)].
  - unfold descriptor at 1.
    destruct (Key o) as [k |] eqn:Hk; destruct (LastModified o) as [m |] eqn:Hm;
      try destruct (JS.truthy k) eqn:Htr; simpl; rewrite IH; split.
    all: try (intros (o' & Hin & Hrest); exists o'; split; [right; exact Hin | exact Hrest]).
    all: try (intros (o' & [<- | Hin] & Hk' & Hne & Hm');
              [rewrite Hk in Hk'; rewrite Hm in Hm'; try discriminate;
               inversion Hk'; subst; apply truthy_iff in Hne; congruence
              | exists o'; auto]).
    + intros [<- | (o' & Hin & Hrest)].
      * exists o. simpl. repeat split; auto. apply truthy_iff. exact Htr.
      * exists o'. split; [right; exact Hin | exact Hrest].
    + intros (o' & [<- | Hin] & Hk' & Hne & Hm').
      * left. rewrite Hk in Hk'. rewrite Hm in Hm'. inversion Hk'. inversion Hm'.
        destruct b; simpl in *; subst; reflexivity.
      * right. exists o'. auto.
Qed.

(** X1: [listBackups] asks the store once, under the backup prefix.  When
    the request fails it throws the error of the store.  Otherwise it
    returns the objects of the answer that have a key and a last-modified
    time, each once, ordered from the most recently modified to the
    oldest. *)
Theorem listBackups_dated_keys_newest_first w :
  let listing := S3ListObjectsV2 (S3_BUCKET cfg) (Retention.backupPrefix cfg) in
  match s3_listObjectsV2 env (S3_BUCKET cfg) (Retention.backupPrefix cfg) w with
  | (w1, inl e) => listBackups env cfg w = (w1, [Call listing (Some e)], Thrown e)
  | (w1, inr response) =>
      exists l,
        listBackups env cfg w = (w1, [Call listing None], Returned l)
        /\ StronglySorted newerFirst l
        /\ Permutation (listedBackups response) l
        /\ forall b,
             In b l
             <-> exists o,
                   In o (match response with Some contents => contents | None => [] end)
                   /\ Key o = Some (key b) /\ key b <> EmptyString
                   /\ LastModified o = Some (lastModified b)
  end.
Proof.
  cbv zeta.
  destruct (s3_listObjectsV2 env (S3_BUCKET cfg) (Retention.backupPrefix cfg) w)
    as [w1 [e | response]] eqn:Hlist.
  - unfold listBackups, bind, request. rewrite Hlist. reflexivity.
  - exists (sortDesc (listedBackups response)).
    split; [apply listBackups_run; exact Hlist |].
    split; [apply sortDesc_sorted |].
    split; [apply sortDesc_perm |].
    intros b. split.
    + intros Hin.
      apply (Permutation_in _ (Permutation_sym (sortDesc_perm _))) in Hin.
      destruct response as [contents |]; [apply in_descriptors; exact Hin | destruct Hin].
    + intros Hex. apply (Permutation_in _ (sortDesc_perm _)).
      destruct response as [contents |]; [apply in_descriptors; exact Hex |].
      destruct Hex as (o & [] & _).
Qed.

End ListingOfArchives.

(** ** The options of a recreated index *)

Section IndexOptions.

Context {W : Type}.
Variable env : Env W.

Lemma lookup_remove_same {A : Type} (k : string) (o : list (string * A)) :
  lookup k (remove k o) = None.
Proof.
  induction o as [| [k0 v] rest IH]; simpl; [reflexivity |].
  destruct (String.eqb k k0) eqn:E; simpl; [exact IH |]. rewrite E. exact IH.
Qed.

(** X2: what [createIndex] receives for a captured index.  Every request
    the body of the index loop sends carries the [key] of the captured
    index as key specification, and options in which [v], [ns] and [key]
    are absent and every other property of the captured index (its name,
    uniqueness, sparseness, expiry, ...) has the value it was captured
    with. *)
Theorem createIndex_keeps_the_other_options db coll index w w' t o :
  RestoreTs.restoreIndex env db coll index w = (w', t, o) ->
  forall db' coll' key options f,
    In (Call (MongoCreateIndex db' coll' key options) f) t ->
    db' = db /\ coll' = coll
    /\ key = lookup "key" index
    /\ lookup "v" options = None
    /\ lookup "ns" options = None
    /\ lookup "key" options = None
    /\ forall k, k <> "v"%string -> k <> "ns"%string -> k <> "key"%string ->
                 lookup k options = lookup k index.
Proof.
  intros Hrun db' coll' key options f Hin.
  rewrite restoreIndex_cases in Hrun.
  destruct (RestoreTs.isIdIndex index); [inversion Hrun; subst; destruct Hin |].
  cbv zeta in Hrun.
  assert (Hcall : key = fst (createIndexArgs index) /\ options = snd (createIndexArgs index)
                  /\ db' = db /\ coll' = coll).
  { destruct (mongo_createIndex env db coll _ _ w) as [w1 [e | u]];
      inversion Hrun; subst; destruct Hin as [Heq | [Heq | []]];
      try (inversion Heq; subst; auto).
    destruct (RestoreTs.isIndexExistsError e); discriminate Heq. }
  destruct Hcall as (-> & -> & -> & ->).
  unfold createIndexArgs, RestoreTs.indexSpecOf. cbn [fst snd].
  repeat split.
  - rewrite !lookup_remove_other by discriminate. reflexivity.
  - rewrite lookup_remove_other by discriminate.
    rewrite lookup_remove_other by discriminate. apply lookup_remove_same.
  - rewrite lookup_remove_other by discriminate. apply lookup_remove_same.
  - apply lookup_remove_same.
  - intros k Hv Hns Hkey. rewrite !lookup_remove_other by assumption. reflexivity.
Qed.

End IndexOptions.

(** ** Download, decoding and the temporary file *)

Section Download.

Import RestoreTs.

Context {W : Type}.
Variable env : Env W.
Variable cfg : Config.

Lemma noSlash_app (a b : string) :
  noSlash (a ++ b) = (noSlash a && noSlash b)%bool.
Proof.
  induction a as [| c rest IH]; simpl; [reflexivity |].
  rewrite IH. apply andb_assoc.
Qed.

Lemma lastSegment_acc_noSlash (acc s : string) :
  noSlash acc = true -> noSlash (JS.lastSegment_acc acc s) = true.
Proof.
  revert acc. induction s as [| c rest IH]; intros acc Hacc; simpl; [exact Hacc |].
  destruct (Ascii.eqb c "/"%char) eqn:E.
  - apply IH. reflexivity.
  - apply IH. rewrite noSlash_app, Hacc. simpl. rewrite E. reflexivity.
Qed.

Lemma tempNameOf_plain (s3Key : string) :
  tempNameOf s3Key <> EmptyString /\ noSlash (tempNameOf s3Key) = true.
Proof.
  unfold tempNameOf. destruct (JS.truthy (JS.lastSegment s3Key)) eqn:Htr.
  - split; [apply truthy_iff; exact Htr |].
    apply lastSegment_acc_noSlash. reflexivity.
  - split; [discriminate | reflexivity].
Qed.

(** [downloadBackup], by the answers of the store and of the file
    system. *)
Lemma downloadBackup_cases (s3Key : string) w :
  let path := tmpdir_join env (tempNameOf s3Key) in
  let line := Console LLog [Str "Downloading backup from S3: "; Str s3Key] in
  let get := Call (S3GetObject (S3_BUCKET cfg) s3Key) in
  downloadBackup env cfg s3Key w =
  match s3_getObject env (S3_BUCKET cfg) s3Key w with
  | (w1, inl e) => (w1, [line; get (Some e)], Thrown e)
  | (w1, inr false) =>
      (w1, [line; get None], Thrown (newError "Error" "Empty response body from S3"))
  | (w1, inr true) =>
      match fs_pipeToFile env path w1 with
      | (w2, inl (Rejected e)) =>
          (w2, [line; get None; Call (FsPipeToFile path) (Some e)], Thrown e)
      | (w2, inl (Unlistened e)) =>
          (w2, [line; get None; Call (FsPipeToFile path) (Some e)], Uncaught e)
      | (w2, inr _) =>
          (w2, [line; get None; Call (FsPipeToFile path) None;
                Console LLog [Str "Backup downloaded to: "; Str path]],
           Returned path)
      end
  end.
Proof.
  cbv zeta. unfold downloadBackup, tempNameOf, bind, request, stream, console, throw, ret.
  destruct (s3_getObject env (S3_BUCKET cfg) s3Key w) as [w1 [e | [|]]]; try reflexivity.
  cbn [negb].
  destruct (fs_pipeToFile env _ w1) as [w2 [[e | e] | u]]; reflexivity.
Qed.

(** X3: [downloadBackup] asks the store for the key it is given, once.  It
    pipes into at most one file, and only after the store answered with a
    body: the file is in the temporary directory, under a name that is not
    empty and holds no slash (the part of the key after its last slash, or
    [backup.gz] when that part is empty).  It returns exactly when the
    pipe finished, and then the path of that file.  It throws the error of
    the store, "Empty response body from S3", or the error of the write
    stream.  An error of the body stream, which has no listener, is not
    thrown: it cuts the run short, uncaught. *)
Theorem downloadBackup_writes_one_plain_file s3Key w w' t o :
  downloadBackup env cfg s3Key w = (w', t, o) ->
  let path := tmpdir_join env (tempNameOf s3Key) in
  let withBody w1 := s3_getObject env (S3_BUCKET cfg) s3Key w = (w1, inr true) in
  tempNameOf s3Key <> EmptyString
  /\ noSlash (tempNameOf s3Key) = true
  /\ getObjectKeys t = [s3Key]
  /\ (forall p f, In (Call (FsPipeToFile p) f) t -> p = path /\ exists w1, withBody w1)
  /\ (forall p, o = Returned p <-> p = path /\ In (Call (FsPipeToFile path) None) t)
  /\ (forall e,
        o = Uncaught e
        <-> exists w1, withBody w1 /\ fs_pipeToFile env path w1 = (w', inl (Unlistened e)))
  /\ ((exists p, o = Returned p) \/ (exists e, o = Thrown e) \/ (exists e, o = Uncaught e)).
Proof.
  intros Hrun. cbv zeta. rewrite downloadBackup_cases in Hrun. cbv zeta in Hrun.
  destruct (tempNameOf_plain s3Key) as [Hne Hslash].
  split; [exact Hne | split; [exact Hslash |]].
  destruct (s3_getObject env (S3_BUCKET cfg) s3Key w) as [w1 [e | [|]]] eqn:Hget.
  - inversion Hrun; subst. split; [reflexivity | split; [| split; [| split]]].
    + intros p f [H | [H | []]]; discriminate H.
    + intros p. split; [discriminate |].
      intros [_ [H | [H | []]]]; discriminate H.
    + intros e0. split; [discriminate |]. intros (w2 & H & _). discriminate H.
    + right. left. eauto.
  - destruct (fs_pipeToFile env _ w1) as [w2 [[e | e] | u]] eqn:Hpipe;
      inversion Hrun; subst; (split; [reflexivity | split; [| split; [| split]]]).
    + intros p f [H | [H | [H | []]]]; try discriminate H.
      inversion H; subst. split; [reflexivity | eauto].
    + intros p. split; [discriminate |].
      intros [_ [H | [H | [H | []]]]]; discriminate H.
    + intros e0. split; [discriminate |].
      intros (w3 & H & Hp). inversion H; subst. rewrite Hpipe in Hp. discriminate Hp.
    + right. left. eauto.
    + intros p f [H | [H | [H | []]]]; try discriminate H.
      inversion H; subst. split; [reflexivity | eauto].
    + intros p. split; [discriminate |].
      intros [_ [H | [H | [H | []]]]]; discriminate H.
    + intros e0. split.
      * intros H. inversion H; subst. exists w1. split; [reflexivity | exact Hpipe].
      * intros (w3 & H & Hp). inversion H; subst. rewrite Hpipe in Hp.
        inversion Hp. reflexivity.
    + right. right. eauto.
    + intros p f [H | [H | [H | [H | []]]]]; try discriminate H.
      inversion H; subst. split; [reflexivity | eauto].
    + intros p. split.
      * intros H. inversion H; subst. split; [reflexivity | simpl; auto 10].
      * intros [-> _]. reflexivity.
    + intros e0. split; [discriminate |].
      intros (w3 & H & Hp). inversion H; subst. rewrite Hpipe in Hp. discriminate Hp.
    + left. eauto.
  - inversion Hrun; subst. split; [reflexivity | split; [| split; [| split]]].
    + intros p f [H | [H | []]]; discriminate H.
    + intros p. split; [discriminate |].
      intros [_ [H | [H | []]]]; discriminate H.
    + intros e0. split; [discriminate |]. intros (w2 & H & _). discriminate H.
    + right. left. eauto.
Qed.

End Download.

Section RestoreOfAFile.

Import RestoreTs.

Context {W : Type}.
Variable env : Env W.
Variable cfg : Config.

Lemma restore_blocks file drop :
  restore env cfg file drop =
  (s3Key <- chooseBackup env cfg file ;;
   tempFilePath <- downloadBackup env cfg s3Key ;;
   try_finally (restoreDownloaded env cfg drop tempFilePath) (removeTemp env tempFilePath)).
Proof. reflexivity. Qed.

(** [decompressBackup], by what the file holds. *)
Lemma decompressBackup_cases path w :
  let line := Console LLog [Str "Decompressing backup..."] in
  let read := Call (FsGunzipRead path) in
  decompressBackup env path w =
  match fs_gunzipRead env path w with
  | (w1, inl (Rejected e)) => (w1, [line; read (Some e)], Thrown e)
  | (w1, inl (Unlistened e)) => (w1, [line; read (Some e)], Uncaught e)
  | (w1, inr None) => (w1, [line; read None], Thrown (parseFailure "SyntaxError"))
  | (w1, inr (Some j)) =>
      match Snapshot.decode j with
      | Parsed backup => (w1, [line; read None], Returned backup)
      | ParseThrows => (w1, [line; read None], Thrown (parseFailure "BSONError"))
      | Unmodelled => (w1, [line; read None], Stuck)
      end
  end.
Proof.
  cbv zeta. unfold decompressBackup, bind, stream, console, throw, ret, stuck.
  destruct (fs_gunzipRead env path w) as [w1 [[e | e] | [j |]]]; try reflexivity.
  destruct (Snapshot.decode j); reflexivity.
Qed.

(** The [finally] block returns whether or not the file could be
    removed, after one request to remove it. *)
Lemma removeTemp_inv path w w' t o :
  removeTemp env path w = (w', t, o) ->
  o = Returned tt
  /\ exists f line, t = [Call (FsUnlink path) f; line] /\ isCall line = false.
Proof.
  unfold removeTemp, try_catch, bind, request, console.
  destruct (fs_unlink env path w) as [w1 [e | u]]; intros H; inversion H; subst;
    (split; [reflexivity | eexists; eexists; split; [reflexivity | reflexivity]]).
Qed.

Lemma restoreDownloaded_ends drop path :
  ends true false true (restoreDownloaded env cfg drop path).
Proof.
  unfold restoreDownloaded, decompressBackup.
  repeat (first [apply restoreToMongoDB_ends | ends_step]).
Qed.

Lemma restoreToMongoDB_no_file_change backup drop :
  always (fun ev => isFileChange ev = false) (restoreToMongoDB env cfg backup drop).
Proof.
  unfold restoreToMongoDB.
  apply always_bind; [apply always_newMongoClient | intros _].
  apply always_try_finally; [| always_auto].
  unfold specificDatabaseOf, restoreDatabase, restoreCollection, restoreDocuments, restoreIndex.
  always_auto.
Qed.

Lemma restoreDownloaded_no_file_change drop path :
  always (fun ev => isFileChange ev = false) (restoreDownloaded env cfg drop path).
Proof.
  unfold restoreDownloaded, decompressBackup.
  do 3 (apply always_bind; [always_auto | intros ?]).
  apply restoreToMongoDB_no_file_change.
Qed.

Lemma chooseBackup_quiet file :
  always (fun ev => isFileChange ev = false /\ isDriverRequest ev = false
                    /\ isGetObject ev = false)
    (chooseBackup env cfg file).
Proof.
  unfold chooseBackup, latestBackupKey, listBackups.
  repeat always_step; repeat split.
Qed.

(** What a run of [restore] is made of: the choice of the key, the
    download, and after a download that returned, the body and the
    removal of the temporary file. *)
Lemma restore_inv file drop w w' t o :
  restore env cfg file drop w = (w', t, o) ->
  exists t1 t2 t3,
    t = (t1 ++ t2 ++ t3)%list
    /\ Forall (fun ev => isFileChange ev = false /\ isDriverRequest ev = false
                         /\ isGetObject ev = false) t1
    /\ ((t2 = [] /\ t3 = [] /\ ((exists c, o = Exited c) \/ (exists e, o = Thrown e)))
        \/ exists s3Key w1 w2 o2,
             downloadBackup env cfg s3Key w1 = (w2, t2, o2)
             /\ ((t3 = [] /\ recast o2 = Some o)
                 \/ exists path tb tc w3 ob,
                      o2 = Returned path
                      /\ restoreDownloaded env cfg drop path w2 = (w3, tb, ob)
                      /\ ((t3 = (tb ++ tc)%list
                           /\ (exists f line, tc = [Call (FsUnlink path) f; line]
                                              /\ isCall line = false)
                           /\ o = ob /\ ob <> Stuck /\ forall e, ob <> Uncaught e)
                          \/ (t3 = tb /\ o = ob
                              /\ (ob = Stuck \/ exists e, ob = Uncaught e))))).
Proof.
  rewrite restore_blocks. intros H.
  destruct (bind_inv _ _ _ _ _ _ H) as [(k & w1 & t1 & tr & Hc & H1 & ->) | (o1 & Hc & Ho)].
  - pose proof (chooseBackup_quiet file _ _ _ _ Hc) as Hq.
    destruct (bind_inv _ _ _ _ _ _ H1) as [(p & w2 & t2 & t3 & Hd & H2 & ->) | (o2 & Hd & Ho)].
    + exists t1, t2, t3. split; [reflexivity | split; [exact Hq | right]].
      exists k, w1, w2, (Returned p). split; [exact Hd | right].
      destruct (try_finally_inv _ _ _ _ _ _ H2)
        as [(w3 & tb & ob & tc & oc & Hb & Hr & -> & Hob & Ho) | (Hb & Hstop)].
      * destruct (removeTemp_inv _ _ _ _ _ Hr) as [-> Htc].
        exists p, tb, tc, w3, ob. split; [reflexivity | split; [exact Hb | left]].
        split; [reflexivity | split; [exact Htc |]].
        destruct Ho as [(u & _ & ->) | Ho]; [| discriminate Ho].
        split; [reflexivity |].
        destruct Hob as [[a ->] | [e ->]]; split; discriminate.
      * exists p, t3, [], w', o. split; [reflexivity | split; [exact Hb | right]].
        pose proof (restoreDownloaded_ends drop p _ _ _ _ Hb) as Hend.
        destruct Hstop as [-> | [[c ->] | [e ->]]]; [auto | discriminate Hend | eauto 6].
    + exists t1, tr, []. rewrite app_nil_r.
      split; [reflexivity | split; [exact Hq | right]].
      exists k, w1, w', o2. split; [exact Hd | left]. auto.
  - exists t, [], []. rewrite !app_nil_r.
    split; [reflexivity | split; [exact (chooseBackup_quiet file _ _ _ _ Hc) | left]].
    assert (Hend : ends false true false (chooseBackup env cfg file)).
    { unfold chooseBackup, latestBackupKey, listBackups. repeat ends_step. }
    pose proof (Hend _ _ _ _ Hc) as He.
    destruct o1; simpl in Ho; try discriminate Ho; injection Ho as <-.
    + repeat split. right. eauto.
    + repeat split. left. eauto.
    + discriminate He.
    + discriminate He.
Qed.

End RestoreOfAFile.

Lemma always_toISOString {W : Type} P d : always P (@toISOString W d).
Proof. destruct d; [apply always_ret | apply always_throw]. Qed.

Ltac always_all :=
  repeat (first [apply always_newDate | apply always_toISOString
                | always_step | apply always_try_finally]);
  try reflexivity; auto.

Section RestoreOfAFileClaims.

Import RestoreTs.

Context {W : Type}.
Variable env : Env W.
Variable cfg : Config.

Lemma after_choice_no_listing s3Key drop :
  always (fun ev => isListObjects ev = false)
    (tempFilePath <- downloadBackup env cfg s3Key ;;
     try_finally (restoreDownloaded env cfg drop tempFilePath) (removeTemp env tempFilePath)).
Proof.
  unfold downloadBackup, restoreDownloaded, removeTemp, decompressBackup, restoreToMongoDB,
    specificDatabaseOf, restoreDatabase, restoreCollection, restoreDocuments, restoreIndex.
  always_all.
Qed.

Lemma after_choice_ends s3Key drop :
  ends true false true
    (tempFilePath <- downloadBackup env cfg s3Key ;;
     try_finally (restoreDownloaded env cfg drop tempFilePath) (removeTemp env tempFilePath)).
Proof.
  apply ends_bind; [unfold downloadBackup; repeat ends_step | intros path].
  apply ends_try_finally; [apply restoreDownloaded_ends | unfold removeTemp; repeat ends_step].
Qed.

(** The file events of a download: no file is removed, and the file is
    written with success exactly when the download returns its path. *)
Lemma downloadBackup_file_events s3Key w w' t o :
  downloadBackup env cfg s3Key w = (w', t, o) ->
  (forall p f, ~ In (Call (FsUnlink p) f) t)
  /\ (forall p, In (Call (FsPipeToFile p) None) t -> o = Returned p)
  /\ (forall p, o = Returned p -> In (Call (FsPipeToFile p) None) t)
  /\ Forall (fun ev => isDriverRequest ev = false) t.
Proof.
  intros Hrun. rewrite downloadBackup_cases in Hrun. cbv zeta in Hrun.
  destruct (s3_getObject env (S3_BUCKET cfg) s3Key w) as [w1 [e | [|]]];
    [| destruct (fs_pipeToFile env _ w1) as [w2 [[e | e] | u]] |];
    inversion Hrun; subst; (split; [| split; [| split]]).
  all: lazymatch goal with
       | |- Forall _ _ => repeat constructor
       | |- forall p f, ~ In _ _ =>
           intros p f Hin; simpl in Hin; intuition discriminate
       | |- forall p, In _ _ -> _ =>
           intros p Hin; simpl in Hin;
           repeat (destruct Hin as [Hin | Hin]; [try discriminate Hin |]);
           try contradiction; inversion Hin; reflexivity
       | |- forall p, _ = Returned p -> _ =>
           intros p Heq; try discriminate Heq; inversion Heq; subst; simpl; auto 10
       end.
Qed.

(** X4: restore of a named file.  With a file name that is not empty the
    restore never lists the store: the one object it fetches is the file
    name under the configured key path, whatever the store holds, and the
    run never ends by leaving the process. *)
Theorem restore_of_named_file_skips_the_listing fileName drop w w' t o :
  fileName <> EmptyString ->
  restore env cfg (Some fileName) drop w = (w', t, o) ->
  Forall (fun ev => isListObjects ev = false) t
  /\ getObjectKeys t = [IndexTs.s3KeyOf cfg fileName]
  /\ (forall c, o <> Exited c).
Proof.
  intros Hne Hrun. rewrite restore_blocks in Hrun.
  assert (Hchoice : chooseBackup env cfg (Some fileName) w
                    = (w, [Console LLog [Str "Using specified backup: ";
                                         Str (IndexTs.s3KeyOf cfg fileName)]],
                       Returned (IndexTs.s3KeyOf cfg fileName))).
  { unfold chooseBackup. apply truthy_iff in Hne. rewrite Hne. reflexivity. }
  unfold bind at 1 in Hrun. rewrite Hchoice in Hrun.
  pose proof (download_fetches_key env cfg (IndexTs.s3KeyOf cfg fileName)
                (fun path => try_finally (restoreDownloaded env cfg drop path)
                               (removeTemp env path)) w
                (fun path => after_download_no_fetch env cfg drop path)) as Hfetch.
  match type of Hrun with
  | (let (p, o2) := ?m w in _) = _ => destruct (m w) as [[w3 t3] o3] eqn:Hrest
  end.
  inversion Hrun; subst. unfold traceOf in Hfetch. cbn [fst snd] in Hfetch.
  split; [| split].
  - constructor; [reflexivity |].
    exact (after_choice_no_listing _ drop _ _ _ _ Hrest).
  - simpl. exact Hfetch.
  - intros c Hc. pose proof (after_choice_ends _ drop _ _ _ _ Hrest) as Hend.
    rewrite Hc in Hend. discriminate Hend.
Qed.

End RestoreOfAFileClaims.

Lemma downloadBackup_writes_keys {W : Type} (env : Env W) (cfg : Config) s3Key w w' t o :
  RestoreTs.downloadBackup env cfg s3Key w = (w', t, o) -> getObjectKeys t = [s3Key].
Proof.
  intros Hrun. rewrite downloadBackup_cases in Hrun. cbv zeta in Hrun.
  destruct (s3_getObject env (S3_BUCKET cfg) s3Key w) as [w1 [e | [|]]];
    [| destruct (fs_pipeToFile env _ w1) as [w2 [[e | e] | u]] |];
    inversion Hrun; reflexivity.
Qed.

(** A download is cut short only by an error of the body stream, while it
    is piped into the file. *)
Lemma downloadBackup_uncaught {W : Type} (env : Env W) (cfg : Config) s3Key w w' t o e :
  RestoreTs.downloadBackup env cfg s3Key w = (w', t, o) ->
  o = Uncaught e ->
  In (Call (FsPipeToFile (tmpdir_join env (tempNameOf s3Key))) (Some e)) t.
Proof.
  intros Hrun ->. rewrite downloadBackup_cases in Hrun. cbv zeta in Hrun.
  destruct (s3_getObject env (S3_BUCKET cfg) s3Key w) as [w1 [e0 | [|]]];
    [| destruct (fs_pipeToFile env _ w1) as [w2 [[e0 | e0] | u]] |];
    inversion Hrun; subst. simpl. auto.
Qed.

Section RestoreFileAndDatabase.

Import RestoreTs.

Context {W : Type}.
Variable env : Env W.
Variable cfg : Config.

(** After the download a run is cut short only by an error of the stream
    that reads the temporary file. *)
Lemma restoreDownloaded_uncaught drop path w w' t o e :
  restoreDownloaded env cfg drop path w = (w', t, o) ->
  o = Uncaught e ->
  In (Call (FsGunzipRead path) (Some e)) t.
Proof.
  intros Hrun ->. unfold restoreDownloaded in Hrun.
  destruct (bind_inv _ _ _ _ _ _ Hrun) as [(b & w1 & t1 & t2 & _ & Hrest & _) | (o1 & Hd & Ho)].
  - assert (Hends : ends false false false
                      (console LLog [Str "Backup timestamp: "; Str (timestamp b)] ;;
                       console LLog [Str "Databases in backup: ";
                                     Str (joinNames (map fst (databases b)))] ;;
                       restoreToMongoDB env cfg b drop)).
    { repeat (first [apply restoreToMongoDB_ends | ends_step]). }
    pose proof (Hends _ _ _ _ Hrest) as Hend. discriminate Hend.
  - rewrite decompressBackup_cases in Hd. cbv zeta in Hd.
    destruct (fs_gunzipRead env path w) as [w2 [[e0 | e0] | [j |]]];
      [| | destruct (Snapshot.decode j) |]; inversion Hd; subst; try discriminate Ho.
    inversion Ho; subst. simpl. auto.
Qed.

(** X5: the temporary file of a restore.  A file is removed only if this
    run wrote it.  In a run that returns, throws or leaves the process, a
    temporary file that was written is asked to be removed, whether the
    decoding and the restore returned or threw.  A run that an error of a
    stream without listener cuts short removes nothing: that error comes
    from the body stream of the download, or from the stream that reads
    the temporary file, and in the second case the file that was written
    stays in the temporary directory. *)
Theorem restore_removes_the_temporary_file file drop w w' t o :
  restore env cfg file drop w = (w', t, o) ->
  (o <> Stuck -> (forall e, o <> Uncaught e) ->
   forall p, In (Call (FsPipeToFile p) None) t -> exists f, In (Call (FsUnlink p) f) t)
  /\ (forall p f, In (Call (FsUnlink p) f) t -> In (Call (FsPipeToFile p) None) t)
  /\ (forall e,
        o = Uncaught e ->
        (forall p f, ~ In (Call (FsUnlink p) f) t)
        /\ exists p,
             In (Call (FsPipeToFile p) (Some e)) t
             \/ (In (Call (FsPipeToFile p) None) t
                 /\ In (Call (FsGunzipRead p) (Some e)) t)).
Proof.
  intros Hrun.
  destruct (restore_inv env cfg _ _ _ _ _ _ Hrun) as (t1 & t2 & t3 & -> & Hq & Hcase).
  assert (Hq1 : forall ev, In ev t1 -> isFileChange ev = false).
  { intros ev Hin. rewrite Forall_forall in Hq. apply (Hq ev Hin). }
  destruct Hcase as [(-> & -> & Hend) | (k & w1 & w2 & o2 & Hd & Hcase)].
  - rewrite !app_nil_r. split; [| split].
    + intros _ _ p Hin. apply Hq1 in Hin. discriminate Hin.
    + intros p f Hin. apply Hq1 in Hin. discriminate Hin.
    + intros e ->. destruct Hend as [[c Hc] | [e0 He0]]; discriminate.
  - destruct (downloadBackup_file_events env cfg _ _ _ _ _ Hd) as (Hnone & Hwritten & Hret & _).
    destruct Hcase as [(-> & Ho) | (p & tb & tc & w3 & ob & -> & Hb & Hcase)].
    + rewrite app_nil_r. split; [| split].
      * intros _ _ p Hin. apply in_app_or in Hin. destruct Hin as [Hin | Hin].
        -- apply Hq1 in Hin. discriminate Hin.
        -- apply Hwritten in Hin. rewrite Hin in Ho. discriminate Ho.
      * intros p f Hin. apply in_app_or in Hin. destruct Hin as [Hin | Hin].
        -- apply Hq1 in Hin. discriminate Hin.
        -- apply Hnone in Hin. destruct Hin.
      * intros e ->. split.
        -- intros p f Hin. apply in_app_or in Hin. destruct Hin as [Hin | Hin].
           ++ apply Hq1 in Hin. discriminate Hin.
           ++ apply Hnone in Hin. destruct Hin.
        -- assert (Ho2 : o2 = Uncaught e).
           { destruct o2; simpl in Ho; try discriminate Ho. inversion Ho. reflexivity. }
           eexists. left. apply in_or_app. right.
           exact (downloadBackup_uncaught env cfg _ _ _ _ _ _ Hd Ho2).
    + pose proof (restoreDownloaded_no_file_change env cfg drop p _ _ _ _ Hb) as Hquiet.
      rewrite Forall_forall in Hquiet.
      assert (Hpipe : In (Call (FsPipeToFile p) None) (t1 ++ t2 ++ t3)).
      { apply in_or_app. right. apply in_or_app. left. apply Hret. reflexivity. }
      destruct Hcase as [(-> & (f & line & -> & Hline) & -> & Hns & Hnu)
                        | (-> & -> & Hstop)].
      * split; [| split].
        -- intros _ _ p' Hin. exists f.
           assert (Hp : p' = p).
           { apply in_app_or in Hin. destruct Hin as [Hin | Hin];
               [apply Hq1 in Hin; discriminate Hin |].
             apply in_app_or in Hin. destruct Hin as [Hin | Hin].
             - apply Hwritten in Hin. inversion Hin. reflexivity.
             - apply in_app_or in Hin. destruct Hin as [Hin | [Hin | [Hin | []]]].
               + apply Hquiet in Hin. discriminate Hin.
               + discriminate Hin.
               + subst line. discriminate Hline. }
           subst p'. apply in_or_app. right. apply in_or_app. right.
           apply in_or_app. right. left. reflexivity.
        -- intros p' f' Hin.
           apply in_app_or in Hin. destruct Hin as [Hin | Hin];
             [apply Hq1 in Hin; discriminate Hin |].
           apply in_app_or in Hin. destruct Hin as [Hin | Hin];
             [apply Hnone in Hin; destruct Hin |].
           apply in_app_or in Hin. destruct Hin as [Hin | [Hin | [Hin | []]]].
           ++ apply Hquiet in Hin. discriminate Hin.
           ++ inversion Hin; subst. exact Hpipe.
           ++ subst line. discriminate Hline.
        -- intros e He. destruct (Hnu e He).
      * assert (Hno : forall p' f', ~ In (Call (FsUnlink p') f') (t1 ++ t2 ++ tb)).
        { intros p' f' Hin.
          apply in_app_or in Hin. destruct Hin as [Hin | Hin];
            [apply Hq1 in Hin; discriminate Hin |].
          apply in_app_or in Hin. destruct Hin as [Hin | Hin];
            [apply Hnone in Hin; destruct Hin |].
          apply Hquiet in Hin. discriminate Hin. }
        split; [| split].
        -- intros Hns Hnu. destruct Hstop as [-> | [e ->]];
             [contradiction | destruct (Hnu e eq_refl)].
        -- intros p' f' Hin. destruct (Hno _ _ Hin).
        -- intros e ->. split; [exact Hno |].
           exists p. right. split; [exact Hpipe |].
           apply in_or_app. right. apply in_or_app. right.
           exact (restoreDownloaded_uncaught drop p _ _ _ _ _ Hb eq_refl).
Qed.

(** The body of [restore] after the download talks to the database only
    when the temporary file was read. *)
Lemma restoreDownloaded_reads_first drop path w w' t o :
  restoreDownloaded env cfg drop path w = (w', t, o) ->
  (exists ev, In ev t /\ isDriverRequest ev = true) ->
  In (Call (FsGunzipRead path) None) t.
Proof.
  intros Hrun (ev & Hin & Hdriver). unfold restoreDownloaded in Hrun.
  destruct (bind_inv _ _ _ _ _ _ Hrun) as [(b & w1 & t1 & t2 & Hd & _ & ->) | (o1 & Hd & _)].
  - apply in_or_app. left. rewrite decompressBackup_cases in Hd. cbv zeta in Hd.
    destruct (fs_gunzipRead env path w) as [w2 [[e | e] | [j |]]]; try discriminate Hd.
    destruct (Snapshot.decode j); inversion Hd; subst. right. left. reflexivity.
  - rewrite decompressBackup_cases in Hd. cbv zeta in Hd.
    destruct (fs_gunzipRead env path w) as [w2 [[e | e] | [j |]]];
      [| | destruct (Snapshot.decode j) |]; inversion Hd; subst;
      destruct Hin as [<- | [<- | []]]; discriminate Hdriver.
Qed.

(** X6: no request reaches the database unless the archive was fetched,
    written to the temporary file and read back: a run of [restore] in
    which the store, the write or the read fails, or in which the text is
    not JSON or not a snapshot, leaves the database untouched (it does not
    even connect).  And [decompressBackup] returns a snapshot only when it
    is the decoding of what the file holds. *)
Theorem restore_reads_the_archive_before_the_database file drop w w' t o :
  restore env cfg file drop w = (w', t, o) ->
  ((exists ev, In ev t /\ isDriverRequest ev = true) ->
   exists p,
     In (Call (FsPipeToFile p) None) t /\ In (Call (FsGunzipRead p) None) t
     /\ getObjectKeys t <> [])
  /\ (forall path w0 w1 t0 backup,
         decompressBackup env path w0 = (w1, t0, Returned backup) ->
         exists j,
           fs_gunzipRead env path w0 = (w1, inr (Some j))
           /\ Snapshot.decode j = Parsed backup).
Proof.
  intros Hrun. split.
  - intros (ev & Hin & Hdriver).
    destruct (restore_inv env cfg _ _ _ _ _ _ Hrun) as (t1 & t2 & t3 & -> & Hq & Hcase).
    assert (Hq1 : forall ev, In ev t1 -> isDriverRequest ev = false).
    { intros ev' Hin'. rewrite Forall_forall in Hq. apply (Hq ev' Hin'). }
    destruct Hcase as [(-> & -> & _) | (k & w1 & w2 & o2 & Hd & Hcase)].
    + rewrite !app_nil_r in Hin. apply Hq1 in Hin. congruence.
    + destruct (downloadBackup_file_events env cfg _ _ _ _ _ Hd) as (_ & _ & Hret & Hq2).
      rewrite Forall_forall in Hq2.
      assert (Hkeys : getObjectKeys t2 = [k]).
      { apply (downloadBackup_writes_keys env cfg _ _ _ _ _ Hd). }
      destruct Hcase as [(-> & Ho) | (p & tb & tc & w3 & ob & -> & Hb & Hcase)].
      * rewrite app_nil_r in Hin. apply in_app_or in Hin. destruct Hin as [Hin | Hin].
        -- apply Hq1 in Hin. congruence.
        -- apply Hq2 in Hin. congruence.
      * assert (Htb : exists ev', In ev' tb /\ isDriverRequest ev' = true).
        { apply in_app_or in Hin. destruct Hin as [Hin | Hin];
            [apply Hq1 in Hin; congruence |].
          apply in_app_or in Hin. destruct Hin as [Hin | Hin];
            [apply Hq2 in Hin; congruence |].
          destruct Hcase as [(-> & (f & line & -> & Hline) & _) | (-> & _)].
          - apply in_app_or in Hin. destruct Hin as [Hin | [Hin | [Hin | []]]].
            + exists ev. auto.
            + subst ev. discriminate Hdriver.
            + subst ev. destruct line; discriminate.
          - exists ev. auto. }
        pose proof (restoreDownloaded_reads_first drop p _ _ _ _ Hb Htb) as Hread.
        exists p. split; [| split].
        -- apply in_or_app. right. apply in_or_app. left. apply Hret. reflexivity.
        -- apply in_or_app. right. apply in_or_app. right.
           destruct Hcase as [(-> & _) | (-> & _)];
             [apply in_or_app; left; exact Hread | exact Hread].
        -- rewrite !getObjectKeys_app, Hkeys. destruct (getObjectKeys t1); discriminate.
  - intros path w0 w1 t0 backup Hd. rewrite decompressBackup_cases in Hd. cbv zeta in Hd.
    destruct (fs_gunzipRead env path w0) as [w2 [[e | e] | [j |]]]; try discriminate Hd.
    exists j. destruct (Snapshot.decode j) eqn:Hdec; inversion Hd; subst. auto.
Qed.

End RestoreFileAndDatabase.

(** The loops of the driver based backup. *)
Section BackupLoops.

Context {W : Type}.
Variable env : Env W.

Lemma backupCollections_always P dbName names acc :
  (forall ev, isCall ev = false -> P ev) ->
  (forall coll f, P (Call (MongoFind dbName coll) f)) ->
  (forall coll f, P (Call (MongoListIndexes dbName coll) f)) ->
  always P (BackupTs.backupCollections env dbName names acc).
Proof.
  intros Hc Hf Hi. revert acc. induction names as [| collName rest IH]; intros acc; simpl.
  - apply always_ret.
  - apply always_bind; [apply always_console; apply Hc; reflexivity | intros _].
    apply always_bind; [apply always_request; intros x; apply Hf | intros docs].
    apply always_bind; [apply always_request; intros x; apply Hi | intros idx].
    apply IH.
Qed.

Lemma backupDatabases_always P names acc :
  (forall ev, isCall ev = false -> P ev) ->
  (forall db f, P (Call (MongoListCollections db) f)) ->
  (forall db coll f, P (Call (MongoFind db coll) f)) ->
  (forall db coll f, P (Call (MongoListIndexes db coll) f)) ->
  always P (BackupTs.backupDatabases env names acc).
Proof.
  intros Hc Hl Hf Hi. revert acc. induction names as [| dbName rest IH]; intros acc; simpl.
  - apply always_ret.
  - apply always_bind; [apply always_console; apply Hc; reflexivity | intros _].
    apply always_bind; [apply always_request; intros x; apply Hl | intros colls].
    apply always_bind; [apply backupCollections_always; auto | intros collData].
    apply IH.
Qed.

Lemma backupDatabases_no_close names acc :
  always (fun ev => isClose ev = false) (BackupTs.backupDatabases env names acc).
Proof. apply backupDatabases_always; intros; try reflexivity. destruct ev; [reflexivity | discriminate]. Qed.

Lemma backupCollections_ends stuckOk exitOk uncaughtOk dbName names acc :
  ends stuckOk exitOk uncaughtOk (BackupTs.backupCollections env dbName names acc).
Proof.
  revert acc. induction names as [| collName rest IH]; intros acc; simpl.
  - apply ends_ret.
  - repeat (first [apply IH | ends_step]).
Qed.

Lemma backupDatabases_ends stuckOk exitOk uncaughtOk names acc :
  ends stuckOk exitOk uncaughtOk (BackupTs.backupDatabases env names acc).
Proof.
  revert acc. induction names as [| dbName rest IH]; intros acc; simpl.
  - apply ends_ret.
  - repeat (first [apply IH | apply backupCollections_ends | ends_step]).
Qed.

End BackupLoops.

(** ** The connection and the drop of collections *)

Section Connection.

Context {W : Type}.
Variable env : Env W.
Variable cfg : Config.

(** A block under the [finally] that closes the connection: the close
    request is sent once, after every other request, and a failure to
    close is what the whole throws; unless an error of a stream without
    listener cuts the block short, and then nothing is closed. *)
Lemma closed_at_the_end {A : Type} uncaughtOk (m : Js W A) w w' t o :
  always (fun ev => isClose ev = false) m ->
  ends false false uncaughtOk m ->
  try_finally m
    (request MongoClose (mongo_close env) ;; console LLog [Str "MongoDB connection closed"])
    w = (w', t, o) ->
  (exists t0 f tl,
      t = (t0 ++ Call MongoClose f :: tl)%list
      /\ Forall (fun ev => isClose ev = false) t0
      /\ Forall (fun ev => isCall ev = false) tl
      /\ match f with
         | Some e => o = Thrown e
         | None => exists w1, m w = (w1, t0, o)
                              /\ ((exists a, o = Returned a) \/ exists e, o = Thrown e)
         end)
  \/ (exists e, o = Uncaught e /\ m w = (w', t, Uncaught e)
                /\ Forall (fun ev => isClose ev = false) t).
Proof.
  intros Hnone Hends Hrun.
  destruct (try_finally_inv _ _ _ _ _ _ Hrun)
    as [(w1 & t1 & o1 & t2 & o2 & Hm & Hf & -> & Ho1 & Ho) | (Hm & Hstop)].
  - left. destruct (close_block_inv env _ _ _ _ Hf) as [[-> ->] | (e & -> & ->)].
    + exists t1, None, [Console LLog [Str "MongoDB connection closed"]].
      split; [reflexivity | split; [exact (Hnone _ _ _ _ Hm) | split]].
      * repeat constructor.
      * destruct Ho as [(u & _ & ->) | Ho]; [| discriminate Ho]. exists w1.
        split; [exact Hm | exact Ho1].
    + exists t1, (Some e), []. split; [reflexivity | split; [exact (Hnone _ _ _ _ Hm) | split]].
      * constructor.
      * destruct Ho as [(u & Hu & _) | Ho]; [discriminate Hu |]. inversion Ho. reflexivity.
  - pose proof (Hends _ _ _ _ Hm) as Hend.
    destruct Hstop as [-> | [[c ->] | [e ->]]]; try discriminate Hend.
    right. exists e. split; [reflexivity | split; [exact Hm | exact (Hnone _ _ _ _ Hm)]].
Qed.

(** X7: the connection of a restore.  When [new MongoClient] throws on the
    connection string, before the [try] block, [restoreToMongoDB] throws
    that error and sends nothing: it neither connects nor closes.
    Otherwise it closes the connection in every run, also when the
    connection could not be opened or an insert failed: the close request
    is sent exactly once and no request follows it, and when closing
    fails the restore throws the error of the close, whatever the restore
    itself did. *)
Theorem restoreToMongoDB_closes_the_connection backup drop w :
  match MongoClient_new env (MONGODB_URI cfg) with
  | Some e => RestoreTs.restoreToMongoDB env cfg backup drop w = (w, [], Thrown e)
  | None =>
      forall w' t o,
        RestoreTs.restoreToMongoDB env cfg backup drop w = (w', t, o) ->
        exists t0 f tl,
          t = (t0 ++ Call MongoClose f :: tl)%list
          /\ Forall (fun ev => isClose ev = false) t0
          /\ Forall (fun ev => isCall ev = false) tl
          /\ (forall e, f = Some e -> o = Thrown e)
          /\ ((exists e, o = Thrown e) \/ o = Returned tt)
  end.
Proof.
  destruct (MongoClient_new env (MONGODB_URI cfg)) as [e |] eqn:Hnew.
  - unfold RestoreTs.restoreToMongoDB, newMongoClient, bind. rewrite Hnew. reflexivity.
  - intros w' t o Hrun.
    pose proof (restoreToMongoDB_ends env cfg false false false backup drop _ _ _ _ Hrun)
      as Hend.
    unfold RestoreTs.restoreToMongoDB in Hrun.
    apply newMongoClient_inv in Hrun.
    destruct Hrun as [(e & He & _) | [_ Hrun]]; [rewrite Hnew in He; discriminate He |].
    match type of Hrun with
    | try_finally ?m _ _ = _ =>
        assert (Hnone : always (fun ev => isClose ev = false) m)
          by (unfold RestoreTs.specificDatabaseOf, RestoreTs.restoreDatabase,
                RestoreTs.restoreCollection, RestoreTs.restoreDocuments,
                RestoreTs.restoreIndex;
              always_all);
        assert (Hends : ends false false false m)
          by (unfold RestoreTs.specificDatabaseOf, RestoreTs.restoreDatabase,
                RestoreTs.restoreCollection, RestoreTs.restoreDocuments,
                RestoreTs.restoreIndex;
              repeat ends_step)
    end.
    destruct (closed_at_the_end _ _ _ _ _ _ Hnone Hends Hrun)
      as [(t0 & f & tl & Ht & H0 & Hl & Hf) | (e & -> & _)]; [| discriminate Hend].
    exists t0, f, tl. split; [exact Ht | split; [exact H0 | split; [exact Hl | split]]].
    + intros e He. subst f. exact Hf.
    + destruct o as [[] | e | c | | e]; try discriminate Hend; eauto.
Qed.

End Connection.

Section DropOfCollections.

Import RestoreTs.

Context {W : Type}.
Variable env : Env W.
Variable cfg : Config.

(** X9: the drop of collections.  Without [dropExisting] the restore
    never asks the driver to drop a collection.  With it, the restore of a
    collection is the restore without it, after one drop request for that
    collection whose failure changes nothing but the log: nothing is
    logged when the collection did not exist (NamespaceNotFound), a
    warning otherwise, and the documents and indexes are restored from the
    state the drop left, with the same outcome. *)
Theorem drop_precedes_the_restore_of_a_collection :
  (forall backup, always (fun ev => isDrop ev = false)
                    (restoreToMongoDB env cfg backup false))
  /\ (forall db coll cd w w1 answer w2 line rest o,
         mongo_drop env db coll w = (w1, answer) ->
         restoreCollection env false db (coll, cd) w1 = (w2, line :: rest, o) ->
         restoreCollection env true db (coll, cd) w
         = (w2,
            (line :: Call (MongoDrop db coll) (failureOf answer)
                  :: dropNote coll (failureOf answer) ++ rest)%list,
            o)
         /\ Forall (fun ev => isDrop ev = false) (line :: rest)).
Proof.
  split.
  - intros backup. unfold restoreToMongoDB, specificDatabaseOf, restoreDatabase,
      restoreCollection, restoreDocuments, restoreIndex.
    always_all.
  - intros db coll cd w w1 answer w2 line rest o Hdrop Hrun. split.
    + unfold restoreCollection in *. cbn [fst snd] in *.
      unfold bind at 1 in Hrun. rewrite console_run in Hrun.
      unfold bind at 1 in Hrun. unfold ret at 1 in Hrun.
      unfold bind at 1. rewrite console_run.
      unfold bind at 1. unfold try_catch, bind at 1, request. rewrite Hdrop.
      match type of Hrun with
      | context [bind ?a ?b w1] => set (contents := bind a b) in *
      end.
      destruct (contents w1) as [[w3 t3] o3] eqn:Hrest.
      simpl in Hrun. inversion Hrun; subst.
      destruct answer as [e | u]; simpl; unfold dropNote;
        [destruct (isNamespaceNotFound e) |]; simpl; rewrite Hrest; reflexivity.
    + assert (Hnone : always (fun ev => isDrop ev = false)
                        (restoreCollection env false db (coll, cd))).
      { unfold restoreCollection, restoreDocuments, restoreIndex. always_all. }
      exact (Hnone _ _ _ _ Hrun).
Qed.

End DropOfCollections.

(** ** The mongodump based backup *)

Section DumpBackup.

Context {W : Type}.
Variable env : Env W.
Variable cfg : Config.

(** The [catch] block of the backup: it logs the failure, asks for the
    removal of the temporary file and throws the error it caught. *)
Lemma backupFailed_cases {A : Type} path e w :
  @IndexTs.backupFailed W env A path e w =
  match fs_unlink env path w with
  | (w1, inl e') =>
      (w1, [Console LError [Str "Backup failed:"; Err e];
            Call (FsUnlink path) (Some e');
            Console LError [Str "Failed to cleanup temporary file:"; Err e']],
       Thrown e)
  | (w1, inr _) =>
      (w1, [Console LError [Str "Backup failed:"; Err e]; Call (FsUnlink path) None],
       Thrown e)
  end.
Proof.
  unfold IndexTs.backupFailed, bind, try_catch, request, console, throw.
  destruct (fs_unlink env path w) as [w1 [e' | []]]; reflexivity.
Qed.

(** The dump, the upload and the removal of the temporary file, by the
    answers of the collaborators; [after] is what follows the removal. *)
Lemma dump_upload_remove_cases (uri bucket s3Key path : string) (after : Js W unit) w :
  let dump := Call (Mongodump uri path) in
  let put := Call (S3PutObject bucket s3Key path) in
  let remove := Call (FsUnlink path) in
  let dumped := Console LLog [Str "MongoDB dump completed, uploading to S3..."] in
  let uploaded := Console LLog [Str "Backup uploaded successfully to S3: "; Str s3Key] in
  let removed := Console LLog [Str "Temporary file cleaned up"] in
  (stream (Mongodump uri path) (mongodump env uri path) ;;
   console LLog [Str "MongoDB dump completed, uploading to S3..."] ;;
   request (S3PutObject bucket s3Key path) (s3_putObject env bucket s3Key path) ;;
   console LLog [Str "Backup uploaded successfully to S3: "; Str s3Key] ;;
   request (FsUnlink path) (fs_unlink env path) ;;
   console LLog [Str "Temporary file cleaned up"] ;;
   after) w =
  match mongodump env uri path w with
  | (w1, inl (Rejected e)) => (w1, [dump (Some e)], Thrown e)
  | (w1, inl (Unlistened e)) => (w1, [dump (Some e)], Uncaught e)
  | (w1, inr _) =>
      match s3_putObject env bucket s3Key path w1 with
      | (w2, inl e) => (w2, [dump None; dumped; put (Some e)], Thrown e)
      | (w2, inr _) =>
          match fs_unlink env path w2 with
          | (w3, inl e) =>
              (w3, [dump None; dumped; put None; uploaded; remove (Some e)], Thrown e)
          | (w3, inr _) =>
              match after w3 with
              | (w4, t4, o4) =>
                  (w4, ([dump None; dumped; put None; uploaded; remove None; removed]
                        ++ t4)%list, o4)
              end
          end
      end
  end.
Proof.
  cbv zeta. unfold bind, request, stream, console.
  destruct (mongodump env uri path w) as [w1 [[e | e] | []]]; [reflexivity | reflexivity |].
  destruct (s3_putObject env bucket s3Key path w1) as [w2 [e | []]]; [reflexivity |].
  destruct (fs_unlink env path w2) as [w3 [e | []]]; [reflexivity |].
  destruct (after w3) as [[w4 t4] o4]. reflexivity.
Qed.

(** The cleanup only lists and deletes. *)
Lemma deleteOldBackups_requests :
  always (fun ev => isCall ev = true -> isCleanupRequest ev = true)
    (Retention.deleteOldBackups env cfg).
Proof.
  unfold Retention.deleteOldBackups, Retention.listAndDelete, Retention.deleteOne.
  always_all; discriminate.
Qed.

Lemma store_request_is_call ev : isStoreRequest ev = true -> isCall ev = true.
Proof. destruct ev as [lvl line | r f]; [discriminate | reflexivity]. Qed.

Lemma cleanup_request_is_call ev : isCleanupRequest ev = true -> isCall ev = true.
Proof. destruct ev as [lvl line | r f]; [discriminate | reflexivity]. Qed.

Lemma not_among_notes (notes : list Event) ev :
  forallb (fun ev => negb (isCall ev)) notes = true ->
  In ev notes -> isCall ev = true -> False.
Proof.
  intros Hnotes Hin Hcall. rewrite forallb_forall in Hnotes.
  specialize (Hnotes ev Hin). rewrite Hcall in Hnotes. discriminate.
Qed.

Ltac among_events Hnotes :=
  let ev := fresh "ev" in
  let Hin := fresh "Hin" in
  let Hev := fresh "Hev" in
  intros ev Hin Hev; simpl in Hin |- *;
  repeat (destruct Hin as [<- | Hin]);
  try discriminate Hev; try contradiction; try tauto;
  try (exfalso;
       first [ exact (not_among_notes _ _ Hnotes Hin (store_request_is_call _ Hev))
             | exact (not_among_notes _ _ Hnotes Hin (cleanup_request_is_call _ Hev)) ]).

(** X10: a run of the mongodump based backup.  The dump step pipes the
    output of mongodump into the temporary file through a write stream
    that has no [error] listener: when that stream fails, the run is cut
    short, uncaught, right after the dump step: nothing is logged as
    failed, the temporary file is not removed and nothing is thrown.  In
    every other run the backup returns or throws.  When it throws,
    whatever the step that failed, it has logged the failure, asked for
    the removal of the temporary file (again, when the file had been
    removed already) and thrown the error of the failed step itself; a
    failure of that removal is only logged.  When it returns, the dump,
    the upload and the removal of the temporary file all succeeded.  The
    store is asked for nothing before the dump succeeded, and the cleanup
    lists or deletes nothing before the upload and the removal of the
    temporary file succeeded. *)
Theorem dump_backup_steps_and_failure w w' t o :
  IndexTs.createMongoDBBackup env cfg w = (w', t, o) ->
  let name := IndexTs.backupFileNameAt (snd (clock_now env w)) in
  let path := tmpdir_join env name in
  let dump := Call (Mongodump (MONGODB_URI cfg) path) in
  let put := Call (S3PutObject (S3_BUCKET cfg) (IndexTs.s3KeyOf cfg name) path) in
  let remove := Call (FsUnlink path) in
  (o = Returned tt \/ (exists e, o = Thrown e) \/ exists e, o = Uncaught e)
  /\ (forall e,
        o = Uncaught e
        <-> mongodump env (MONGODB_URI cfg) path (fst (clock_now env w))
            = (w', inl (Unlistened e)))
  /\ (forall e,
        o = Uncaught e ->
        t = [Console LLog [Str "Starting MongoDB backup: "; Str name]; dump (Some e)])
  /\ (forall e, o = Thrown e ->
      exists before f notes,
        t = (before ++ Console LError [Str "Backup failed:"; Err e] :: remove f :: notes)%list
        /\ forallb (fun ev => negb (isCall ev)) notes = true)
  /\ (o = Returned tt -> In (dump None) t /\ In (put None) t /\ In (remove None) t)
  /\ (forall ev, In ev t -> isStoreRequest ev = true -> In (dump None) t)
  /\ (forall ev, In ev t -> isCleanupRequest ev = true ->
      In (put None) t /\ In (remove None) t).
Proof.
  intros Hrun. cbv zeta.
  unfold IndexTs.createMongoDBBackup, newDate in Hrun. unfold bind at 1 in Hrun.
  destruct (clock_now env w) as [w0 now] eqn:Hnow. cbn [fst snd].
  unfold bind at 1, console at 1 in Hrun. unfold try_catch in Hrun.
  rewrite dump_upload_remove_cases in Hrun.
  set (name := IndexTs.backupFileNameAt now) in *.
  set (path := tmpdir_join env name) in *.
  assert (Hcatch : forall e w1,
            match IndexTs.backupFailed env (A := unit) path e w1 with
            | (w2, t2, o2) =>
                o2 = Thrown e
                /\ exists f notes,
                     t2 = Console LError [Str "Backup failed:"; Err e]
                            :: Call (FsUnlink path) f :: notes
                     /\ forallb (fun ev => negb (isCall ev)) notes = true
            end).
  { intros e w1. rewrite backupFailed_cases.
    destruct (fs_unlink env path w1) as [w2 [e' | []]];
      (split; [reflexivity | eexists _, _; split; reflexivity]). }
  destruct (mongodump env (MONGODB_URI cfg) path w0) as [w1 [[e | e] | []]] eqn:Hdump.
  { specialize (Hcatch e w1).
    destruct (IndexTs.backupFailed env path e w1) as [[w2 t2] o2].
    destruct Hcatch as (-> & f & notes & -> & Hnotes).
    inversion Hrun; subst.
    split; [right; left; eauto |].
    split; [intros e0; split; discriminate |].
    split; [discriminate |].
    split; [intros e0 He0; injection He0 as <-;
            eexists [_; _], _, _; split; [reflexivity | exact Hnotes] |].
    split; [discriminate |].
    split; among_events Hnotes. }
  { inversion Hrun; subst.
    split; [right; right; eauto |].
    split; [intros e0; split; intros H; inversion H; reflexivity |].
    split; [intros e0 H; inversion H; reflexivity |].
    split; [discriminate |].
    split; [discriminate |].
    split; intros ev [<- | [<- | []]] Hev; discriminate Hev. }
  assert (Hcaught : forall e0 w5, (w1, inr tt) = (w5, inl (Unlistened e0)) -> False)
    by (intros e0 w5 H; discriminate H).
  destruct (s3_putObject env (S3_BUCKET cfg) (IndexTs.s3KeyOf cfg name) path w1)
    as [w2 [e | []]].
  { specialize (Hcatch e w2).
    destruct (IndexTs.backupFailed env path e w2) as [[w3 t3] o3].
    destruct Hcatch as (-> & f & notes & -> & Hnotes).
    inversion Hrun; subst.
    split; [right; left; eauto |].
    split; [intros e0; split; [discriminate | intros H; destruct (Hcaught _ _ H)] |].
    split; [discriminate |].
    split; [intros e0 He0; injection He0 as <-;
            eexists [_; _; _; _], _, _; split; [reflexivity | exact Hnotes] |].
    split; [discriminate |].
    split; among_events Hnotes. }
  destruct (fs_unlink env path w2) as [w3 [e | []]].
  { specialize (Hcatch e w3).
    destruct (IndexTs.backupFailed env path e w3) as [[w4 t4] o4].
    destruct Hcatch as (-> & f & notes & -> & Hnotes).
    inversion Hrun; subst.
    split; [right; left; eauto |].
    split; [intros e0; split; [discriminate | intros H; destruct (Hcaught _ _ H)] |].
    split; [discriminate |].
    split; [intros e0 He0; injection He0 as <-;
            eexists [_; _; _; _; _; _], _, _; split; [reflexivity | exact Hnotes] |].
    split; [discriminate |].
    split; among_events Hnotes. }
  destruct (Retention.deleteOldBackups env cfg w3) as [[w4 t4] o4] eqn:Hclean.
  destruct (deleteOldBackups_outcome env cfg _ _ _ _ Hclean)
    as [-> | (-> & -> & _)].
  - inversion Hrun; subst.
    split; [left; reflexivity |].
    split; [intros e0; split; [discriminate | intros H; destruct (Hcaught _ _ H)] |].
    split; [discriminate |].
    split; [discriminate |].
    split; [intros _; simpl; tauto |].
    split; intros ev Hin Hev; simpl; tauto.
  - specialize (Hcatch (newError "RangeError" "Invalid time value") w4).
    destruct (IndexTs.backupFailed env path _ w4) as [[w5 t5] o5].
    destruct Hcatch as (-> & f & notes & -> & Hnotes).
    inversion Hrun; subst.
    split; [right; left; eauto |].
    split; [intros e0; split; [discriminate | intros H; destruct (Hcaught _ _ H)] |].
    split; [discriminate |].
    split; [intros e0 He0; injection He0 as <-;
            eexists [_; _; _; _; _; _; _], _, _; split; [reflexivity | exact Hnotes] |].
    split; [discriminate |].
    split; intros ev Hin Hev; simpl; tauto.
Qed.

(** X11: when no retention period is in force -- [RETENTION_DAYS] is
    absent or empty, is not a number, or is not positive -- the backup of
    [src/index.ts] is the one of the first version of the program followed,
    when it succeeds, by a single log line: the same requests with the same
    answers, the same outcome, and no request to list or delete anything. *)
Theorem without_retention_the_backup_is_the_first_version :
  match RETENTION_DAYS cfg with
  | None => True
  | Some days =>
      JS.truthy days = false
      \/ JS.parseInt10 days = JS.NaN
      \/ exists n, JS.parseInt10 days = JS.Int n /\ n <= 0
  end ->
  exists note,
    (note = "No retention period set, skipping cleanup"
     \/ note = "Invalid retention period, skipping cleanup")
    /\ forall w,
        IndexTs.createMongoDBBackup env cfg w =
        match LegacyIndex.createMongoDBBackup env cfg w with
        | (w', t, Returned _) => (w', (t ++ [Console LLog [Str note]])%list, Returned tt)
        | r => r
        end.
Proof.
  intros Hoff.
  assert (Hclean : exists note,
             (note = "No retention period set, skipping cleanup"
              \/ note = "Invalid retention period, skipping cleanup")
             /\ Retention.deleteOldBackups env cfg = console LLog [Str note]).
  { unfold Retention.deleteOldBackups.
    destruct (RETENTION_DAYS cfg) as [days |]; [| eexists; split; [left |]; reflexivity].
    destruct (JS.truthy days) eqn:Hdays; simpl;
      [| eexists; split; [left |]; reflexivity].
    destruct Hoff as [Hoff | [Hoff | (n & Hoff & Hn)]]; [discriminate | |];
      rewrite Hoff; [eexists; split; [right |]; reflexivity |].
    apply Z.leb_le in Hn. rewrite Hn. eexists; split; [right |]; reflexivity. }
  destruct Hclean as (note & Hnote & Hclean).
  exists note. split; [exact Hnote |]. intros w.
  unfold IndexTs.createMongoDBBackup, LegacyIndex.createMongoDBBackup.
  rewrite Hclean.
  unfold newDate, bind, try_catch, request, stream, console.
  destruct (clock_now env w) as [w0 now].
  set (name := IndexTs.backupFileNameAt now).
  set (path := tmpdir_join env name).
  destruct (mongodump env (MONGODB_URI cfg) path w0) as [w1 [[e | e] | []]].
  { rewrite !backupFailed_cases.
    destruct (fs_unlink env path w1) as [w2 [e' | []]]; reflexivity. }
  { reflexivity. }
  destruct (s3_putObject env (S3_BUCKET cfg) (IndexTs.s3KeyOf cfg name) path w1)
    as [w2 [e | []]].
  { rewrite !backupFailed_cases.
    destruct (fs_unlink env path w2) as [w3 [e' | []]]; reflexivity. }
  destruct (fs_unlink env path w2) as [w3 [e | []]].
  { rewrite !backupFailed_cases.
    destruct (fs_unlink env path w3) as [w4 [e' | []]]; reflexivity. }
  reflexivity.
Qed.

End DumpBackup.

(** ** The name and the key of an archive *)

Section ArchiveName.

Lemma digitChar_digit (n : Z) : isDigitChar (JS.digitChar (n mod 10)) = true.
Proof.
  pose proof (Z.mod_pos_bound n 10 ltac:(lia)) as Hd.
  unfold isDigitChar, JS.digitChar.
  rewrite nat_ascii_embedding by lia.
  apply andb_true_intro. split; apply Nat.leb_le; lia.
Qed.

Lemma isDigits_app (a b : string) :
  isDigits (a ++ b) = isDigits a && isDigits b.
Proof.
  induction a as [| c a IH]; simpl; [reflexivity |].
  rewrite IH, andb_assoc. reflexivity.
Qed.

Lemma padDigits_digits (width : nat) (n : Z) : isDigits (JS.padDigits width n) = true.
Proof.
  revert n. induction width as [| width IH]; intros n; [reflexivity |].
  change (JS.padDigits (S width) n)
    with (JS.padDigits width (n / 10) ++ String (JS.digitChar (n mod 10)) EmptyString)%string.
  rewrite isDigits_app, IH.
  change (isDigits (String ?c EmptyString)) with (isDigitChar c && true).
  rewrite digitChar_digit. reflexivity.
Qed.

Lemma digit_is_no_separator (c : ascii) :
  isDigitChar c = true -> Ascii.eqb c "T" = false /\ Ascii.eqb c "-" = false.
Proof.
  intros Hc. split.
  - destruct (Ascii.eqb_spec c "T") as [-> |]; [discriminate Hc | reflexivity].
  - destruct (Ascii.eqb_spec c "-") as [-> |]; [discriminate Hc | reflexivity].
Qed.

Lemma removeDashes_app (a b : string) :
  JS.removeDashes (a ++ b) = (JS.removeDashes a ++ JS.removeDashes b)%string.
Proof.
  induction a as [| c a IH]; simpl; [reflexivity |].
  destruct (Ascii.eqb c "-"); simpl; rewrite IH; reflexivity.
Qed.

Lemma removeDashes_digits (s : string) : isDigits s = true -> JS.removeDashes s = s.
Proof.
  induction s as [| c s IH]; simpl; [reflexivity |].
  intros H. apply andb_prop in H as [Hc Hs].
  destruct (digit_is_no_separator c Hc) as [_ ->]. rewrite IH by exact Hs. reflexivity.
Qed.

Lemma beforeT_digits (s rest : string) :
  isDigits s = true -> JS.beforeT (s ++ rest) = (s ++ JS.beforeT rest)%string.
Proof.
  induction s as [| c s IH]; simpl; [reflexivity |].
  intros H. apply andb_prop in H as [Hc Hs].
  destruct (digit_is_no_separator c Hc) as [-> _]. rewrite IH by exact Hs. reflexivity.
Qed.

(** The part of [toISOString] before its [T]. *)
Lemma beforeT_toISOString (now : Z) :
  JS.beforeT (JS.toISOString now) =
  let '(y, m, d) := JS.civilFromDays (now / JS.msPerDay) in
  (JS.yearString y ++ "-" ++ JS.padDigits 2 m ++ "-" ++ JS.padDigits 2 d)%string.
Proof.
  unfold JS.toISOString.
  destruct (JS.civilFromDays (now / JS.msPerDay)) as [[y m] d].
  assert (Hrest : forall rest,
             JS.beforeT ("-" ++ JS.padDigits 2 m ++ "-" ++ JS.padDigits 2 d ++ "T" ++ rest)
             = ("-" ++ JS.padDigits 2 m ++ "-" ++ JS.padDigits 2 d)%string).
  { intros rest. change (JS.beforeT ("-" ++ ?x)) with (String "-" (JS.beforeT x)).
    rewrite beforeT_digits by apply padDigits_digits.
    change (JS.beforeT ("-" ++ ?x)) with (String "-" (JS.beforeT x)).
    rewrite beforeT_digits by apply padDigits_digits.
    reflexivity. }
  unfold JS.yearString.
  destruct ((0 <=? y) && (y <=? 9999)).
  - rewrite beforeT_digits by apply padDigits_digits. rewrite Hrest. reflexivity.
  - destruct (y <? 0).
    + change (JS.beforeT (("-" ++ ?a) ++ ?x)) with (String "-" (JS.beforeT (a ++ x))).
      rewrite beforeT_digits by apply padDigits_digits. rewrite Hrest. reflexivity.
    + change (JS.beforeT (("+" ++ ?a) ++ ?x)) with (String "+" (JS.beforeT (a ++ x))).
      rewrite beforeT_digits by apply padDigits_digits. rewrite Hrest. reflexivity.
Qed.

Lemma append_assoc (a b c : string) : ((a ++ b) ++ c = a ++ b ++ c)%string.
Proof. induction a as [| x a IH]; simpl; [| rewrite IH]; reflexivity. Qed.

Lemma prefix_app (a b : string) : String.prefix a (a ++ b) = true.
Proof.
  induction a as [| c a IH]; simpl; [destruct b; reflexivity |].
  destruct (ascii_dec c c) as [_ | Hne]; [exact IH | contradiction].
Qed.

Variable cfg : Config.

(** X12: the archive of a backup is named after the UTC day of the run
    alone: [mongodb-backup-], the digits of the year, the month and the
    day, and [.gz] (four digits for the years 0 to 9999; six otherwise,
    with the sign of a year before 0 lost with the dashes), so that two
    runs on the same UTC day write to the same key.  That key lies under
    the prefix by which the cleanup and the restore list the archives. *)
Theorem archive_named_after_the_utc_day (now : Z) :
  (let '(y, m, d) := JS.civilFromDays (now / JS.msPerDay) in
   IndexTs.backupFileNameAt now =
   ("mongodb-backup-"
    ++ (if (9999 <? y)%Z then "+" else "")
    ++ JS.padDigits (if ((0 <=? y) && (y <=? 9999))%Z then 4 else 6) (Z.abs y)
    ++ JS.padDigits 2 m ++ JS.padDigits 2 d ++ ".gz")%string)
  /\ (forall later,
        later / JS.msPerDay = now / JS.msPerDay ->
        IndexTs.s3KeyOf cfg (IndexTs.backupFileNameAt later)
        = IndexTs.s3KeyOf cfg (IndexTs.backupFileNameAt now))
  /\ String.prefix (Retention.backupPrefix cfg)
        (IndexTs.s3KeyOf cfg (IndexTs.backupFileNameAt now)) = true.
Proof.
  split; [| split].
  - unfold IndexTs.backupFileNameAt. rewrite beforeT_toISOString.
    destruct (JS.civilFromDays (now / JS.msPerDay)) as [[y m] d].
    rewrite !removeDashes_app.
    rewrite !(removeDashes_digits (JS.padDigits 2 _)) by apply padDigits_digits.
    change (JS.removeDashes "-") with EmptyString.
    change (EmptyString ++ ?x)%string with x.
    unfold JS.yearString.
    destruct ((0 <=? y) && (y <=? 9999)) eqn:Hrange.
    + apply andb_prop in Hrange as [Hlo Hhi].
      apply Z.leb_le in Hlo, Hhi.
      replace (9999 <? y) with false by (symmetry; apply Z.ltb_ge; lia).
      rewrite Z.abs_eq by lia.
      rewrite removeDashes_digits by apply padDigits_digits.
      rewrite ?append_assoc. reflexivity.
    + destruct (y <? 0) eqn:Hneg.
      * apply Z.ltb_lt in Hneg.
        replace (9999 <? y) with false by (symmetry; apply Z.ltb_ge; lia).
        rewrite Z.abs_neq by lia.
        change (JS.removeDashes ("-" ++ ?a)) with (JS.removeDashes a).
        rewrite removeDashes_digits by apply padDigits_digits.
      rewrite ?append_assoc. reflexivity.
      * apply Z.ltb_ge in Hneg.
        assert (Hbig : 9999 < y).
        { apply andb_false_iff in Hrange as [H | H];
            [apply Z.leb_gt in H | apply Z.leb_gt in H]; lia. }
        replace (9999 <? y) with true by (symmetry; apply Z.ltb_lt; lia).
        rewrite Z.abs_eq by lia.
        change (JS.removeDashes ("+" ++ ?a)) with (String "+" (JS.removeDashes a)).
        rewrite removeDashes_digits by apply padDigits_digits.
      rewrite ?append_assoc. reflexivity.
  - intros later Hday. unfold IndexTs.backupFileNameAt.
    rewrite !beforeT_toISOString, Hday. reflexivity.
  - unfold IndexTs.s3KeyOf, Retention.backupPrefix, IndexTs.backupFileNameAt.
    destruct (S3_KEY_PATH cfg) as [p |]; [destruct (JS.truthy p) |].
    + change ("/" ++ "mongodb-backup-" ++ ?x)%string with ("/mongodb-backup-" ++ x)%string.
      rewrite <- (append_assoc p "/mongodb-backup-"). apply prefix_app.
    + apply (prefix_app "mongodb-backup-").
    + apply (prefix_app "mongodb-backup-").
Qed.

End ArchiveName.

(** ** The driver based backup: what is archived *)

Section Unfailing.

Context {W : Type}.

Lemma unfailing_ret {A : Type} (a : A) : unfailing (W:=W) (ret a).
Proof. intros w w' t b H. inversion H; subst. constructor. Qed.

Lemma unfailing_throw {A : Type} e : unfailing (@throw W A e).
Proof. intros w w' t b H. inversion H. Qed.

Lemma unfailing_console lvl line : unfailing (@console W lvl line).
Proof. intros w w' t b H. inversion H; subst. repeat constructor. Qed.

Lemma unfailing_request {A : Type} r (f : W -> W * (JsError + A)) :
  unfailing (request r f).
Proof.
  intros w w' t b H. unfold request in H.
  destruct (f w) as [w1 [e | a]]; inversion H; subst. repeat constructor.
Qed.

Lemma unfailing_newDate (env : Env W) : unfailing (newDate env).
Proof.
  intros w w' t b H. unfold newDate in H.
  destruct (clock_now env w); inversion H; subst. constructor.
Qed.

Lemma unfailing_bind {A B : Type} (m : Js W A) (k : A -> Js W B) :
  unfailing m -> (forall a, unfailing (k a)) -> unfailing (bind m k).
Proof.
  intros Hm Hk w w' t b H.
  destruct (bind_inv _ _ _ _ _ _ H) as [(a & w1 & t1 & t2 & H1 & H2 & ->) | (o1 & H1 & Ho)].
  - apply Forall_app. split; [exact (Hm _ _ _ _ H1) | exact (Hk _ _ _ _ _ H2)].
  - destruct o1; discriminate Ho.
Qed.

End Unfailing.

Ltac unfailing_step :=
  match goal with
  | |- unfailing (bind _ _) => apply unfailing_bind; [| intros ?]
  | |- unfailing (console _ _) => apply unfailing_console
  | |- unfailing (request _ _) => apply unfailing_request
  | |- unfailing (newDate _) => apply unfailing_newDate
  | |- unfailing (ret _) => apply unfailing_ret
  | |- unfailing (throw _) => apply unfailing_throw
  | |- unfailing (if ?b then _ else _) => destruct b
  | |- unfailing (match ?x with _ => _ end) => destruct x
  end.

Section DriverBackup.

Context {W : Type}.
Variable env : Env W.
Variable cfg : Config.

Lemma backupCollections_unfailing dbName names acc :
  unfailing (BackupTs.backupCollections env dbName names acc).
Proof.
  revert acc. induction names as [| collName rest IH]; intros acc; simpl.
  - apply unfailing_ret.
  - repeat (first [apply IH | unfailing_step]).
Qed.

Lemma backupDatabases_unfailing names acc :
  unfailing (BackupTs.backupDatabases env names acc).
Proof.
  revert acc. induction names as [| dbName rest IH]; intros acc; simpl.
  - apply unfailing_ret.
  - repeat (first [apply IH | apply backupCollections_unfailing | unfailing_step]).
Qed.

(** The snapshot is returned only when every read of the database
    succeeded. *)
Lemma produce_unfailing : unfailing (BackupTs.produce env cfg).
Proof.
  unfold BackupTs.produce, RestoreTs.specificDatabaseOf, BackupTs.databasesToBackup.
  repeat (first [apply backupDatabases_unfailing | unfailing_step]).
Qed.

(** While the snapshot is assembled nothing is written or sent. *)
Lemma produce_no_output :
  always (fun ev => isArchiveOutput ev = false) (BackupTs.produce env cfg).
Proof.
  unfold BackupTs.produce, RestoreTs.specificDatabaseOf, BackupTs.databasesToBackup.
  repeat (first [apply always_newDate
                | apply backupDatabases_always;
                  [intros ev Hev; destruct ev; [reflexivity | discriminate Hev]
                  | reflexivity | reflexivity | reflexivity]
                | always_step]);
    reflexivity.
Qed.

(** The [try] block of the driver based backup, by the answers to the
    connection, the reads and the write of the archive; [after] is what
    follows the write. *)
Lemma driver_try_block_cases (path : string) (after : Js W unit) w :
  let connect := Call (MongoConnect (MONGODB_URI cfg)) in
  let connected := Console LLog [Str "Connected to MongoDB"] in
  (request (MongoConnect (MONGODB_URI cfg)) (mongo_connect env (MONGODB_URI cfg)) ;;
   console LLog [Str "Connected to MongoDB"] ;;
   backup <- BackupTs.produce env cfg ;;
   stream (FsWriteGzip path (Snapshot.encode backup))
     (fs_writeGzip env path (Snapshot.encode backup)) ;;
   after) w =
  match mongo_connect env (MONGODB_URI cfg) w with
  | (w1, inl e) => (w1, [connect (Some e)], Thrown e)
  | (w1, inr _) =>
      match BackupTs.produce env cfg w1 with
      | (wp, tp, Returned backup) =>
          let write := Call (FsWriteGzip path (Snapshot.encode backup)) in
          match fs_writeGzip env path (Snapshot.encode backup) wp with
          | (w2, inl (Rejected e)) =>
              (w2, connect None :: connected :: (tp ++ [write (Some e)])%list, Thrown e)
          | (w2, inl (Unlistened e)) =>
              (w2, connect None :: connected :: (tp ++ [write (Some e)])%list, Uncaught e)
          | (w2, inr _) =>
              match after w2 with
              | (w3, t3, o3) =>
                  (w3, connect None :: connected :: (tp ++ write None :: t3)%list, o3)
              end
          end
      | (wp, tp, Thrown e) => (wp, connect None :: connected :: tp, Thrown e)
      | (wp, tp, Exited c) => (wp, connect None :: connected :: tp, Exited c)
      | (wp, tp, Stuck) => (wp, connect None :: connected :: tp, Stuck)
      | (wp, tp, Uncaught e) => (wp, connect None :: connected :: tp, Uncaught e)
      end
  end.
Proof.
  cbv zeta. unfold bind at 1, request at 1.
  destruct (mongo_connect env (MONGODB_URI cfg) w) as [w1 [e | []]]; [reflexivity |].
  unfold bind at 1, console at 1. unfold bind at 1.
  destruct (BackupTs.produce env cfg w1) as [[wp tp] [backup | e | c | | e]];
    try reflexivity.
  unfold bind at 1, stream at 1.
  destruct (fs_writeGzip env path (Snapshot.encode backup) wp) as [w2 [[e | e] | []]];
    [reflexivity | reflexivity |].
  destruct (after w2) as [[w3 t3] o3]. reflexivity.
Qed.

(** The close of the connection writes and sends nothing. *)
Lemma close_no_output w w' t (o : Outcome unit) :
  (request MongoClose (mongo_close env) ;;
   console LLog [Str "MongoDB connection closed"]) w = (w', t, o) ->
  Forall (fun ev => isArchiveOutput ev = false) t.
Proof.
  unfold bind, request, console.
  destruct (mongo_close env w) as [w1 [e | []]]; intros H; inversion H; subst;
    repeat constructor.
Qed.

Lemma backupFailed_no_output path e w w' t (o : Outcome unit) :
  IndexTs.backupFailed env path e w = (w', t, o) ->
  Forall (fun ev => isArchiveOutput ev = false) t.
Proof.
  rewrite backupFailed_cases.
  destruct (fs_unlink env path w) as [w1 [e' | []]]; intros H; inversion H; subst;
    repeat constructor.
Qed.

(** X13: the driver based backup archives only a complete snapshot.  If a
    run writes or uploads an archive at all, then the connection was
    opened, the snapshot was assembled without a single failed read, and
    what was written to the temporary file is the JSON text of exactly
    that snapshot; nothing is uploaded unless that write succeeded, and
    what is uploaded then is that file, under the key of the day. *)
Theorem driver_backup_archives_a_complete_snapshot w w' t o ev :
  BackupTs.createMongoDBBackup env cfg w = (w', t, o) ->
  In ev t ->
  isArchiveOutput ev = true ->
  let name := IndexTs.backupFileNameAt (snd (clock_now env w)) in
  let path := tmpdir_join env name in
  exists w1 wp tp backup f rest,
    BackupTs.produce env cfg w1 = (wp, tp, Returned backup)
    /\ Forall (fun ev => failed ev = false) tp
    /\ t = (Console LLog [Str "Starting MongoDB backup: "; Str name]
            :: Call (MongoConnect (MONGODB_URI cfg)) None
            :: Console LLog [Str "Connected to MongoDB"]
            :: tp ++ Call (FsWriteGzip path (Snapshot.encode backup)) f :: rest)%list
    /\ Forall (fun ev' =>
                 isArchiveOutput ev' = true ->
                 f = None
                 /\ exists f',
                      ev' = Call (S3Upload (S3_BUCKET cfg) (IndexTs.s3KeyOf cfg name) path) f')
         rest.
Proof.
  intros Hrun Hin Hev. cbv zeta.
  unfold BackupTs.createMongoDBBackup, newDate in Hrun. unfold bind at 1 in Hrun.
  destruct (clock_now env w) as [w0 now] eqn:Hnow. simpl snd.
  unfold bind at 1, console at 1 in Hrun.
  set (name := IndexTs.backupFileNameAt now) in *.
  set (path := tmpdir_join env name) in *.
  match type of Hrun with
  | context [bind (newMongoClient env ?u) ?k w0] =>
      destruct (bind (newMongoClient env u) k w0) as [[w3 t3] o3] eqn:Hrest
  end.
  inversion Hrun; subst w' t o; clear Hrun.
  apply newMongoClient_inv in Hrest.
  destruct Hrest as [(e & _ & _ & -> & _) | [_ Hrest]];
    [destruct Hin as [<- | []]; discriminate Hev |].
  match type of Hrest with
  | try_finally (try_catch ?m _) _ _ = _ => set (inner := m) in *
  end.
  assert (Hsplit : exists wi ti oi extra,
             inner w0 = (wi, ti, oi) /\ t3 = (ti ++ extra)%list
             /\ Forall (fun ev => isArchiveOutput ev = false) extra).
  { destruct (try_finally_inv _ _ _ _ _ _ Hrest)
      as [(w1 & t1 & o1 & t2 & o2 & Hm & Hf & -> & _ & _) | (Hm & _)].
    - apply close_no_output in Hf.
      destruct (try_catch_inv _ _ _ _ _ _ Hm)
        as [(e & wi & ti & th & Hi & Hh & ->) | (Hi & _)].
      + apply backupFailed_no_output in Hh.
        exists wi, ti, (Thrown e), (th ++ t2)%list.
        split; [exact Hi | split; [symmetry; apply app_assoc | apply Forall_app; auto]].
      + exists w1, t1, o1, t2. auto.
    - destruct (try_catch_inv _ _ _ _ _ _ Hm)
        as [(e & wi & ti & th & Hi & Hh & ->) | (Hi & _)].
      + apply backupFailed_no_output in Hh. exists wi, ti, (Thrown e), th. auto.
      + exists w3, t3, o3, []. rewrite app_nil_r. auto. }
  destruct Hsplit as (wi & ti & oi & extra & Hinner & -> & Hextra).
  clear Hrest.
  assert (Hquiet : forall l,
             Forall (fun ev => isArchiveOutput ev = false) l ->
             In ev (Console LLog [Str "Starting MongoDB backup: "; Str name] :: l) -> False).
  { intros l Hl [<- | Hl']; [discriminate Hev |].
    rewrite Forall_forall in Hl. rewrite (Hl _ Hl') in Hev. discriminate Hev. }
  assert (Hvoid : forall (P : Event -> Prop) l,
             Forall (fun ev => isArchiveOutput ev = false) l ->
             Forall (fun ev' => isArchiveOutput ev' = true -> P ev') l).
  { intros P l Hl. eapply Forall_impl; [| exact Hl].
    simpl. intros a Ha Ha'. rewrite Ha in Ha'. discriminate Ha'. }
  unfold inner in Hinner. rewrite driver_try_block_cases in Hinner.
  destruct (mongo_connect env (MONGODB_URI cfg) w0) as [w1 [e | []]].
  { inversion Hinner; subst. exfalso. eapply Hquiet; [| exact Hin].
    simpl. constructor; [reflexivity | exact Hextra]. }
  destruct (BackupTs.produce env cfg w1) as [[wp tp] op] eqn:Hproduce.
  pose proof (produce_no_output _ _ _ _ Hproduce) as Hnone.
  assert (Hstop : forall o', (wp, Call (MongoConnect (MONGODB_URI cfg)) None
                               :: Console LLog [Str "Connected to MongoDB"] :: tp, o')
                             = (wi, ti, oi) -> False).
  { intros o' H. inversion H; subst. eapply Hquiet; [| exact Hin].
    simpl. constructor; [reflexivity |]. constructor; [reflexivity |].
    apply Forall_app. auto. }
  destruct op as [backup | e | c | | e]; try (exfalso; exact (Hstop _ Hinner)).
  clear Hstop. cbv zeta in Hinner.
  pose proof (produce_unfailing _ _ _ _ Hproduce) as Hreads.
  exists w1, wp, tp, backup.
  destruct (fs_writeGzip env path (Snapshot.encode backup) wp) as [w2 [[e | e] | []]].
  { inversion Hinner; subst. exists (Some e), extra.
    split; [exact Hproduce | split; [exact Hreads | split]].
    - simpl. rewrite <- app_assoc. reflexivity.
    - apply Hvoid. exact Hextra. }
  { inversion Hinner; subst. exists (Some e), extra.
    split; [exact Hproduce | split; [exact Hreads | split]].
    - simpl. rewrite <- app_assoc. reflexivity.
    - apply Hvoid. exact Hextra. }
  match type of Hinner with
  | context [?after w2] =>
      destruct (after w2) as [[w4 t4] o4] eqn:Hafter;
      assert (Hsent : always (fun ev' =>
                                isArchiveOutput ev' = true ->
                                None = None (A := JsError)
                                /\ exists f',
                                     ev' = Call (S3Upload (S3_BUCKET cfg)
                                                   (IndexTs.s3KeyOf cfg name) path) f')
                        after)
  end.
  { unfold Retention.deleteOldBackups, Retention.listAndDelete, Retention.deleteOne.
    always_all; try discriminate. intros _. split; [reflexivity | eauto]. }
  inversion Hinner; subst. exists None, (t4 ++ extra)%list.
  split; [exact Hproduce | split; [exact Hreads | split]].
  - simpl. rewrite <- app_assoc. reflexivity.
  - apply Forall_app. split; [exact (Hsent _ _ _ _ Hafter) | apply Hvoid; exact Hextra].
Qed.

Lemma produce_ends stuckOk exitOk uncaughtOk :
  ends stuckOk exitOk uncaughtOk (BackupTs.produce env cfg).
Proof.
  unfold BackupTs.produce, RestoreTs.specificDatabaseOf, BackupTs.databasesToBackup.
  repeat (first [apply backupDatabases_ends | ends_step]).
Qed.

(** X8: the connection of the driver based backup.  When
    [new MongoClient] throws on the connection string, before the [try]
    block, the backup throws that error after its first log line: nothing
    is logged as failed, nothing is requested, nothing is closed.  In
    every other run but one the connection is closed: the close request is
    sent exactly once, after every other request (the removal of the
    temporary file in the [catch] block included), the backup returns or
    throws, and an error of the close is what it throws.  The one
    exception is a run in which the gzip stream of the archive, which has
    no listener, fails: that run is cut short at the write, uncaught, and
    the connection is never closed. *)
Theorem driver_backup_closes_the_connection w :
  let name := IndexTs.backupFileNameAt (snd (clock_now env w)) in
  let path := tmpdir_join env name in
  let start := Console LLog [Str "Starting MongoDB backup: "; Str name] in
  match MongoClient_new env (MONGODB_URI cfg) with
  | Some e =>
      BackupTs.createMongoDBBackup env cfg w = (fst (clock_now env w), [start], Thrown e)
  | None =>
      forall w' t o,
        BackupTs.createMongoDBBackup env cfg w = (w', t, o) ->
        (exists t0 f tl,
            t = (t0 ++ Call MongoClose f :: tl)%list
            /\ Forall (fun ev => isClose ev = false) t0
            /\ Forall (fun ev => isCall ev = false) tl
            /\ (forall e, f = Some e -> o = Thrown e)
            /\ ((exists e, o = Thrown e) \/ o = Returned tt))
        \/ (exists e t0 content,
               o = Uncaught e
               /\ t = (t0 ++ [Call (FsWriteGzip path content) (Some e)])%list
               /\ Forall (fun ev => isClose ev = false) t)
  end.
Proof.
  cbv zeta.
  destruct (MongoClient_new env (MONGODB_URI cfg)) as [e |] eqn:Hnew.
  - unfold BackupTs.createMongoDBBackup, newDate, newMongoClient, bind, console.
    destruct (clock_now env w) as [w0 now]. rewrite Hnew. reflexivity.
  - intros w' t o Hrun.
    unfold BackupTs.createMongoDBBackup, newDate in Hrun. unfold bind at 1 in Hrun.
    destruct (clock_now env w) as [w0 now]. cbn [fst snd].
    unfold bind at 1, console at 1 in Hrun.
    set (name := IndexTs.backupFileNameAt now) in *.
    set (path := tmpdir_join env name) in *.
    match type of Hrun with
    | context [bind (newMongoClient env ?u) ?k w0] =>
        destruct (bind (newMongoClient env u) k w0) as [[w3 t3] o3] eqn:Hrest
    end.
    inversion Hrun; subst w' t o; clear Hrun.
    apply newMongoClient_inv in Hrest.
    destruct Hrest as [(e & He & _) | [_ Hrest]]; [rewrite Hnew in He; discriminate He |].
    match type of Hrest with
    | try_finally (try_catch ?inner ?handler) _ _ = _ =>
        assert (Hnone : always (fun ev => isClose ev = false) (try_catch inner handler))
          by (unfold BackupTs.produce, RestoreTs.specificDatabaseOf,
                BackupTs.databasesToBackup, IndexTs.backupFailed, Retention.deleteOldBackups,
                Retention.listAndDelete, Retention.deleteOne;
              repeat (first [apply always_newDate | apply always_toISOString
                            | apply backupDatabases_no_close
                            | always_step]); try reflexivity; auto);
        assert (Hends : ends false false true (try_catch inner handler))
          by (repeat (first [apply deleteOldBackups_ends | apply backupFailed_ends
                            | apply produce_ends | ends_step]));
        assert (Hinner : forall wi ti e,
                   inner w0 = (wi, ti, Uncaught e) ->
                   exists t0 content,
                     ti = (t0 ++ [Call (FsWriteGzip path content) (Some e)])%list)
    end.
    { intros wi ti e Hi. rewrite driver_try_block_cases in Hi.
      destruct (mongo_connect env (MONGODB_URI cfg) w0) as [w1 [e1 | []]];
        [discriminate Hi |].
      destruct (BackupTs.produce env cfg w1) as [[wp tp] op] eqn:Hproduce.
      pose proof (produce_ends false false false _ _ _ _ Hproduce) as Hp.
      destruct op as [backup | e1 | c | | e1]; try discriminate Hi; try discriminate Hp.
      cbv zeta in Hi.
      destruct (fs_writeGzip env path (Snapshot.encode backup) wp) as [w2 [[e1 | e1] | []]].
      - discriminate Hi.
      - inversion Hi; subst.
        exists (Call (MongoConnect (MONGODB_URI cfg)) None
                  :: Console LLog [Str "Connected to MongoDB"] :: tp), (Snapshot.encode backup).
        reflexivity.
      - match type of Hi with
        | context [?after w2] =>
            destruct (after w2) as [[w4 t4] o4] eqn:Hafter;
            assert (Hafterends : ends false false false after)
              by (repeat (first [apply deleteOldBackups_ends | ends_step]))
        end.
        pose proof (Hafterends _ _ _ _ Hafter) as Ha.
        inversion Hi; subst. discriminate Ha. }
    destruct (closed_at_the_end env _ _ _ _ _ _ Hnone Hends Hrest)
      as [(t0 & f & tl & -> & H0 & Hl & Hf) | (e & -> & Hm & Hno)].
    + left.
      exists (Console LLog [Str "Starting MongoDB backup: "; Str name] :: t0), f, tl.
      split; [reflexivity
             | split; [constructor; [reflexivity | exact H0] | split; [exact Hl | split]]].
      * intros e He. subst f. exact Hf.
      * destruct f as [e |]; [left; eauto |].
        destruct Hf as (w1 & _ & [[[] ->] | [e ->]]); eauto.
    + right.
      destruct (try_catch_inv _ _ _ _ _ _ Hm)
        as [(e1 & wi & ti & th & _ & Hh & _) | (Hi & _)].
      * pose proof (backupFailed_ends env false false false path e1 _ _ _ _ Hh) as Hb.
        discriminate Hb.
      * destruct (Hinner _ _ _ Hi) as (t0 & content & ->).
        exists e, (Console LLog [Str "Starting MongoDB backup: "; Str name] :: t0), content.
        split; [reflexivity | split; [reflexivity |]].
        constructor; [reflexivity | exact Hno].
Qed.

End DriverBackup.

(** ** The archive read back *)

Section ReadBack.

Context {W : Type}.
Variable env : Env W.

(** X14: a snapshot that plain JSON carries without loss is read back by
    the restore exactly as the backup wrote it: when the temporary file
    holds the text the backup program writes for the snapshot,
    [decompressBackup] returns that snapshot, after one read of the
    file. *)
Theorem plain_snapshot_is_read_back (b : Snapshot.BackupData) path w w1 :
  Snapshot.PlainSnapshot b ->
  fs_gunzipRead env path w = (w1, inr (Some (Snapshot.encode b))) ->
  RestoreTs.decompressBackup env path w
  = (w1, [Console LLog [Str "Decompressing backup..."]; Call (FsGunzipRead path) None],
     Returned b).
Proof.
  intros Hplain Hread.
  rewrite decompressBackup_cases. cbv zeta. rewrite Hread.
  rewrite (plain_snapshot_roundtrip b Hplain). reflexivity.
Qed.

End ReadBack.

(** ** The command line of the restore *)

Section CommandLine.

Import Cli.

Lemma dropFlag_starts_with_dash arg : isDropFlag arg = true -> startsWithDash arg = true.
Proof.
  unfold isDropFlag. intros H. apply orb_prop in H as [H | H];
    apply String.eqb_eq in H; subst; reflexivity.
Qed.

Lemma latestFlag_starts_with_dash arg : isLatestFlag arg = true -> startsWithDash arg = true.
Proof.
  unfold isLatestFlag. intros H. apply orb_prop in H as [H | H];
    apply String.eqb_eq in H; subst; reflexivity.
Qed.

(** The loop over arguments none of which is [--file] or [-f], from any
    values of the two variables. *)
Lemma parseArgs_without_file_flag args file drop :
  existsb isFileFlag args = false ->
  parseArgs args file drop
  = Some (match lastPositional args with Some p => Some p | None => file end,
          drop || existsb isDropFlag args).
Proof.
  revert file drop. induction args as [| arg rest IH]; intros file drop Hfile.
  - simpl. rewrite orb_false_r. reflexivity.
  - simpl in Hfile. apply orb_false_elim in Hfile as [Harg Hrest].
    simpl. rewrite Harg.
    destruct (isDropFlag arg) eqn:Hdrop.
    + rewrite (IH _ _ Hrest), (dropFlag_starts_with_dash _ Hdrop).
      rewrite andb_false_r, !orb_true_r. simpl.
      destruct (lastPositional rest); reflexivity.
    + destruct (isLatestFlag arg) eqn:Hlatest.
      * rewrite (IH _ _ Hrest), (latestFlag_starts_with_dash _ Hlatest).
        rewrite andb_false_r. simpl. destruct (lastPositional rest); reflexivity.
      * destruct (JS.truthy arg && negb (startsWithDash arg));
          rewrite (IH _ _ Hrest); simpl; destruct (lastPositional rest); reflexivity.
Qed.

(** X15: the arguments of the restore when none of them is [--file] or
    [-f]: the file name is the last argument that neither is empty nor
    starts with a dash (none when there is no such argument), whatever
    stands around it, [--latest] included; the collections are dropped
    exactly when [--drop] or [-d] occurs somewhere. *)
Theorem arguments_without_file_flag args :
  existsb isFileFlag args = false ->
  parseArgs args None false = Some (lastPositional args, existsb isDropFlag args).
Proof.
  intros Hfile. rewrite (parseArgs_without_file_flag _ _ _ Hfile).
  destruct (lastPositional args); reflexivity.
Qed.

Context {W : Type}.
Variable env : Env W.
Variable cfg : Config.
Variable delay : Z -> Js W unit.

Lemma forEach_console {A : Type} (l : list A) (line : A -> list Frag) (w : W) :
  forEach l (fun x => console LLog (line x)) w
  = (w, map (fun x => Console LLog (line x)) l, Returned tt).
Proof.
  induction l as [| x l IH]; [reflexivity |].
  simpl. unfold bind. rewrite console_run, IH. reflexivity.
Qed.

(** X16: [--help] and [--list].  With [--help] or [-h] among the
    arguments the restore program prints the usage text and leaves with
    code 0, whatever the other arguments, without any request.  Otherwise,
    with [--list], it sends the one request that lists the archives and
    nothing else: when the request fails, its error leaves [main]
    uncaught; when it succeeds each archive with a key and a date gets a
    line, the newest first, and the program leaves with code 0. *)
Theorem help_and_list_commands args w :
  (includes "--help" args || includes "-h" args = true ->
   main env cfg delay args w = (w, [Console LLog [Str usageText]], Exited 0))
  /\ (includes "--help" args || includes "-h" args = false ->
      includes "--list" args = true ->
      let listing := S3ListObjectsV2 (S3_BUCKET cfg) (Retention.backupPrefix cfg) in
      let header :=
        Console LLog [Str ("Available backups:" ++ String (ascii_of_nat 10) EmptyString)] in
      match s3_listObjectsV2 env (S3_BUCKET cfg) (Retention.backupPrefix cfg) w with
      | (w1, inl e) =>
          main env cfg delay args w = (w1, [header; Call listing (Some e)], Thrown e)
      | (w1, inr response) =>
          main env cfg delay args w
          = (w1,
             header :: Call listing None
               :: match RestoreTs.sortDesc (RestoreTs.listedBackups response) with
                  | [] => [Console LLog [Str "No backups found"]]
                  | backups =>
                      map (fun backup =>
                             Console LLog
                               [Str "  "; Str (JS.lastSegment (RestoreTs.key backup));
                                Str "  (";
                                Str (JS.toISOString (RestoreTs.lastModified backup));
                                Str ")"])
                        backups
                  end,
             Exited 0)
      end).
Proof.
  split.
  - intros Hhelp. unfold main. rewrite Hhelp. reflexivity.
  - intros Hhelp Hlist. cbv zeta.
    destruct (s3_listObjectsV2 env (S3_BUCKET cfg) (Retention.backupPrefix cfg) w)
      as [w1 [e | response]] eqn:Hanswer;
      unfold main; rewrite Hhelp, Hlist; cbv iota;
      unfold listCommand; unfold bind at 1; rewrite console_run; unfold bind at 1.
    + unfold RestoreTs.listBackups, bind, request. rewrite Hanswer. reflexivity.
    + rewrite (listBackups_run env cfg _ _ _ Hanswer).
      destruct (RestoreTs.sortDesc (RestoreTs.listedBackups response)) as [| b l].
      * reflexivity.
      * unfold bind, process_exit. rewrite forEach_console, app_nil_r. reflexivity.
Qed.


End CommandLine.

(** ** The start of the programs *)

Section StartOfThePrograms.

Import Startup.

Context {W : Type}.
Variable env : Env W.
Variable schedule : string -> Js W unit -> Js W unit.
Variable delay : Z -> Js W unit.




End StartOfThePrograms.

(** * Concrete runs of the further properties *)

Section FurtherRuns.

Import Scenario Inputs Fixtures RestoreTs.

(** The unique index on [email] is recreated with its name and its
    uniqueness, and without its version. *)
Lemma createIndex_keeps_the_other_options_witness :
  let options := [("name", VString "email_1"); ("unique", VBool true)] in
  "app"%string = "app"%string /\ "users"%string = "users"%string
  /\ Some (VObject [("email", VNumber 1%float)]) = lookup "key" emailIndex
  /\ lookup "v" options = None
  /\ lookup "ns" options = None
  /\ lookup "key" options = None
  /\ forall k, k <> "v"%string -> k <> "ns"%string -> k <> "key"%string ->
               lookup k options = lookup k emailIndex.
Proof.
  pose (run := restoreIndex (Scenario.env quiet) "app" "users" emailIndex []).
  apply (createIndex_keeps_the_other_options (Scenario.env quiet)
           "app"%string "users"%string emailIndex []
           (fst (fst run)) (traceOf run) (outcomeOf run) eq_refl
           "app"%string "users"%string (Some (VObject [("email", VNumber 1%float)]))
           [("name", VString "email_1"); ("unique", VBool true)] None).
  vm_compute. left. reflexivity.
Defined.

(** The download of an archive under a key path, when the body stream
    breaks: the error is uncaught, and the download does not return. *)
Lemma downloadBackup_writes_one_plain_file_witness :
  let env := bodyStreamFails threeArchives connectionReset in
  let s3Key := "backups/mongodb-backup-20261031.gz"%string in
  let run := downloadBackup env (Scenario.config None) s3Key [] in
  let path := tmpdir_join env (tempNameOf s3Key) in
  path = "/tmp/mongodb-backup-20261031.gz"%string
  /\ outcomeOf run = Uncaught connectionReset
  /\ (exists w1,
        s3_getObject env "bucket" s3Key [] = (w1, inr true)
        /\ fs_pipeToFile env path w1 = (fst (fst run), inl (Unlistened connectionReset)))
  /\ (forall p, outcomeOf run = Returned p
                <-> p = path /\ In (Call (FsPipeToFile path) None) (traceOf run)).
Proof.
  intros env s3Key run path.
  pose proof (downloadBackup_writes_one_plain_file env (Scenario.config None) s3Key []
                (fst (fst run)) (traceOf run) (outcomeOf run) eq_refl) as H.
  cbv zeta in H. destruct H as (_ & _ & _ & _ & Hreturned & Huncaught & _).
  split; [reflexivity | split; [reflexivity | split]].
  - apply (proj1 (Huncaught connectionReset)). reflexivity.
  - exact Hreturned.
Defined.

(** The restore of a named archive from a store that holds three. *)
Lemma restore_of_named_file_skips_the_listing_witness :
  let env := Scenario.env restorable in
  let run := restore env (Scenario.config None) (Some "mongodb-backup-20261022.gz"%string)
               false [] in
  Forall (fun ev => isListObjects ev = false) (traceOf run)
  /\ getObjectKeys (traceOf run) = ["mongodb-backup-20261022.gz"%string]
  /\ (forall c, outcomeOf run <> Exited c).
Proof.
  intros env run.
  apply (restore_of_named_file_skips_the_listing env (Scenario.config None)
           "mongodb-backup-20261022.gz"%string false []
           (fst (fst run)) (traceOf run) (outcomeOf run)).
  - discriminate.
  - vm_compute. reflexivity.
Defined.

(** The restore of the latest archive when the file read back is not
    JSON: the temporary file is removed all the same.  When the stream
    that reads the file breaks, the error is uncaught and the file
    stays. *)
Lemma restore_removes_the_temporary_file_witness :
  let env := Scenario.env unreadable in
  let run := restore env (Scenario.config None) None false [] in
  let broken := restore (readStreamFails restorable connectionReset) (Scenario.config None)
                  None false [] in
  (forall p, In (Call (FsPipeToFile p) None) (traceOf run) ->
             exists f, In (Call (FsUnlink p) f) (traceOf run))
  /\ (forall p f, In (Call (FsUnlink p) f) (traceOf run) ->
                  In (Call (FsPipeToFile p) None) (traceOf run))
  /\ outcomeOf broken = Uncaught connectionReset
  /\ (forall p f, ~ In (Call (FsUnlink p) f) (traceOf broken))
  /\ exists p,
       In (Call (FsPipeToFile p) (Some connectionReset)) (traceOf broken)
       \/ (In (Call (FsPipeToFile p) None) (traceOf broken)
           /\ In (Call (FsGunzipRead p) (Some connectionReset)) (traceOf broken)).
Proof.
  intros env run broken.
  pose proof (restore_removes_the_temporary_file env (Scenario.config None) None false []
                (fst (fst run)) (traceOf run) (outcomeOf run) eq_refl)
    as (Hremoved & Hwritten & _).
  pose proof (restore_removes_the_temporary_file
                (readStreamFails restorable connectionReset) (Scenario.config None)
                None false []
                (fst (fst broken)) (traceOf broken) (outcomeOf broken) eq_refl)
    as (_ & _ & Hstays).
  split; [| split; [exact Hwritten | split; [reflexivity |]]].
  - apply Hremoved.
    + vm_compute. discriminate.
    + intros e. vm_compute. discriminate.
  - exact (Hstays connectionReset eq_refl).
Defined.

(** The restore of the latest archive of the store. *)
Lemma restore_reads_the_archive_before_the_database_witness :
  let env := Scenario.env restorable in
  let run := restore env (Scenario.config None) None false [] in
  ((exists ev, In ev (traceOf run) /\ isDriverRequest ev = true) ->
   exists p,
     In (Call (FsPipeToFile p) None) (traceOf run)
     /\ In (Call (FsGunzipRead p) None) (traceOf run)
     /\ getObjectKeys (traceOf run) <> [])
  /\ (forall path w0 w1 t0 backup,
         decompressBackup env path w0 = (w1, t0, Returned backup) ->
         exists j,
           fs_gunzipRead env path w0 = (w1, inr (Some j))
           /\ Snapshot.decode j = Parsed backup).
Proof.
  intros env run.
  apply (restore_reads_the_archive_before_the_database env (Scenario.config None) None false []
           (fst (fst run)) (traceOf run) (outcomeOf run)).
  vm_compute. reflexivity.
Defined.

(** The restore of the snapshot of two databases when a bulk insert fails
    validation: the connection is closed after the failure.  With a
    connection string the driver cannot parse there is no connection to
    close. *)
Lemma restoreToMongoDB_closes_the_connection_witness :
  let env := Scenario.env (withInsertFailure quiet validationFailed) in
  let run := restoreToMongoDB env (Scenario.config None) usersSnapshot false [] in
  (exists t0 f tl,
      traceOf run = (t0 ++ Call MongoClose f :: tl)%list
      /\ Forall (fun ev => isClose ev = false) t0
      /\ Forall (fun ev => isCall ev = false) tl
      /\ (forall e, f = Some e -> outcomeOf run = Thrown e)
      /\ ((exists e, outcomeOf run = Thrown e) \/ outcomeOf run = Returned tt))
  /\ restoreToMongoDB (clientRefused quiet invalidScheme) (Scenario.config None)
       usersSnapshot false []
     = ([], [], Thrown invalidScheme).
Proof.
  intros env run. split.
  - exact (restoreToMongoDB_closes_the_connection env (Scenario.config None)
             usersSnapshot false []
             (fst (fst run)) (traceOf run) (outcomeOf run) eq_refl).
  - exact (restoreToMongoDB_closes_the_connection (clientRefused quiet invalidScheme)
             (Scenario.config None) usersSnapshot false []).
Defined.

(** The driver based backup of the database the URI names closes its
    connection; with a connection string the driver cannot parse it throws
    after its first line; and when the gzip stream of the archive breaks
    it is cut short at the write, the connection left open. *)
Lemma driver_backup_closes_the_connection_witness :
  let env := Scenario.env scopedToApp in
  let run := BackupTs.createMongoDBBackup env (Scenario.config None) [] in
  let broken := BackupTs.createMongoDBBackup (gzipStreamFails scopedToApp noSpaceLeft)
                  (Scenario.config None) [] in
  let start := Console LLog [Str "Starting MongoDB backup: ";
                             Str "mongodb-backup-20261101.gz"] in
  ((exists t0 f tl,
       traceOf run = (t0 ++ Call MongoClose f :: tl)%list
       /\ Forall (fun ev => isClose ev = false) t0
       /\ Forall (fun ev => isCall ev = false) tl
       /\ (forall e, f = Some e -> outcomeOf run = Thrown e)
       /\ ((exists e, outcomeOf run = Thrown e) \/ outcomeOf run = Returned tt))
   \/ (exists e t0 content,
          outcomeOf run = Uncaught e
          /\ traceOf run
             = (t0 ++ [Call (FsWriteGzip "/tmp/mongodb-backup-20261101.gz" content)
                         (Some e)])%list
          /\ Forall (fun ev => isClose ev = false) (traceOf run)))
  /\ outcomeOf run = Returned tt
  /\ BackupTs.createMongoDBBackup (clientRefused scopedToApp invalidScheme)
       (Scenario.config None) []
     = ([], [start], Thrown invalidScheme)
  /\ outcomeOf broken = Uncaught noSpaceLeft
  /\ ((exists t0 f tl,
         traceOf broken = (t0 ++ Call MongoClose f :: tl)%list
         /\ Forall (fun ev => isClose ev = false) t0
         /\ Forall (fun ev => isCall ev = false) tl
         /\ (forall e, f = Some e -> outcomeOf broken = Thrown e)
         /\ ((exists e, outcomeOf broken = Thrown e) \/ outcomeOf broken = Returned tt))
      \/ (exists e t0 content,
             outcomeOf broken = Uncaught e
             /\ traceOf broken
                = (t0 ++ [Call (FsWriteGzip "/tmp/mongodb-backup-20261101.gz" content)
                            (Some e)])%list
             /\ Forall (fun ev => isClose ev = false) (traceOf broken))).
Proof.
  intros env run broken start.
  split; [| split; [reflexivity | split; [| split; [reflexivity |]]]].
  - exact (driver_backup_closes_the_connection env (Scenario.config None) []
             (fst (fst run)) (traceOf run) (outcomeOf run) eq_refl).
  - exact (driver_backup_closes_the_connection (clientRefused scopedToApp invalidScheme)
             (Scenario.config None) []).
  - exact (driver_backup_closes_the_connection (gzipStreamFails scopedToApp noSpaceLeft)
             (Scenario.config None) []
             (fst (fst broken)) (traceOf broken) (outcomeOf broken) eq_refl).
Defined.

(** The restore of the collection [users] with and without the drop. *)
Lemma drop_precedes_the_restore_of_a_collection_witness :
  let env := Scenario.env quiet in
  let plain := restoreCollection env false "app" ("users"%string, usersCollection)
                 [MongoDrop "app" "users"] in
  let line := Console LLog [Str "  Restoring collection: "; Str "users"] in
  restoreCollection env true "app" ("users"%string, usersCollection) []
  = (fst (fst plain),
     (line :: Call (MongoDrop "app" "users") None
           :: Console LLog [Str "    Dropped existing collection: "; Str "users"]
           :: List.tl (traceOf plain))%list,
     outcomeOf plain)
  /\ Forall (fun ev => isDrop ev = false) (line :: List.tl (traceOf plain)).
Proof.
  intros env plain line.
  apply (proj2 (drop_precedes_the_restore_of_a_collection env (Scenario.config None))
           "app"%string "users"%string usersCollection []
           [MongoDrop "app" "users"] (inr tt)
           (fst (fst plain)) line (List.tl (traceOf plain)) (outcomeOf plain)).
  - reflexivity.
  - vm_compute. reflexivity.
Defined.

(** A backup whose upload the store refuses: the temporary file is
    removed and the error of the store is thrown.  A backup whose
    temporary file cannot be written: the error of the stream is uncaught,
    and the run stops at the dump. *)
Lemma dump_backup_steps_and_failure_witness :
  let env := uploadRefused quiet accessDenied in
  let cfg := Scenario.config (Some "30"%string) in
  let run := IndexTs.createMongoDBBackup env cfg [] in
  let broken := IndexTs.createMongoDBBackup (dumpStreamFails quiet noSpaceLeft) cfg [] in
  let path := "/tmp/mongodb-backup-20261101.gz"%string in
  (outcomeOf run = Thrown accessDenied
   /\ exists before f notes,
        traceOf run
        = (before ++ Console LError [Str "Backup failed:"; Err accessDenied]
             :: Call (FsUnlink path) f :: notes)%list
        /\ forallb (fun ev => negb (isCall ev)) notes = true)
  /\ outcomeOf broken = Uncaught noSpaceLeft
  /\ traceOf broken
     = [Console LLog [Str "Starting MongoDB backup: "; Str "mongodb-backup-20261101.gz"];
        Call (Mongodump "mongodb://db.example/" path) (Some noSpaceLeft)].
Proof.
  intros env cfg run broken path.
  assert (Ho : outcomeOf run = Thrown accessDenied) by reflexivity.
  assert (Hb : outcomeOf broken = Uncaught noSpaceLeft) by reflexivity.
  split; [split; [exact Ho |] | split; [exact Hb |]].
  - exact (proj1 (proj2 (proj2 (proj2 (dump_backup_steps_and_failure env cfg []
                                         (fst (fst run)) (traceOf run) (outcomeOf run)
                                         eq_refl))))
             accessDenied Ho).
  - exact (proj1 (proj2 (proj2 (dump_backup_steps_and_failure
                                  (dumpStreamFails quiet noSpaceLeft) cfg []
                                  (fst (fst broken)) (traceOf broken) (outcomeOf broken)
                                  eq_refl)))
             noSpaceLeft Hb).
Defined.

(** [RETENTION_DAYS=0]: the backup is the one of the first version, with
    one more line in the log. *)
Lemma without_retention_the_backup_is_the_first_version_witness :
  let env := Scenario.env quiet in
  let cfg := Scenario.config (Some "0"%string) in
  exists note,
    (note = "No retention period set, skipping cleanup"%string
     \/ note = "Invalid retention period, skipping cleanup"%string)
    /\ forall w,
        IndexTs.createMongoDBBackup env cfg w =
        match LegacyIndex.createMongoDBBackup env cfg w with
        | (w', t, Returned _) => (w', (t ++ [Console LLog [Str note]])%list, Returned tt)
        | r => r
        end.
Proof.
  intros env cfg.
  apply (without_retention_the_backup_is_the_first_version env cfg).
  right. right. exists 0. split; [reflexivity | lia].
Defined.

(** The upload of the driver based backup of the database [app]: the
    snapshot it carries was read without a failure. *)
Lemma driver_backup_archives_a_complete_snapshot_witness :
  let env := Scenario.env scopedToApp in
  let cfg := Scenario.config None in
  let run := BackupTs.createMongoDBBackup env cfg [] in
  let name := "mongodb-backup-20261101.gz"%string in
  let path := "/tmp/mongodb-backup-20261101.gz"%string in
  exists w1 wp tp backup f rest,
    BackupTs.produce env cfg w1 = (wp, tp, Returned backup)
    /\ Forall (fun ev => failed ev = false) tp
    /\ traceOf run
       = (Console LLog [Str "Starting MongoDB backup: "; Str name]
            :: Call (MongoConnect "mongodb://db.example/") None
            :: Console LLog [Str "Connected to MongoDB"]
            :: tp ++ Call (FsWriteGzip path (Snapshot.encode backup)) f :: rest)%list
    /\ Forall (fun ev' =>
                 isArchiveOutput ev' = true ->
                 f = None
                 /\ exists f', ev' = Call (S3Upload "bucket" name path) f')
         rest.
Proof.
  intros env cfg run name path.
  apply (driver_backup_archives_a_complete_snapshot env cfg []
           (fst (fst run)) (traceOf run) (outcomeOf run)
           (Call (S3Upload "bucket" name path) None)).
  - vm_compute. reflexivity.
  - vm_compute. auto 20.
  - reflexivity.
Defined.

(** The snapshot of two databases is read back from its archive. *)
Lemma plain_snapshot_is_read_back_witness :
  let env := Scenario.env restorable in
  let path := "/tmp/mongodb-backup-20261031.gz"%string in
  decompressBackup env path []
  = ([FsGunzipRead path],
     [Console LLog [Str "Decompressing backup..."]; Call (FsGunzipRead path) None],
     Returned usersSnapshot).
Proof.
  intros env path.
  apply (plain_snapshot_is_read_back env usersSnapshot path [] [FsGunzipRead path]).
  - repeat constructor.
  - reflexivity.
Defined.

(** Two file names around [--latest], after [--drop]: the second name is
    restored, and the collections are dropped. *)
Lemma arguments_without_file_flag_witness :
  Cli.parseArgs ["--drop"; "a.gz"; "--latest"; "b.gz"]%string None false
  = Some (lastPositional ["--drop"; "a.gz"; "--latest"; "b.gz"]%string,
          existsb Cli.isDropFlag ["--drop"; "a.gz"; "--latest"; "b.gz"]%string).
Proof.
  apply (arguments_without_file_flag ["--drop"; "a.gz"; "--latest"; "b.gz"]%string).
  reflexivity.
Defined.


(** Two runs an hour apart on the first of November 2026 write to the
    same key. *)
Lemma archive_named_after_the_utc_day_witness :
  let cfg := Scenario.config None in
  IndexTs.s3KeyOf cfg (IndexTs.backupFileNameAt (Scenario.now quiet + 3600000))
  = IndexTs.s3KeyOf cfg (IndexTs.backupFileNameAt (Scenario.now quiet)).
Proof.
  intros cfg.
  apply (proj1 (proj2 (archive_named_after_the_utc_day cfg (Scenario.now quiet)))).
  reflexivity.
Defined.

(** [--help] after [--list]: the usage text, and no listing. *)
Lemma help_and_list_commands_witness :
  Cli.main (Scenario.env threeArchives) (Scenario.config None) resolves
    ["--list"; "--help"]%string []
  = ([], [Console LLog [Str Cli.usageText]], Exited 0).
Proof.
  apply (proj1 (help_and_list_commands (Scenario.env threeArchives) (Scenario.config None)
                  resolves ["--list"; "--help"]%string [])).
  reflexivity.
Defined.


End FurtherRuns.
